(* ===== verification/_CoqProject ===== *)
-Q . S2P
Prelude.v
Runs.v
DebounceSpec.v
Debounce.v
DebounceMachine.v
Transitions.v
Values.v
Threshold.v
Classifier.v
DistributionPlot.v
Pipeline.v
Detrend.v
LogMUA.v
Plot.v
Figure.v
PlotMain.v
Cli.v
Output.v
Compose.v
