(* ===== verification/Prelude.v ===== *)
(** * Wavescalephant UP/DOWN state detection: a verification development

    This development models the state-detection pipeline of the
    wavescalephant repository (INM-6) and proves what it computes.  The
    pipeline has two scripts, and this development covers both:
    - src/snakemake_workflow/fieldpotential_analysis/scripts/fp_logMUA_estimation.py
      turns each raw channel into a logMUA signal, the log of the
      band-limited power in consecutive windows;
    - src/pipeline/fieldpotential_analysis/scripts/fp_up_down_detection.py
      reads the logMUA signals back and processes each channel. It fits
      the noise mode of the amplitude histogram, thresholds every sample
      into UP or DOWN, removes states that are too short, and extracts
      the transition times.
    The first script's output annotations are the second's input: the
    stop time reaches the second stage as an annotation.

    ** Files, in dependency order

    - [Prelude] (this file): the notation [sv.[i]] for numpy indexing, the
      hint databases [wsp] and [wsp_rw], list and sorting lemmas, and the
      tactics [nat_cmp_cases] and [ltb_lia]. It also holds Python
      exceptions as values: [py_error], [result] with [Ok] / [Err], its
      [bind] notation [x <- r ;; k], and [map_result], the loop that
      stops at the first exception.
    - [Runs]: the run-length view of a boolean vector ([runs], [flatten],
      [rcons]) and its round trip [flatten (runs l) = l].
    - [DebounceSpec]: the specification of one cleaning pass on runs
      ([spec_pass]): every run but the first, of the target state and
      shorter than the minimum, flips.
    - [Debounce]: [remove_short_states] (lines 57-77) as written. Its two
      nested [while] loops are [clean_loop] and [measure_run], the numpy
      slice write is [slice_assign], and [clean_order] gives the order of
      the two passes. Theorems C1-C3, C6-C9.
    - [DebounceMachine]: the same function as a small-step machine, with
      one state per program point and one rule per branch ([dstep]),
      and no fuel. Theorems C21 and C27.
    - [Transitions]: [statevector_to_spiketrains] (lines 121-141), with
      its two accumulators, neo's [SpikeTrain] check of the times
      ([spike_train_new]), and the trains the debouncer leaves
      (C4, C10, C11, C13, C14).
    - [Values]: float samples ([fval]: finite rationals, [inf], [-inf],
      [nan]), [np.isfinite], [>] and [np.mean].
    - [Threshold]: [logMUA_distribution] (lines 9-31). The model includes
      numpy's [histogram], the mirrored lower half and the two fits.
      scipy's [curve_fit] is the typeclass [CurveFit]: it converges or
      raises [RuntimeError]. Theorems C17, C19.
    - [Classifier]: [create_state_vector] (lines 80-90). The threshold
      mode is chosen by Python truthiness. Theorem C20.
    - [DistributionPlot]: the plotting block of [logMUA_distribution]
      (lines 32-53), and the two functions with their [plot] argument.
      Theorem C15.
    - [Pipeline]: [create_all_state_vectors] (lines 93-118), the Python
      keyword binding of its [statevector_to_spiketrains] call,
      [np.array] of the state vectors, and [remove_duplicate_properties]
      (lines 144-151). Theorems C24-C26, C28.
    - [Detrend]: [detrending] of fp_logMUA_estimation.py (lines 7-20), on
      2-d arrays with numpy's broadcasting rule ([bsub]). Theorems
      C29-C32.
    - [LogMUA]: [build_logMUA_segment] (lines 23-39), [logMUA_estimation]
      (lines 42-75), [remove_duplicate_properties] (lines 79-86) and the
      main block's processing (lines 101-106). elephant's [welch_psd] is
      the typeclass [WelchPSD], which gives the frequency grid and the
      shapes. neo's [AnalogSignal] constructor is modelled by its keyword
      binding. Theorems C5, C12, C33-C38.
    - [Plot]: the computation of [plot_avg_transisitons] in
      plot_avg_transitions.py (lines 10-28): the window selection with
      Python's negative indices and slices, the averages of
      [np.mean(..., axis=0)] on floats with [nan], and the time axis.
      Theorem C23.
    - [Figure]: the drawing (lines 26-44), with [np.std] and the shape
      checks of matplotlib's [plot] and [fill_between]. Theorem C32.
    - [PlotMain]: the script's main block (lines 48-72). It covers the
      [nargs=1] options, the channel choice, [plt.show],
      [os.path.dirname], [os.makedirs] and [plt.savefig]. Theorems C16
      and C18.
    - [Cli]: [str2bool], the argument defaults, the [None] of a bare
      [--remove_down_first], and the processing of the main block of
      fp_up_down_detection.py (lines 153-190).
    - [Output]: the neo [Segment] and [Block] each main block writes.
      - fp_logMUA_estimation.py: lines 31 and 103-111.
      - fp_up_down_detection.py: lines 173-206, with [np.save] before
        the renaming of the block.
    - [Compose]: the two scripts in sequence, through a block written and
      read back ([stored_block]). Theorem C22.

    ** Correspondence with the code

    Each Python function is one Definition of the same name. Each loop is
    a Fixpoint or a [fold_left] over the same range, and each exception
    is an [Err] at the line that raises it. Three numeric choices:
    - floats are exact rationals [Q], and the non-finite values are
      explicit constructors of [fval];
    - numpy arrays are lists, and 2-d arrays are lists of rows;
    - annotation dictionaries are association lists in insertion order.
    The library calls the scripts rely on are typeclass interfaces,
    stated by what the libraries document: [curve_fit] as [CurveFit] and
    [welch_psd] as [WelchPSD]. Each has one concrete instance, passed
    explicitly (the moment fit and [flat_welch]), which the concrete runs
    and witnesses evaluate.

    ** What the theorems show

    - Debouncer:
      - each pass refines its run-level specification (C1);
      - what the result guarantees: every run but the leading one is
        long enough (C2), and exactly the vectors with that property are
        left unchanged (C3);
      - spikes in the interior, near the end and at the start (C6-C8);
      - both [while] loops terminate within their measure (C9);
      - every run of the statement-level machine reaches the [return]
        with the loops' result (C21, liveness), and every array access
        it makes is in range (C27).
    - Transition extraction:
      - the UP->DOWN list (C10);
      - the DOWN->UP list, which holds UP->DOWN times (C11);
      - sortedness (C13);
      - the scenario of spec section 8 through the debouncer: a long
        burst gives one transition pair (C14);
      - after debouncing, consecutive UP->DOWN transitions are at least
        [2 * min_state_duration] samples apart (C4).
    - Threshold estimation: the exceptions it raises (C17, C19).
    - The diagnostic plot of [--show_plots] changes neither the state
      vector nor the exceptions (C15).
    - Classifier: monotonicity in [sigma_threshold] (C20).
    - Channel loop:
      - the output order, and the equal lengths [np.array] needs (C24);
      - the [t_stop] binding (C25);
      - no per-channel fault isolation (C26);
      - annotation cleanup (C28).
    - Detrending:
      - order 1 gives zero mean (C29);
      - order 2 gives a W x W matrix (C30);
      - orders up to 4 are accepted, and orders from 5 raise
        [IndexError] (C31).
    - logMUA:
      - the keyword binding of [AnalogSignal]: the provenance values,
        the raw annotations kept or consumed, and the [TypeError] of a
        clashing key (C12);
      - orders 0 and 1 give the band power of the spec (C33);
      - output lengths (C34);
      - order 2 averages rows (C35);
      - band and window-size errors, and the window-size bounds (C36-C38);
      - the hand-over of [t_stop] to the second stage (C5).
    - The two scripts composed, from raw channels of one span to the
      block written, with the names its segments get (C22). Channels of
      different spans can make neo's [SpikeTrain] raise [ValueError].
    - Plot:
      - the script only runs with every option given on the command
        line (C16);
      - it saves only into a named directory: a bare file name raises
        [FileNotFoundError] (C18);
      - the figure is drawn exactly when there are UP and DOWN windows
        (C32);
      - the averaged windows around the state changes, each of [2w]
        samples, and the time axis (C23).

    ** Fuel

    The [while] loops of [remove_short_states] are Fixpoints with fuel:
    - [clean_pass] gives [clean_loop] the array length [length sv];
    - [clean_iter] gives [measure_run] the [length sv - (i+1)] samples
      that follow the index.
    Both are enough. C9 proves that the outer index grows by at least
    one per iteration, that the inner count stops at the end of the
    array, and that more fuel than [length sv - i] changes nothing. C1
    proves that with any fuel of at least the length, the loop equals
    the fuel-free specification. C21 proves that the fuel-free machine
    of [DebounceMachine], which steps through the code's branches one
    at a time, ends with the same array. Every other loop is
    structural.

    ** Not modelled

    - argparse itself, NIX file reading and writing, [np.save],
      [np.load] and [load_segment]: I/O. The blocks read are the
      models' inputs and the blocks and arrays written their outputs.
      The options of the two processing scripts enter the models as
      typed values. The [None] that a bare [nargs='?'] option or an
      omitted [--freq_band] or [--psd_overlap] gives is modelled only
      for [--remove_down_first]. For the others, Python's truthiness
      and comparisons carry [None] into the classifier, the debouncer,
      elephant's [welch_psd] and the annotations. The spec leaves
      argument parsing out of scope.
      In the plot script, the loaders and [os.path.exists] are section
      variables standing for the files and the file system.
    - Which [--format] matplotlib accepts, and the text and position of
      the labels, which depend on matplotlib's backend and autoscaling.
    - The storage round trip between the two scripts is assumed to keep
      the names, the values, [t_start], the rate and neo's time grid, and
      every annotation but NixIO's bookkeeping keys [nix_name] and
      [neo_name], which it may add or change ([stored_block]).
    - The numerics inside scipy's [curve_fit], elephant's [welch_psd],
      [np.log], [np.exp] and [np.sqrt]: only the promises of [CurveFit]
      and [WelchPSD] are used, and the others are arbitrary functions
      ([ln], [gaussian], [sqrt]).
    - Float rounding: the arithmetic is exact. numpy is taken at version
      1.24 or later, where ragged lists raise [ValueError]. *)

From Stdlib Require Import List Lia Bool Arith Sorting.Sorted.
Import ListNotations.

(** ** Scope and notations shared by the development *)

Declare Scope wsp_scope.
Delimit Scope wsp_scope with wsp.

(** Python/numpy indexing of a boolean array: [sv[i]]. The index is always in
    range where the models use it; [false] is only a placeholder default. *)
Notation "sv .[ i ]" := (nth i sv false) (at level 1, left associativity, format "sv .[ i ]") : wsp_scope.

Open Scope wsp_scope.

(** ** Hint database *)

Create HintDb wsp.
Create Rewrite HintDb wsp_rw.

(** ** Generic list lemmas *)

Lemma nth_app_shift {A} (p l : list A) (j : nat) (d : A) :
  nth (length p + j) (p ++ l) d = nth j l d.
Proof. rewrite app_nth2 by lia. f_equal. lia. Qed.

Lemma firstn_app_shift {A} (p l : list A) (j : nat) :
  firstn (length p + j) (p ++ l) = p ++ firstn j l.
Proof. apply firstn_app_2. Qed.

Lemma skipn_app_shift {A} (p l : list A) (j : nat) :
  skipn (length p + j) (p ++ l) = skipn j l.
Proof. rewrite skipn_app, (skipn_all2 p) by lia. simpl. f_equal. lia. Qed.

Lemma repeat_app_same {A} (x : A) (n k : nat) :
  repeat x n ++ repeat x k = repeat x (n + k).
Proof. induction n; simpl; congruence. Qed.

Lemma repeat_cons_app {A} (x : A) (n : nat) (l : list A) :
  repeat x (S n) ++ l = x :: repeat x n ++ l.
Proof. reflexivity. Qed.

Lemma repeat_S_app_r {A} (x : A) (n : nat) (l : list A) :
  repeat x (S n) ++ l = repeat x n ++ x :: l.
Proof. induction n; simpl in *; [reflexivity|now rewrite IHn]. Qed.

Lemma length_removelast_cons {A} (a : A) (l : list A) :
  length (removelast (a :: l)) = length l.
Proof.
  revert a; induction l as [|b l IH]; intros a; [reflexivity|].
  change (removelast (a :: b :: l)) with (a :: removelast (b :: l)). cbn [length]. now rewrite IH.
Qed.

Lemma Forall_repeat_eq {A} (x : A) (n : nat) : Forall (fun y => y = x) (repeat x n).
Proof. induction n; constructor; auto. Qed.

(** Strictly sorted lists (times of events). *)
Lemma StronglySorted_map_filter {A B} (R : B -> B -> Prop) (g : A -> B) (p : A -> bool) l :
  StronglySorted R (map g l) -> StronglySorted R (map g (filter p l)).
Proof.
  induction l as [|a l IH]; simpl; intros H; [constructor|].
  apply StronglySorted_inv in H as [Hl Ha].
  destruct (p a); simpl; [|now apply IH].
  constructor; [now apply IH|].
  apply Forall_forall. intros y Hy. apply in_map_iff in Hy as (x & <- & Hx).
  apply filter_In in Hx as [Hx _]. rewrite Forall_forall in Ha. apply Ha, in_map, Hx.
Qed.

Lemma StronglySorted_app_l {A} (R : A -> A -> Prop) l1 l2 :
  StronglySorted R (l1 ++ l2) -> StronglySorted R l1.
Proof.
  induction l1 as [|a l1 IH]; simpl; intros H; [constructor|].
  apply StronglySorted_inv in H as [Hl Ha]. constructor; [now apply IH|].
  apply Forall_forall. intros y Hy. rewrite Forall_forall in Ha. apply Ha, in_or_app; auto.
Qed.

Lemma StronglySorted_app_before {A} (R : A -> A -> Prop) l1 x l2 :
  StronglySorted R (l1 ++ x :: l2) -> Forall (fun y => R y x) l1.
Proof.
  induction l1 as [|a l1 IH]; simpl; intros H; [constructor|].
  apply StronglySorted_inv in H as [Hl Ha]. constructor; [|now apply IH].
  rewrite Forall_forall in Ha. apply Ha, in_or_app. right; left; reflexivity.
Qed.

Lemma StronglySorted_snoc {A} (R : A -> A -> Prop) l x :
  StronglySorted R l -> Forall (fun y => R y x) l -> StronglySorted R (l ++ [x]).
Proof.
  induction l as [|a l IH]; simpl; intros Hs Hx; [repeat constructor|].
  apply StronglySorted_inv in Hs as [Hl Ha]. inversion Hx; subst.
  constructor; [now apply IH|]. apply Forall_app; split; [exact Ha|now constructor].
Qed.

#[export] Hint Rewrite @nth_app_shift @firstn_app_shift @skipn_app_shift
  @length_app @repeat_length : wsp_rw.
#[export] Hint Resolve Forall_repeat_eq : wsp.

(** ** Tactics *)

(** Case analysis on every boolean comparison of naturals in the goal. *)
Ltac nat_cmp_cases :=
  repeat match goal with
  | |- context [?a <=? ?b] => destruct (Nat.leb_spec0 a b)
  | |- context [?a <? ?b] => destruct (Nat.ltb_spec0 a b)
  end.

(** Decide every [a <? b] of the goal with [lia]. *)
Ltac ltb_lia :=
  repeat match goal with
  | |- context [?a <? ?b] =>
      first [ rewrite (proj2 (Nat.ltb_lt a b)) by lia
            | rewrite (proj2 (Nat.ltb_ge a b)) by lia ]
  end.

(** ** Python exceptions as values *)

(** The exceptions the modelled code can raise; a fallible operation returns
    [Ok] with its value or [Err] with the exception it raises. *)
Inductive py_error : Type :=
| ValueError
| RuntimeError
| IndexError
| ZeroDivisionError
| TypeError
| OverflowError
| ArgumentTypeError
| FileNotFoundError
| AttributeError.

Inductive result (A : Type) : Type :=
| Ok (a : A)
| Err (e : py_error).
Arguments Ok {A} a.
Arguments Err {A} e.

Definition bind {A B} (r : result A) (k : A -> result B) : result B :=
  match r with
  | Ok a => k a
  | Err e => Err e
  end.

Notation "x <- r ;; k" := (bind r (fun x => k))
  (at level 61, r at next level, right associativity) : wsp_scope.
Notation "' p <- r ;; k" := (bind r (fun x => match x with p => k end))
  (at level 61, p pattern, r at next level, right associativity) : wsp_scope.

Definition is_ok {A} (r : result A) : bool := match r with Ok _ => true | Err _ => false end.

Lemma bind_ok {A B} (a : A) (k : A -> result B) : bind (Ok a) k = k a.
Proof. reflexivity. Qed.

Lemma bind_err {A B} e (k : A -> result B) : bind (Err e) k = Err e.
Proof. reflexivity. Qed.

Lemma bind_inv {A B} (r : result A) (k : A -> result B) b :
  bind r k = Ok b -> exists a, r = Ok a /\ k a = Ok b.
Proof. destruct r; simpl; [eauto|discriminate]. Qed.

#[export] Hint Rewrite @bind_ok @bind_err : wsp_rw.

(** A loop that applies a fallible step to every element and stops at the
    first exception. *)
Fixpoint map_result {A B} (g : A -> result B) (l : list A) : result (list B) :=
  match l with
  | [] => Ok []
  | x :: l' => bind (g x) (fun y => bind (map_result g l') (fun ys => Ok (y :: ys)))
  end.

Lemma map_result_length {A B} (g : A -> result B) l ys :
  map_result g l = Ok ys -> length ys = length l.
Proof.
  revert ys; induction l as [|x l IH]; intros ys; simpl; [now intros [= <-]|].
  destruct (g x); simpl; [|discriminate].
  destruct (map_result g l) eqn:E; simpl; [|discriminate]. intros [= <-]. simpl. f_equal. now apply IH.
Qed.

Lemma map_result_Forall2 {A B} (g : A -> result B) l ys :
  map_result g l = Ok ys -> Forall2 (fun x y => g x = Ok y) l ys.
Proof.
  revert ys; induction l as [|x l IH]; intros ys; simpl; [intros [= <-]; constructor|].
  destruct (g x) eqn:Eg; simpl; [|discriminate].
  destruct (map_result g l) eqn:E; simpl; [|discriminate]. intros [= <-]. constructor; auto.
Qed.

(** Rows that numpy can stack into a 2-d array: all of the first row's
    length. *)
Definition rectangular {A} (rows : list (list A)) : bool :=
  match rows with
  | [] => true
  | r0 :: _ => forallb (fun r => Nat.eqb (length r) (length r0)) rows
  end.

Lemma rectangular_const {A} (rows : list (list A)) n :
  Forall (fun r => length r = n) rows -> rectangular rows = true.
Proof.
  intros Hf. destruct rows as [|r0 rows]; [reflexivity|]. inversion Hf as [|? ? H0 _]; subst.
  apply forallb_forall. intros r Hr. apply Nat.eqb_eq. now rewrite (proj1 (Forall_forall _ _) Hf r Hr).
Qed.

Lemma Forall2_functional {A B} (R : A -> B -> Prop) l ys zs :
  (forall x y z, R x y -> R x z -> y = z) -> Forall2 R l ys -> Forall2 R l zs -> ys = zs.
Proof.
  intros Hf H1. revert zs. induction H1 as [|x y l ys Hxy _ IH]; intros zs H2;
    inversion H2; subst; [reflexivity|]. f_equal; eauto.
Qed.

(** A loop whose every step succeeds succeeds. *)
Lemma map_result_ok {A B} (g : A -> result B) l :
  Forall (fun x => exists y, g x = Ok y) l -> exists ys, map_result g l = Ok ys.
Proof.
  induction 1 as [|x l [y Hy] _ [ys Hys]]; [now exists []|].
  exists (y :: ys). simpl. now rewrite Hy, Hys.
Qed.

(** A [fold_left] that threads an exception keeps it. *)
Lemma fold_left_bind_err {A B} (step : A -> B -> result A) l e :
  fold_left (fun acc x => bind acc (fun a => step a x)) l (Err e) = Err e.
Proof. induction l; simpl; auto. Qed.

Lemma Forall2_map_r {A B C} (f : B -> C) (R : A -> C -> Prop) l1 l2 :
  Forall2 (fun a b => R a (f b)) l1 l2 -> Forall2 R l1 (map f l2).
Proof. induction 1; constructor; auto. Qed.

Lemma nth_map_seq {A} (f : nat -> A) n j d :
  j < n -> nth j (map f (seq 0 n)) d = f j.
Proof.
  intros Hj. rewrite (nth_indep _ d (f 0)) by (rewrite length_map, length_seq; exact Hj).
  now rewrite map_nth, seq_nth.
Qed.
