(* ===== verification/Runs.v ===== *)
(** * Runs: the run-length view of a boolean state vector

    A state vector of [fp_up_down_detection.py] is a numpy boolean array.
    The debouncer ([remove_short_states]) and the transition extractor
    ([statevector_to_spiketrains]) are both specified here in terms of its
    maximal runs: a list of pairs (state, length).  This file holds the
    encoding [runs], its inverse [flatten], the merging cons [rcons] that
    re-normalises a run list, and the round trips between them. *)

From Stdlib Require Import List Lia Bool Arith.
From S2P Require Import Prelude.
Import ListNotations.

Abbreviation run := (bool * nat)%type.

(** [repeat b n]: the samples of one run. *)
Definition expand (r : run) : list bool := repeat (fst r) (snd r).

Definition flatten (rs : list run) : list bool := flat_map expand rs.

(** Cons a run in front of a normalised run list, merging equal states. *)
Definition rcons (r : run) (rs : list run) : list run :=
  match rs with
  | (c, k) :: rs' => if Bool.eqb (fst r) c then (c, snd r + k) :: rs' else r :: rs
  | [] => [r]
  end.

(** The maximal runs of a boolean sequence, in order. *)
Fixpoint runs (l : list bool) : list run :=
  match l with
  | [] => []
  | b :: l' => rcons (b, 1) (runs l')
  end.

(** Well-formed run lists: positive lengths, neighbours of different state. *)
Definition head_differs (b : bool) (rs : list run) : Prop :=
  match rs with
  | [] => True
  | (c, _) :: _ => b <> c
  end.

Fixpoint runs_ok (rs : list run) : Prop :=
  match rs with
  | [] => True
  | (b, n) :: rs' => 0 < n /\ head_differs b rs' /\ runs_ok rs'
  end.

Definition positive_runs (rs : list run) : Prop := Forall (fun r => 0 < snd r) rs.

(** ** Basic facts *)

Lemma flatten_cons r rs : flatten (r :: rs) = expand r ++ flatten rs.
Proof. reflexivity. Qed.

Lemma flatten_app rs1 rs2 : flatten (rs1 ++ rs2) = flatten rs1 ++ flatten rs2.
Proof. unfold flatten. apply flat_map_app. Qed.

Lemma length_flatten_cons b n rs :
  length (flatten ((b, n) :: rs)) = n + length (flatten rs).
Proof. rewrite flatten_cons, length_app. unfold expand. simpl. now rewrite repeat_length. Qed.

Lemma flatten_rcons r rs : flatten (rcons r rs) = flatten (r :: rs).
Proof.
  destruct r as [b n], rs as [|[c k] rs]; simpl; [reflexivity|].
  destruct (Bool.eqb b c) eqn:E; [|reflexivity].
  apply eqb_prop in E; subst. unfold flatten; simpl. unfold expand; simpl.
  rewrite app_assoc, repeat_app_same. reflexivity.
Qed.

(** Round trip, decode after encode. *)
Lemma flatten_runs l : flatten (runs l) = l.
Proof.
  induction l as [|b l IH]; [reflexivity|].
  simpl. rewrite flatten_rcons, flatten_cons, IH. reflexivity.
Qed.

Lemma runs_ok_rcons r rs :
  0 < snd r -> runs_ok rs -> runs_ok (rcons r rs).
Proof.
  destruct r as [b n], rs as [|[c k] rs]; simpl; intros Hn Hok.
  - tauto.
  - destruct (Bool.eqb b c) eqn:E; simpl.
    + destruct Hok as (? & ? & ?). repeat split; auto. lia.
    + apply eqb_false_iff in E. tauto.
Qed.

Lemma runs_ok_runs l : runs_ok (runs l).
Proof. induction l; simpl; [exact I|]. apply runs_ok_rcons; simpl; auto. Qed.

Lemma rcons_ok_cons b n rs :
  head_differs b rs -> rcons (b, n) rs = (b, n) :: rs.
Proof.
  destruct rs as [|[c k] rs]; simpl; [reflexivity|].
  intros H. destruct (Bool.eqb b c) eqn:E; [apply eqb_prop in E; contradiction|reflexivity].
Qed.

Lemma runs_cons b l : runs (b :: l) = rcons (b, 1) (runs l).
Proof. reflexivity. Qed.

(** Encoding a block of [n > 0] equal samples in front of a sequence. *)
Lemma runs_repeat_app b n l :
  0 < n -> runs (repeat b n ++ l) = rcons (b, n) (runs l).
Proof.
  intros Hn. induction n as [|n IH]; [lia|].
  destruct n as [|n]; [reflexivity|].
  rewrite repeat_cons_app, runs_cons, IH by lia.
  destruct (runs l) as [|[c k] rs]; simpl.
  - rewrite eqb_reflx. reflexivity.
  - destruct (Bool.eqb b c) eqn:E; simpl.
    + rewrite E. reflexivity.
    + rewrite eqb_reflx. reflexivity.
Qed.

(** Encoding a decoded run list re-normalises it. *)
Lemma runs_flatten_rcons rs :
  positive_runs rs -> runs (flatten rs) = fold_right rcons [] rs.
Proof.
  induction 1 as [|[b n] rs Hn _ IH]; [reflexivity|].
  rewrite flatten_cons. unfold expand; simpl fst; simpl snd.
  rewrite runs_repeat_app by exact Hn. simpl. rewrite IH. reflexivity.
Qed.

Lemma fold_rcons_ok rs : runs_ok rs -> fold_right rcons [] rs = rs.
Proof.
  induction rs as [|[b n] rs IH]; simpl; [reflexivity|].
  intros (_ & Hd & Hok). rewrite IH by exact Hok. apply rcons_ok_cons, Hd.
Qed.

Lemma runs_ok_positive rs : runs_ok rs -> positive_runs rs.
Proof.
  induction rs as [|[b n] rs IH]; simpl; constructor; tauto.
Qed.

(** Round trip, encode after decode, on well-formed run lists. *)
Lemma runs_flatten rs : runs_ok rs -> runs (flatten rs) = rs.
Proof.
  intros Hok. rewrite runs_flatten_rcons by (apply runs_ok_positive, Hok).
  apply fold_rcons_ok, Hok.
Qed.

#[export] Hint Resolve runs_ok_runs runs_ok_positive : wsp.
#[export] Hint Rewrite flatten_runs : wsp_rw.
