(* ===== verification/DebounceSpec.v ===== *)
(** * DebounceSpec: the run-level specification of the debouncer

    [spec_pass t m l] is what one cleaning pass of [remove_short_states]
    (fp_up_down_detection.py:62-76) does, stated on the maximal runs of the
    state vector (file [Runs]): every run of state [t] shorter than [m] is
    flipped, except the leading run.  This file proves what a pass
    guarantees (its own state's runs are long afterwards), what it
    preserves (the other state's runs stay long), when it is the identity,
    and that it keeps the length.  [Debounce] proves that the code refines
    [spec_pass] and transports these facts to [remove_short_states]. *)

From Stdlib Require Import List Lia Bool Arith.
From S2P Require Import Prelude Runs.
Import ListNotations.

(** ** One pass

    [spec_pass t m l]: every run of state [t] shorter than [m] is flipped to
    the other state, except the first run of the sequence (the code only
    measures a run when it sees a transition into it). *)

Definition flip_short (t : bool) (m : nat) (r : run) : run :=
  if Bool.eqb (fst r) t && (snd r <? m) then (negb (fst r), snd r) else r.

Definition spec_pass (t : bool) (m : nat) (l : list bool) : list bool :=
  match runs l with
  | [] => []
  | r0 :: rs => flatten (r0 :: map (flip_short t m) rs)
  end.

(** A run of state [t] is long enough. *)
Definition long_if (t : bool) (m : nat) (r : run) : Prop := fst r = t -> m <= snd r.

(** Every run of state [t] but the leading one is long enough. *)
Definition tail_long (t : bool) (m : nat) (rs : list run) : Prop :=
  Forall (long_if t m) (tl rs).

(** ** Run-list lemmas *)

Lemma flip_short_snd t m r : snd (flip_short t m r) = snd r.
Proof. unfold flip_short. now destruct (_ && _). Qed.

Lemma flip_short_long t m r : long_if t m (flip_short t m r).
Proof.
  destruct r as [b n]. unfold long_if, flip_short. simpl.
  destruct (Bool.eqb b t) eqn:E, (n <? m) eqn:F; simpl; intros H.
  - apply eqb_prop in E. subst. now destruct t.
  - apply Nat.ltb_ge in F. exact F.
  - subst. now rewrite eqb_reflx in E.
  - subst. now rewrite eqb_reflx in E.
Qed.

Lemma flip_short_id t m r : long_if t m r -> flip_short t m r = r.
Proof.
  destruct r as [b n]. unfold long_if, flip_short. simpl. intros H.
  destruct (Bool.eqb b t) eqn:E; [|reflexivity].
  apply eqb_prop in E. specialize (H E). destruct (Nat.ltb_spec0 n m); [lia|reflexivity].
Qed.

Lemma long_if_rcons t m r X :
  long_if t m r -> Forall (long_if t m) X -> Forall (long_if t m) (rcons r X).
Proof.
  destruct r as [b n], X as [|[c k] X]; simpl; intros Hr HX; [constructor; auto|].
  destruct (Bool.eqb b c) eqn:E; [|constructor; auto].
  apply eqb_prop in E. subst. inversion HX as [|? ? Hc HX']; subst.
  constructor; [|exact HX']. unfold long_if in *. simpl in *. intros H. specialize (Hr H). lia.
Qed.

Lemma tl_rcons_forall (P : run -> Prop) r X : Forall P X -> Forall P (tl (rcons r X)).
Proof.
  destruct r as [b n], X as [|[c k] X]; simpl; intros HX; [constructor|].
  destruct (Bool.eqb b c); simpl; [now inversion HX|exact HX].
Qed.

Lemma fold_rcons_long t m rs :
  Forall (long_if t m) rs -> Forall (long_if t m) (fold_right rcons [] rs).
Proof. induction 1; simpl; [constructor|]. apply long_if_rcons; auto. Qed.

Lemma positive_map_flip t m rs : positive_runs rs -> positive_runs (map (flip_short t m) rs).
Proof.
  unfold positive_runs. intros H. apply Forall_map.
  eapply Forall_impl; [|exact H]. intros r. now rewrite flip_short_snd.
Qed.

Lemma map_flip_id t m rs : Forall (long_if t m) rs -> map (flip_short t m) rs = rs.
Proof. induction 1; simpl; [reflexivity|]. now rewrite flip_short_id, IHForall. Qed.

Lemma length_flatten_map_flip t m rs :
  length (flatten (map (flip_short t m) rs)) = length (flatten rs).
Proof.
  induction rs as [|r rs IH]; [reflexivity|].
  simpl map. rewrite !flatten_cons, !length_app, IH. unfold expand.
  now rewrite !repeat_length, flip_short_snd.
Qed.

#[export] Hint Resolve flip_short_long fold_rcons_long positive_map_flip : wsp.

(** The runs of a pass's output: the leading run merged in front of the
    re-normalised cleared runs. *)
Lemma runs_spec_pass t m l :
  runs (spec_pass t m l)
  = match runs l with
    | [] => []
    | r0 :: rs => rcons r0 (fold_right rcons [] (map (flip_short t m) rs))
    end.
Proof.
  unfold spec_pass. pose proof (runs_ok_positive _ (runs_ok_runs l)) as Hpos.
  destruct (runs l) as [|r0 rs]; [reflexivity|].
  inversion Hpos; subst. rewrite runs_flatten_rcons; [reflexivity|].
  constructor; [assumption|]. now apply positive_map_flip.
Qed.

(** ** A pass preserves what the other pass established

    Clearing the runs of state [negb t] only turns short [negb t] runs into
    [t], and such a run always sits after a [t] run, so it merges into it:
    no new short [t] run appears after the leading one. *)

Definition head_long (t : bool) (m : nat) (X : list run) : Prop :=
  match X with
  | (c, k) :: _ => c = t /\ m <= k
  | [] => False
  end.

Lemma flip_other_fold t m rs :
  runs_ok rs -> Forall (long_if t m) rs ->
  Forall (long_if t m) (tl (fold_right rcons [] (map (flip_short (negb t) m) rs)))
  /\ match rs with
     | (b, _) :: _ => b = t -> head_long t m (fold_right rcons [] (map (flip_short (negb t) m) rs))
     | [] => True
     end.
Proof.
  induction rs as [|[b n] rs IH]; intros Hok Hl; [simpl; auto|].
  destruct Hok as (Hn & Hd & Hok). inversion Hl as [|? ? Hb Hl']; subst.
  destruct (IH Hok Hl') as [IH1 IH2]. simpl map; simpl fold_right.
  set (X := fold_right rcons [] (map (flip_short (negb t) m) rs)) in *.
  unfold flip_short; simpl fst; simpl snd.
  destruct (Bool.eqb b t) eqn:Ebt.
  - (* a run of state t: kept, it is long *)
    apply eqb_prop in Ebt; subst b.
    replace (Bool.eqb t (negb t)) with false by now destruct t. simpl andb.
    specialize (Hb eq_refl); simpl in Hb.
    destruct X as [|[c k] X'] eqn:EX; simpl.
    + split; [constructor|intros _; split; auto].
    + destruct (Bool.eqb t c) eqn:Etc.
      * apply eqb_prop in Etc; subst c. split; [exact IH1|intros _; simpl; split; auto; lia].
      * split; [|intros _; simpl; auto].
        constructor; [|exact IH1]. intros Hc. simpl in Hc. subst. now rewrite eqb_reflx in Etc.
  - (* a run of state negb t: maybe flipped to t, then merged with the next t run *)
    assert (b = negb t) as -> by (destruct b, t; simpl in *; congruence).
    rewrite eqb_reflx. simpl andb.
    assert (Hnext : rs <> [] -> head_long t m X).
    { destruct rs as [|[b' n'] rs'']; [congruence|]. intros _. apply IH2.
      simpl in Hd. destruct b', t; simpl in *; congruence. }
    split; [|intros Ht; destruct t; discriminate].
    destruct rs as [|r' rs'']; [subst X; simpl; destruct (n <? m); constructor|].
    specialize (Hnext ltac:(discriminate)).
    destruct X as [|[c k] X']; [contradiction|]. destruct Hnext as [-> Hk].
    destruct (n <? m); simpl.
    + rewrite negb_involutive, eqb_reflx. exact IH1.
    + replace (Bool.eqb (negb t) t) with false by now destruct t.
      constructor; [intros _; exact Hk|exact IH1].
Qed.

Lemma spec_pass_own t m l : tail_long t m (runs (spec_pass t m l)).
Proof.
  unfold tail_long. rewrite runs_spec_pass. destruct (runs l) as [|r0 rs]; [constructor|].
  apply tl_rcons_forall, fold_rcons_long, Forall_map, Forall_forall.
  intros r _. apply flip_short_long.
Qed.

Lemma spec_pass_other t m l :
  tail_long t m (runs l) -> tail_long t m (runs (spec_pass (negb t) m l)).
Proof.
  unfold tail_long. rewrite runs_spec_pass. pose proof (runs_ok_runs l) as Hok.
  destruct (runs l) as [|[b0 n0] rs]; [constructor|]. simpl tl. intros Hl.
  destruct Hok as (_ & Hd & Hok). destruct (flip_other_fold t m rs Hok Hl) as [H1 H2].
  destruct (fold_right rcons [] (map (flip_short (negb t) m) rs)) as [|[c k] X] eqn:EX;
    simpl; [constructor|].
  destruct (Bool.eqb b0 c) eqn:E; [exact H1|].
  constructor; [|exact H1]. intros Hc; simpl in Hc; subst c.
  destruct rs as [|[b1 n1] rs']; [simpl in EX; discriminate|].
  assert (b1 = t) by (apply eqb_false_iff in E; simpl in Hd; destruct b0, b1, t; congruence).
  destruct (H2 H) as [_ Hk]. exact Hk.
Qed.

Lemma spec_pass_id t m l : tail_long t m (runs l) -> spec_pass t m l = l.
Proof.
  unfold tail_long, spec_pass. pose proof (flatten_runs l) as Hfl.
  destruct (runs l) as [|r0 rs]; simpl; intros Hl; [exact Hfl|].
  now rewrite map_flip_id.
Qed.

Lemma spec_pass_length t m l : length (spec_pass t m l) = length l.
Proof.
  unfold spec_pass. rewrite <- (flatten_runs l) at 2.
  destruct (runs l) as [|r0 rs]; [reflexivity|].
  rewrite !flatten_cons, !length_app, length_flatten_map_flip. reflexivity.
Qed.

Lemma spec_pass_flatten t m r0 rs :
  runs_ok (r0 :: rs) -> spec_pass t m (flatten (r0 :: rs)) = flatten (r0 :: map (flip_short t m) rs).
Proof. intros Hok. unfold spec_pass. now rewrite runs_flatten. Qed.

Lemma flatten_merge2 b n k rs :
  flatten ((b, n) :: (b, k) :: rs) = flatten ((b, n + k) :: rs).
Proof. unfold flatten; simpl. unfold expand; simpl. now rewrite app_assoc, repeat_app_same. Qed.

Lemma tail_long_both m rs :
  tail_long true m rs -> tail_long false m rs -> Forall (fun r => m <= snd r) (tl rs).
Proof.
  unfold tail_long. intros H1 H2. pose proof (Forall_and H1 H2) as H.
  eapply Forall_impl; [|exact H]. intros [b n] [Ht Hf]. destruct b; auto.
Qed.

Lemma tail_long_of_forall t m rs :
  Forall (fun r => m <= snd r) (tl rs) -> tail_long t m rs.
Proof. unfold tail_long. apply Forall_impl. intros r H _. exact H. Qed.


(** ** Helpers for concrete run lists *)

(** Evaluate the [flip_short]s of a concrete run list. *)
Ltac eval_flips :=
  unfold flip_short; cbn [map fst snd Bool.eqb andb negb]; ltb_lia; cbn [andb negb].

Lemma spike_runs_ok k j : 1 <= k -> 1 <= j ->
  runs_ok [(false, k); (true, 1); (false, j)].
Proof. simpl. intros; repeat split; auto; try lia; discriminate. Qed.

Lemma spike_flatten k j :
  repeat false k ++ true :: repeat false j = flatten [(false, k); (true, 1); (false, j)].
Proof. unfold flatten, expand; simpl. now rewrite app_nil_r. Qed.

