(* ===== verification/Debounce.v ===== *)
(** * Debounce: the StateDebouncer, [remove_short_states]

    Model of [remove_short_states] in
    src/pipeline/fieldpotential_analysis/scripts/fp_up_down_detection.py
    (lines 57-77).  The numpy boolean array is a [list bool] threaded through
    the code (the in-place writes become a returned list); the two nested
    [while] loops are [clean_loop] and [measure_run], with fuel bounded by
    the length of the array; the slice write [state_vector[a:b] = v] is
    [slice_assign].  Each cleaning pass is proved equal to a run-level
    specification [spec_pass] (file [DebounceSpec]); the theorems about the whole
    debouncer (post-condition, idempotence, length, spike removal) are proved
    on the specification and transported. *)

From Stdlib Require Import List Lia Bool Arith.
From S2P Require Import Prelude Runs DebounceSpec.
Import ListNotations.

(** ** The code *)

(** numpy slice assignment [sv[lo:hi] = v] on a 1-d array: the slice is
    clamped to the array, and an empty slice ([hi <= lo]) writes nothing. *)
Definition slice_assign (sv : list bool) (lo hi : nat) (v : bool) : list bool :=
  firstn lo sv ++ repeat v (Nat.min hi (length sv) - lo) ++ skipn (Nat.max lo hi) sv.

Section Pass.
(** One element of [clean_order]: [lambda x: not x] or [lambda x: x]. *)
Variable op : bool -> bool.
Variable min_state_duration : nat.

(** The inner loop
    [while op(state_vector[i]): duration += 1; i += 1; if i >= len: break],
    returning the final [(i, duration)].  Fuel [length sv - i] is exactly
    the number of iterations the loop can make. *)
Fixpoint measure_run (fuel : nat) (sv : list bool) (i duration : nat) : nat * nat :=
  match fuel with
  | O => (i, duration)
  | S fuel' =>
      if op sv.[i] then
        if length sv <=? S i then (S i, S duration)
        else measure_run fuel' sv (S i) (S duration)
      else (i, duration)
  end.

(** One iteration of the outer [while i < len(state_vector)-1] loop. *)
Definition clean_iter (sv : list bool) (i : nat) : list bool * nat :=
  if op (negb sv.[i]) && op sv.[S i] then
    let '(i', duration) := measure_run (length sv - S i) sv (S i) 0 in
    if duration <? min_state_duration
    then (slice_assign sv (i' - duration) i' (op false), i')
    else (sv, i')
  else (sv, S i).

(** The outer loop; [i < len(sv) - 1] is [S i < length sv]. *)
Fixpoint clean_loop (fuel : nat) (sv : list bool) (i : nat) : list bool :=
  match fuel with
  | O => sv
  | S fuel' =>
      if S i <? length sv then
        let '(sv', i') := clean_iter sv i in clean_loop fuel' sv' i'
      else sv
  end.

(** One pass of the [for op in clean_order] loop, from [i = 0]. *)
Definition clean_pass (sv : list bool) : list bool := clean_loop (length sv) sv 0.
End Pass.

(** [clean_order = [lambda x: not x, lambda x: x]], reversed when
    [remove_down_first] is false. *)
Definition clean_order (remove_down_first : bool) : list (bool -> bool) :=
  let order := [fun x => negb x; fun x => x] in
  if negb remove_down_first then rev order else order.

Definition remove_short_states (state_vector : list bool) (min_state_duration : nat)
    (remove_down_first : bool) : list bool :=
  fold_left (fun sv op => clean_pass op min_state_duration sv)
    (clean_order remove_down_first) state_vector.

Example remove_short_states_ex1 :
  remove_short_states [false; false; true; false; false; false] 2 true
  = [false; false; false; false; false; false].
Proof. reflexivity. Qed.

Example remove_short_states_ex2 :
  remove_short_states [true; false; true; true; true; false] 2 true
  = [true; true; true; true; true; true].
Proof. reflexivity. Qed.

(** ** Frame lemmas: the loops only read and write at or after [i] *)

Section Frame.
Variable op : bool -> bool.
Variable m : nat.

Lemma measure_run_inv f sv i d :
  fst (measure_run op f sv i d) = i + (snd (measure_run op f sv i d) - d)
  /\ d <= snd (measure_run op f sv i d).
Proof.
  revert i d; induction f as [|f IH]; intros i d; cbn [measure_run fst snd]; [lia|].
  destruct (op sv.[i]); [|cbn [fst snd]; lia].
  nat_cmp_cases; cbn [fst snd]; [lia|]. destruct (IH (S i) (S d)); lia.
Qed.

Lemma measure_run_frame f p l j d :
  measure_run op f (p ++ l) (length p + j) d
  = (length p + fst (measure_run op f l j d), snd (measure_run op f l j d)).
Proof.
  revert j d; induction f as [|f IH]; intros j d; simpl; [reflexivity|].
  rewrite nth_app_shift, length_app.
  destruct (op l.[j]); [|reflexivity].
  nat_cmp_cases; cbn [fst snd]; try lia; [f_equal; lia|].
  replace (S (length p + j)) with (length p + S j) by lia. apply IH.
Qed.

Lemma slice_assign_frame p l a b v :
  slice_assign (p ++ l) (length p + a) (length p + b) v = p ++ slice_assign l a b v.
Proof.
  unfold slice_assign. rewrite firstn_app_shift, <- app_assoc, length_app.
  f_equal; f_equal; f_equal.
  - f_equal. lia.
  - replace (Nat.max (length p + a) (length p + b)) with (length p + Nat.max a b) by lia.
    apply skipn_app_shift.
Qed.

Lemma clean_iter_frame p l j :
  clean_iter op m (p ++ l) (length p + j)
  = (p ++ fst (clean_iter op m l j), length p + snd (clean_iter op m l j)).
Proof.
  unfold clean_iter.
  replace (S (length p + j)) with (length p + S j) by lia.
  rewrite !nth_app_shift.
  destruct (op (negb l.[j]) && op l.[S j]); [|reflexivity].
  replace (length (p ++ l) - (length p + S j)) with (length l - S j)
    by (rewrite length_app; lia).
  rewrite measure_run_frame.
  pose proof (measure_run_inv (length l - S j) l (S j) 0) as Hinv.
  destruct (measure_run op (length l - S j) l (S j) 0) as [i' d]; simpl in *.
  destruct (d <? m); [|reflexivity].
  replace (length p + i' - d) with (length p + (i' - d)) by lia.
  rewrite slice_assign_frame. reflexivity.
Qed.

Lemma clean_loop_frame f p l j :
  clean_loop op m f (p ++ l) (length p + j) = p ++ clean_loop op m f l j.
Proof.
  revert l j; induction f as [|f IH]; intros l j; simpl; [reflexivity|].
  rewrite length_app. nat_cmp_cases; try lia; [|reflexivity].
  rewrite clean_iter_frame.
  destruct (clean_iter op m l j) as [sv' i']; simpl. apply IH.
Qed.

Lemma clean_loop_frame0 f p l :
  clean_loop op m f (p ++ l) (length p) = p ++ clean_loop op m f l 0.
Proof. rewrite <- (Nat.add_0_r (length p)). apply clean_loop_frame. Qed.

Lemma clean_loop_short f l : length l <= 1 -> clean_loop op m f l 0 = l.
Proof. intros H. destruct f; simpl; [reflexivity|]. nat_cmp_cases; [lia|reflexivity]. Qed.
End Frame.

(** ** One pass refines [spec_pass]

    The two [op]s of [clean_order] are exactly the boolean functions that
    commute with negation; [op true] is the state whose runs the pass
    clears, and [op false] the state it writes over them. *)

Section Loop.
Variable op : bool -> bool.
Variable m : nat.
Hypothesis op_neg : forall b, op (negb b) = negb (op b).

Lemma op_target b : op b = Bool.eqb b (op true).
Proof.
  destruct b; [now destruct (op true)|].
  change false with (negb true). rewrite op_neg. now destruct (op true).
Qed.

Lemma op_false : op false = negb (op true).
Proof. exact (op_neg true). Qed.

Lemma clean_loop_nil f : clean_loop op m f [] 0 = [].
Proof. apply clean_loop_short. simpl. lia. Qed.

(** No transition into the cleared state at [i]: step to [i + 1]. *)
Lemma clean_loop_skip f x y q :
  op (negb x) && op y = false ->
  clean_loop op m (S f) (x :: y :: q) 0 = x :: clean_loop op m f (y :: q) 0.
Proof.
  intros H. simpl clean_loop.
  unfold clean_iter. simpl nth. rewrite H.
  exact (clean_loop_frame0 op m f [x] (y :: q)).
Qed.

(** The inner loop measures a maximal run of the cleared state. *)
Lemma measure_run_span r rest d :
  Forall (fun b => op b = true) r ->
  match rest with [] => True | z :: _ => op z = false end ->
  measure_run op (length (r ++ rest)) (r ++ rest) 0 d = (length r, d + length r).
Proof.
  intros Hr; revert d; induction Hr as [|b r Hb Hr IH]; intros d Hrest.
  - destruct rest as [|z rest]; simpl; [f_equal; lia|]. now rewrite Hrest, Nat.add_0_r.
  - simpl length. simpl measure_run. rewrite Hb.
    nat_cmp_cases.
    + destruct r, rest; simpl in *; try lia. f_equal; lia.
    + rewrite (measure_run_frame op _ [b] (r ++ rest) 0 (S d)), IH by exact Hrest.
      simpl. f_equal; lia.
Qed.

Lemma slice_assign_prefix r rest v :
  slice_assign (r ++ rest) 0 (length r) v = repeat v (length r) ++ rest.
Proof.
  unfold slice_assign. rewrite length_app, Nat.max_0_l.
  replace (Nat.min (length r) (length r + length rest) - 0) with (length r) by lia.
  rewrite <- (Nat.add_0_r (length r)), skipn_app_shift, Nat.add_0_r. reflexivity.
Qed.

Lemma measure_run_cons f x l j d :
  measure_run op f (x :: l) (S j) d
  = (S (fst (measure_run op f l j d)), snd (measure_run op f l j d)).
Proof. exact (measure_run_frame op f [x] l j d). Qed.

Lemma slice_assign_cons x l a b v :
  slice_assign (x :: l) (S a) (S b) v = x :: slice_assign l a b v.
Proof. exact (slice_assign_frame [x] l a b v). Qed.

(** A transition into the cleared state: the whole run is measured and,
    when shorter than [m], overwritten; the scan resumes after it. *)
Lemma clean_loop_trigger f x r rest :
  op (negb x) = true -> r <> [] ->
  Forall (fun b => op b = true) r ->
  match rest with [] => True | z :: _ => op z = false end ->
  clean_loop op m (S f) (x :: r ++ rest) 0
  = x :: (if length r <? m then repeat (op false) (length r) else r)
         ++ clean_loop op m f rest 0.
Proof.
  intros Hx Hne Hr Hrest.
  assert (Hy : op (x :: r ++ rest).[1] = true)
    by (destruct r as [|b r']; [congruence|]; simpl; now inversion Hr).
  assert (Hlen : 0 < length r) by (destruct r; [congruence|simpl; lia]).
  cbn [clean_loop].
  replace (1 <? length (x :: r ++ rest)) with true
    by (symmetry; apply Nat.ltb_lt; rewrite length_cons, length_app; lia).
  unfold clean_iter. rewrite Hy. change ((x :: r ++ rest).[0]) with x.
  rewrite Hx. cbn [andb].
  replace (length (x :: r ++ rest) - 1) with (length (r ++ rest))
    by (rewrite length_cons; lia).
  rewrite measure_run_cons, measure_run_span by assumption. cbn [fst snd].
  rewrite Nat.add_0_l.
  destruct (length r <? m).
  - replace (S (length r) - length r) with 1 by lia.
    rewrite (slice_assign_cons x (r ++ rest) 0 (length r)), slice_assign_prefix.
    change (x :: repeat (op false) (length r) ++ rest)
      with ((x :: repeat (op false) (length r)) ++ rest).
    replace (S (length r)) with (length (x :: repeat (op false) (length r)))
      by (rewrite length_cons, repeat_length; reflexivity).
    apply clean_loop_frame0.
  - change (x :: r ++ rest) with ((x :: r) ++ rest).
    replace (S (length r)) with (length (x :: r)) by reflexivity.
    apply clean_loop_frame0.
Qed.
End Loop.

Section Refine.
Variable op : bool -> bool.
Variable m : nat.
Hypothesis op_neg : forall b, op (negb b) = negb (op b).

Lemma flip_short_keep c k :
  op c = false -> flip_short (op true) m (c, k) = (c, k).
Proof. intros Hc. unfold flip_short. simpl. now rewrite <- op_target, Hc. Qed.

Lemma flip_short_target c k :
  op c = true ->
  flip_short (op true) m (c, k) = if k <? m then (op false, k) else (c, k).
Proof.
  intros Hc. unfold flip_short. simpl. rewrite <- (op_target op op_neg), Hc. simpl.
  destruct (k <? m); [|reflexivity]. f_equal.
  rewrite (op_false op op_neg). rewrite (op_target op op_neg) in Hc.
  now apply eqb_prop in Hc as ->.
Qed.

Lemma Forall_repeat_op c k : op c = true -> Forall (fun b => op b = true) (repeat c k).
Proof. intros Hc. apply Forall_forall. intros b Hb. now apply repeat_spec in Hb as ->. Qed.

(** The scan walks through the first run without writing. *)
Lemma clean_loop_first_run n f b L :
  n + 1 + length L <= f ->
  clean_loop op m f (repeat b (S n) ++ L) 0 = repeat b n ++ clean_loop op m (f - n) (b :: L) 0.
Proof.
  revert f; induction n as [|n IH]; intros f Hf; [now rewrite Nat.sub_0_r|].
  destruct f as [|f]; [lia|].
  change (repeat b (S (S n)) ++ L) with (b :: b :: repeat b n ++ L).
  rewrite (clean_loop_skip op m) by (rewrite op_neg; now destruct (op b)).
  change (b :: repeat b n ++ L) with (repeat b (S n) ++ L).
  rewrite IH by lia. reflexivity.
Qed.

Lemma head_differs_neg (b c : bool) : b <> c -> c = negb b.
Proof. destruct b, c; simpl; congruence. Qed.

(** After the first run: the scan sits on its last sample [b]. *)
Lemma clean_loop_spec_runs N : forall rs b n f,
  length rs <= N -> runs_ok ((b, n) :: rs) ->
  length (flatten ((b, n) :: rs)) <= f ->
  clean_loop op m f (flatten ((b, n) :: rs)) 0
  = flatten ((b, n) :: map (flip_short (op true) m) rs).
Proof.
  induction N as [|N IH]; intros rs b n f Hlen Hok Hf.
  all: destruct n as [|n0]; [simpl in Hok; lia|].
  all: rewrite flatten_cons in *; unfold expand in *; cbn [fst snd] in *.
  all: rewrite length_app, repeat_length in Hf.
  all: rewrite clean_loop_first_run by lia.
  all: rewrite flatten_cons; unfold expand; cbn [fst snd]; rewrite repeat_S_app_r; f_equal.
  all: destruct rs as [|[c k] rs']; [now rewrite clean_loop_short|].
  1: simpl in Hlen; lia.
  destruct Hok as (_ & Hbc & Hk & Hc' & Hok').
  apply head_differs_neg in Hbc.
  rewrite length_flatten_cons in Hf.
  destruct (f - n0) as [|f'] eqn:Ef; [lia|].
  destruct k as [|k0]; [lia|].
  destruct (op c) eqn:Hc.
  - (* a transition into the cleared state *)
    rewrite flatten_cons; unfold expand; cbn [fst snd].
    assert (Hrest : match flatten rs' with [] => True | z :: _ => op z = false end).
    { destruct rs' as [|[b' [|k']] rs'']; [exact I|simpl in Hok'; lia|].
      simpl in Hc' |- *. apply head_differs_neg in Hc' as ->. now rewrite op_neg, Hc. }
    rewrite (clean_loop_trigger op m); [|now rewrite <- Hbc|discriminate
                                        |now apply Forall_repeat_op|exact Hrest].
    rewrite map_cons, flip_short_target, repeat_length by exact Hc.
    destruct rs' as [|[b' k'] rs''].
    + rewrite clean_loop_nil.
      destruct (S k0 <? m); simpl; now rewrite ?app_nil_r.
    + rewrite IH; [|simpl in Hlen; lia|exact Hok'|].
      * simpl in Hc'. apply head_differs_neg in Hc'. subst b'.
        rewrite map_cons, flip_short_keep by (rewrite op_neg, Hc; reflexivity).
        destruct (S k0 <? m); reflexivity.
      * rewrite length_flatten_cons in *. lia.
  - (* no transition: step onto the next run *)
    rewrite flatten_cons; unfold expand; cbn [fst snd]. cbn [repeat app].
    rewrite (clean_loop_skip op m) by (rewrite <- Hbc, Hc; reflexivity).
    rewrite <- repeat_cons_app. change (repeat c (S k0) ++ flatten rs')
      with (flatten ((c, S k0) :: rs')).
    rewrite IH; [|simpl in Hlen; lia|simpl; tauto|rewrite length_flatten_cons; lia].
    rewrite map_cons, flip_short_keep by exact Hc. reflexivity.
Qed.
End Refine.

(** ** Refinement theorems *)

Lemma clean_loop_refines_aux op m l f :
  (forall b, op (negb b) = negb (op b)) -> length l <= f ->
  clean_loop op m f l 0 = spec_pass (op true) m l.
Proof.
  intros Hop Hf. unfold spec_pass.
  pose proof (runs_ok_runs l) as Hok. pose proof (flatten_runs l) as Hfl.
  destruct (runs l) as [|[b n] rs] eqn:E.
  - subst l. simpl. destruct f; reflexivity.
  - rewrite <- Hfl at 1. apply (clean_loop_spec_runs op m Hop (length rs)); [lia|exact Hok|].
    now rewrite Hfl.
Qed.

(** C1. Refinement and termination of one cleaning pass: for either
    function of [clean_order], the nested [while] loops of
    [remove_short_states], run with any fuel at least the length of the
    array, return exactly [spec_pass (op True)]: every run of the cleared
    state shorter than [min_state_duration], except the leading run, is
    overwritten with the other state. *)
Theorem clean_loop_refines op m l f :
  In op (clean_order true) -> length l <= f ->
  clean_loop op m f l 0 = spec_pass (op true) m l.
Proof.
  intros Hin Hf. apply clean_loop_refines_aux; [|exact Hf].
  simpl in Hin. destruct Hin as [<-|[<-|[]]]; intros []; reflexivity.
Qed.

Lemma clean_loop_refines_witness :
  In (fun x => negb x) (clean_order true) /\ length [true; false; true; true] <= 4
  /\ clean_loop (fun x => negb x) 2 4 [true; false; true; true] 0
     = spec_pass false 2 [true; false; true; true].
Proof.
  split; [left; reflexivity|split; [simpl; lia|]].
  apply (clean_loop_refines (fun x => negb x) 2 [true; false; true; true] 4);
    [left; reflexivity|simpl; lia].
Defined.

Lemma clean_order_in op rdf : In op (clean_order rdf) -> In op (clean_order true).
Proof. destruct rdf; simpl; tauto. Qed.

(** The whole debouncer is the composition of two run-level passes: first
    the runs of state [negb remove_down_first] (DOWN when it is true), then
    those of state [remove_down_first]. *)
Lemma remove_short_states_spec sv m rdf :
  remove_short_states sv m rdf = spec_pass rdf m (spec_pass (negb rdf) m sv).
Proof.
  unfold remove_short_states, clean_pass.
  destruct rdf; simpl fold_left;
    rewrite !clean_loop_refines_aux by (reflexivity || (intros []; reflexivity)); reflexivity.
Qed.

(** ** The debouncer's guarantees *)

(** What the two passes leave: every run but the first is long. *)
Lemma remove_short_states_runs_long sv m rdf :
  Forall (fun r => m <= snd r) (tl (runs (remove_short_states sv m rdf))).
Proof.
  rewrite remove_short_states_spec. apply tail_long_both.
  - destruct rdf; [apply spec_pass_own|].
    rewrite <- (negb_involutive false) at 1. apply spec_pass_other, spec_pass_own.
  - destruct rdf; [|apply spec_pass_own].
    rewrite <- (negb_involutive true) at 1. apply spec_pass_other, spec_pass_own.
Qed.

(** C2. Post-condition of [remove_short_states]: after both passes, in
    either order, every maximal run of the state vector except the leading
    one is at least [min_state_duration] samples long. *)
Theorem remove_short_states_post sv m rdf :
  Forall (fun r => m <= snd r) (tl (runs (remove_short_states sv m rdf))).
Proof. apply remove_short_states_runs_long. Qed.

(** The vectors the debouncer leaves alone. *)
Lemma remove_short_states_fixed_iff sv m rdf :
  remove_short_states sv m rdf = sv <-> Forall (fun r => m <= snd r) (tl (runs sv)).
Proof.
  split.
  - intros H. rewrite <- H. apply remove_short_states_runs_long.
  - intros H. rewrite remove_short_states_spec.
    rewrite (spec_pass_id (negb rdf)) by now apply tail_long_of_forall.
    apply spec_pass_id. now apply tail_long_of_forall.
Qed.

(** C3. Fixed points: [remove_short_states] leaves a state vector unchanged
    exactly when all its runs but the leading one are at least
    [min_state_duration] long. *)
Theorem remove_short_states_fixpoint sv m rdf :
  remove_short_states sv m rdf = sv <-> Forall (fun r => m <= snd r) (tl (runs sv)).
Proof. apply remove_short_states_fixed_iff. Qed.

(** ** Scenarios of the specification *)

(** An interior one-sample spike, followed by enough DOWN samples, is erased. *)
Lemma remove_short_states_spike_erased k j m rdf :
  1 <= k -> 2 <= m -> m <= j ->
  remove_short_states (repeat false k ++ true :: repeat false j) m rdf = repeat false (k + S j).
Proof.
  intros Hk Hm Hj. rewrite remove_short_states_spec, spike_flatten.
  assert (Hok := spike_runs_ok k j Hk ltac:(lia)).
  destruct rdf; simpl negb; rewrite spec_pass_flatten by exact Hok; eval_flips.
  - rewrite spec_pass_flatten by exact Hok. eval_flips.
    rewrite flatten_merge2, flatten_merge2. simpl. unfold expand; simpl.
    rewrite app_nil_r. f_equal. lia.
  - rewrite flatten_merge2, flatten_merge2, spec_pass_flatten by (simpl; auto; lia).
    simpl. unfold expand; simpl. rewrite app_nil_r. f_equal. lia.
Qed.

(** C6. A one-sample UP spike with at least one DOWN sample before it and
    at least [min_state_duration] DOWN samples after it is erased, in
    either order: the whole vector becomes DOWN, so no transition is left
    (spec section 8, round trip). *)
Theorem remove_short_states_spike k j m rdf :
  1 <= k -> 2 <= m -> m <= j ->
  remove_short_states (repeat false k ++ true :: repeat false j) m rdf = repeat false (k + S j).
Proof. apply remove_short_states_spike_erased. Qed.

Lemma remove_short_states_spike_witness :
  (1 <= 500 /\ 2 <= 5 /\ 5 <= 499)
  /\ remove_short_states (repeat false 500 ++ true :: repeat false 499) 5 true
     = repeat false 1000.
Proof.
  split; [repeat split; lia|].
  apply (remove_short_states_spike 500 499 5 true); lia.
Defined.

(** C7. A spike too close to the end of the array survives when DOWN runs
    are cleared first: the trailing DOWN run of [min_state_duration - 1]
    samples is cleared into UP first, which lengthens the spike to
    [min_state_duration] samples, and the UP pass then keeps it.  So the
    round trip of spec section 8 fails for a spike in the last
    [min_state_duration] samples. *)
Theorem remove_short_states_spike_near_end k m :
  1 <= k -> 2 <= m ->
  remove_short_states (repeat false k ++ true :: repeat false (m - 1)) m true
  = repeat false k ++ repeat true m.
Proof.
  intros Hk Hm. rewrite remove_short_states_spec, spike_flatten. simpl negb.
  rewrite spec_pass_flatten by (apply spike_runs_ok; lia). eval_flips.
  rewrite flatten_cons, flatten_merge2, <- flatten_cons.
  rewrite spec_pass_flatten by (simpl; repeat split; try lia; discriminate).
  eval_flips. unfold flatten, expand; simpl.
  rewrite app_nil_r. f_equal. change (true :: repeat true (m - 1)) with (repeat true (S (m - 1))).
  f_equal. lia.
Qed.

Lemma remove_short_states_spike_near_end_witness :
  (1 <= 995 /\ 2 <= 5)
  /\ remove_short_states (repeat false 995 ++ true :: repeat false 4) 5 true
     = repeat false 995 ++ repeat true 5.
Proof.
  split; [split; lia|].
  apply (remove_short_states_spike_near_end 995 5); lia.
Defined.

(** C8. The leading run is never cleared: a vector that starts with a
    one-sample UP spike followed by at least [min_state_duration] DOWN
    samples is left as it is, in either order. *)
Theorem remove_short_states_leading_spike j m rdf :
  1 <= m <= j ->
  remove_short_states (true :: repeat false j) m rdf = true :: repeat false j.
Proof.
  intros Hj. apply remove_short_states_fixed_iff.
  replace (true :: repeat false j) with (flatten [(true, 1); (false, j)])
    by (unfold flatten, expand; simpl; now rewrite app_nil_r).
  rewrite runs_flatten by (simpl; repeat split; try lia; discriminate).
  simpl. constructor; [simpl; lia|constructor].
Qed.

Lemma remove_short_states_leading_spike_witness :
  (1 <= 5 <= 999)
  /\ remove_short_states (true :: repeat false 999) 5 true = true :: repeat false 999.
Proof. split; [lia|]. apply (remove_short_states_leading_spike 999 5 true). lia. Defined.

(** Order matters (spec section 4.4): the same vector debounced with DOWN
    runs cleared first and with UP runs cleared first differs. *)
Example remove_short_states_order :
  remove_short_states [true; false; true; false; false] 2 true = [true; true; true; false; false]
  /\ remove_short_states [true; false; true; false; false] 2 false
     = [true; false; false; false; false].
Proof. split; reflexivity. Qed.

(** ** Termination of the two [while] loops *)

Section Termination.
Variable op : bool -> bool.
Variable m : nat.

Lemma slice_assign_length sv lo hi v :
  lo <= hi -> length (slice_assign sv lo hi v) = length sv.
Proof.
  intros H. unfold slice_assign.
  rewrite !length_app, length_firstn, repeat_length, length_skipn. lia.
Qed.

(** The inner loop stops by its own condition: at the end of the array, or
    at a sample of the other state. *)
Lemma measure_run_exit sv i d :
  i <= length sv ->
  fst (measure_run op (length sv - i) sv i d) = length sv
  \/ (fst (measure_run op (length sv - i) sv i d) < length sv
      /\ op sv.[fst (measure_run op (length sv - i) sv i d)] = false).
Proof.
  remember (length sv - i) as n eqn:En. revert i d En.
  induction n as [|n IH]; intros i d En Hi; cbn [measure_run fst]; [left; lia|].
  destruct (op sv.[i]) eqn:Eop; cbn [fst]; [|right; split; [lia|exact Eop]].
  nat_cmp_cases; [left; cbn [fst]; lia|]. apply IH; lia.
Qed.

(** One iteration of the outer loop moves the index forward and keeps
    the array's length: [length sv - i] is a measure of the loop. *)
Lemma clean_iter_progress sv i :
  S i <= snd (clean_iter op m sv i) /\ length (fst (clean_iter op m sv i)) = length sv.
Proof.
  unfold clean_iter. destruct (op (negb sv.[i]) && op sv.[S i]); cbn [fst snd]; [|lia].
  pose proof (measure_run_inv op (length sv - S i) sv (S i) 0) as [Hi Hd].
  destruct (measure_run op (length sv - S i) sv (S i) 0) as [i' d]; cbn [fst snd] in *.
  destruct (d <? m); cbn [fst snd]; split; try lia.
  apply slice_assign_length. lia.
Qed.

(** Once the fuel covers the measure, more fuel changes nothing. *)
Lemma clean_loop_fuel_stable f : forall sv i g,
  length sv - i <= f -> f <= g -> clean_loop op m g sv i = clean_loop op m f sv i.
Proof.
  induction f as [|f IH]; intros sv i g Hf Hg.
  - destruct g as [|g]; [reflexivity|]. cbn [clean_loop]. nat_cmp_cases; [lia|reflexivity].
  - destruct g as [|g]; [lia|]. cbn [clean_loop]. nat_cmp_cases; [|reflexivity].
    pose proof (clean_iter_progress sv i) as [Hp Hl].
    destruct (clean_iter op m sv i) as [sv' i']; cbn [fst snd] in *. apply IH; lia.
Qed.
End Termination.

(** C9. Termination of [remove_short_states]'s loops (lines 62-76):
    - the outer [while i < len(state_vector)-1] loop has the measure
      [len - i]: every iteration decreases it, and keeps the array's length;
    - so any fuel at least that measure gives the same result, since the
      loop has exited;
    - the inner [while op(state_vector[i])] loop stops by its own
      condition (the end of the array or a sample of the other state)
      within the fuel [len - i]. *)
Theorem debouncer_loops_terminate op m sv i f :
  i <= length sv -> length sv - i <= f ->
  (S i < length sv ->
   length sv - snd (clean_iter op m sv i) < length sv - i
   /\ length (fst (clean_iter op m sv i)) = length sv)
  /\ clean_loop op m f sv i = clean_loop op m (length sv - i) sv i
  /\ (fst (measure_run op (length sv - i) sv i 0) = length sv
      \/ (fst (measure_run op (length sv - i) sv i 0) < length sv
          /\ op sv.[fst (measure_run op (length sv - i) sv i 0)] = false)).
Proof.
  intros Hi Hf. split; [|split; [now apply clean_loop_fuel_stable|now apply measure_run_exit]].
  intros Hlt. pose proof (clean_iter_progress op m sv i) as [Hp Hl]. split; [lia|exact Hl].
Qed.

Definition sample_sv : list bool := [false; true; true; false; true].

Lemma debouncer_loops_terminate_witness :
  (0 <= length sample_sv /\ length sample_sv - 0 <= 10)
  /\ (1 < length sample_sv ->
      length sample_sv - snd (clean_iter (fun x => x) 2 sample_sv 0) < length sample_sv - 0
      /\ length (fst (clean_iter (fun x => x) 2 sample_sv 0)) = length sample_sv)
  /\ clean_loop (fun x => x) 2 10 sample_sv 0 = clean_loop (fun x => x) 2 (length sample_sv - 0) sample_sv 0
  /\ (fst (measure_run (fun x => x) (length sample_sv - 0) sample_sv 0 0) = length sample_sv
      \/ (fst (measure_run (fun x => x) (length sample_sv - 0) sample_sv 0 0) < length sample_sv
          /\ sample_sv.[fst (measure_run (fun x => x) (length sample_sv - 0) sample_sv 0 0)] = false)).
Proof.
  assert (H : 0 <= length sample_sv /\ length sample_sv - 0 <= 10) by (cbn; lia).
  split; [exact H|]. exact (debouncer_loops_terminate (fun x => x) 2 sample_sv 0 10 (proj1 H) (proj2 H)).
Defined.
