(* ===== verification/DebounceMachine.v ===== *)
(** * DebounceMachine: [remove_short_states] statement by statement

    A small-step model of lines 57-77 of
    src/pipeline/fieldpotential_analysis/scripts/fp_up_down_detection.py.
    It sits beside the loop model of [Debounce].  Each state is a program
    point of the function, with its live variables:
    - [AtFor]: the [for op in clean_order] loop of line 62;
    - [AtWhile]: the test of the outer [while] at line 64;
    - [AtInner]: the test of the inner [while] at line 68;
    - [AtCheck]: the [if duration < min_state_duration] of line 73;
    - [Done]: the [return] of line 77.
    [dstep] has one rule per branch of the code.  The rules read the array
    only where the code does, so the model needs no fuel.

    The theorems:
    - [dstep] is deterministic;
    - every run of the machine reaches [Done] ([eventually], after the
      coqutil combinator), and the array it ends with is
      [remove_short_states]: the fuel-bounded loops of [Debounce] compute
      what the statement-level semantics computes;
    - by rule induction over the reachable states, every read
      [state_vector[i]] and every slice [state_vector[i-duration:i]] is
      within the array, and the array keeps its length. *)

From Stdlib Require Import List Lia Bool Arith.
From S2P Require Import Prelude Runs DebounceSpec Debounce.
Import ListNotations.

(** ** The machine *)

(** The program points of lines 62-77 with their live variables: the
    [op]s still to run, the array, [i] and [duration]. *)
Inductive dstate : Type :=
| AtFor (ops : list (bool -> bool)) (sv : list bool)
| AtWhile (op : bool -> bool) (ops : list (bool -> bool)) (sv : list bool) (i : nat)
| AtInner (op : bool -> bool) (ops : list (bool -> bool)) (sv : list bool) (i duration : nat)
| AtCheck (op : bool -> bool) (ops : list (bool -> bool)) (sv : list bool) (i duration : nat)
| Done (sv : list bool).

(** Lines 59-61: the state on entry to the [for] loop. *)
Definition dstart (state_vector : list bool) (remove_down_first : bool) : dstate :=
  AtFor (clean_order remove_down_first) state_vector.

Section Machine.
Variable min_state_duration : nat.

(** One step of lines 62-76. *)
Inductive dstep : dstate -> dstate -> Prop :=
(** Lines 62-63: the next [op], from [i = 0]. *)
| step_for_next op ops sv :
    dstep (AtFor (op :: ops) sv) (AtWhile op ops sv 0)
(** Line 77: both passes done. *)
| step_for_end sv :
    dstep (AtFor [] sv) (Done sv)
(** Line 64: [i < len(state_vector)-1] fails. *)
| step_while_exit op ops sv i :
    length sv <= S i ->
    dstep (AtWhile op ops sv i) (AtFor ops sv)
(** Lines 65-67: a change into the state [op] selects. *)
| step_enter op ops sv i :
    S i < length sv -> op (negb sv.[i]) && op sv.[S i] = true ->
    dstep (AtWhile op ops sv i) (AtInner op ops sv (S i) 0)
(** Lines 75-76. *)
| step_skip op ops sv i :
    S i < length sv -> op (negb sv.[i]) && op sv.[S i] = false ->
    dstep (AtWhile op ops sv i) (AtWhile op ops sv (S i))
(** Lines 68-70, the loop goes on. *)
| step_inner_more op ops sv i d :
    op sv.[i] = true -> S i < length sv ->
    dstep (AtInner op ops sv i d) (AtInner op ops sv (S i) (S d))
(** Lines 68-72, the [break] at the end of the array. *)
| step_inner_break op ops sv i d :
    op sv.[i] = true -> length sv <= S i ->
    dstep (AtInner op ops sv i d) (AtCheck op ops sv (S i) (S d))
(** Line 68, the run has ended. *)
| step_inner_exit op ops sv i d :
    op sv.[i] = false ->
    dstep (AtInner op ops sv i d) (AtCheck op ops sv i d)
(** Lines 73-74: a short run is overwritten. *)
| step_clear op ops sv i d :
    d < min_state_duration ->
    dstep (AtCheck op ops sv i d) (AtWhile op ops (slice_assign sv (i - d) i (op false)) i)
(** Line 73: a long run is kept. *)
| step_keep op ops sv i d :
    min_state_duration <= d ->
    dstep (AtCheck op ops sv i d) (AtWhile op ops sv i).

(** Every run of the machine from [s] reaches a state where [P] holds:
    [s] satisfies [P], or [s] can step and every step leads to such a
    run. *)
Inductive eventually (P : dstate -> Prop) : dstate -> Prop :=
| ev_now s : P s -> eventually P s
| ev_later s : (exists s', dstep s s') -> (forall s', dstep s s' -> eventually P s') ->
               eventually P s.

(** Zero or more steps. *)
Inductive star : dstate -> dstate -> Prop :=
| star_refl s : star s s
| star_step s1 s2 s3 : dstep s1 s2 -> star s2 s3 -> star s1 s3.
End Machine.

#[export] Hint Constructors dstep eventually star : wsp.

(** What the code keeps true at each program point: the array has its
    length [n], the index read at line 68 is within the array, and the
    slice [state_vector[i-duration:i]] of line 74 starts at or after 0. *)
Definition dinv (n : nat) (s : dstate) : Prop :=
  match s with
  | AtFor _ sv | Done sv => length sv = n
  | AtWhile _ _ sv i => length sv = n /\ i <= n
  | AtInner _ _ sv i d => length sv = n /\ i < n /\ d <= i
  | AtCheck _ _ sv i d => length sv = n /\ d <= i <= n
  end.

(** ** The machine's own lemmas *)

Section Lemmas.
Variable m : nat.

Lemma dstep_deterministic s s1 s2 : dstep m s s1 -> dstep m s s2 -> s1 = s2.
Proof. intros H1 H2. destruct H1; inversion H2; subst; try reflexivity; try lia; congruence. Qed.

Lemma done_final sv s : ~ dstep m (Done sv) s.
Proof. inversion 1. Qed.

Lemma eventually_step P s s' : dstep m s s' -> eventually m P s' -> eventually m P s.
Proof.
  intros H Hs'. apply ev_later; [now exists s'|].
  intros s'' H'. now rewrite <- (dstep_deterministic _ _ _ H H').
Qed.

Lemma eventually_trans P Q s :
  eventually m P s -> (forall s', P s' -> eventually m Q s') -> eventually m Q s.
Proof. intros H HPQ. induction H; eauto with wsp. Qed.

(** A run that reaches [Done] ends in the state [eventually] promises. *)
Lemma eventually_done_star w v s :
  eventually m (fun s => s = Done w) s -> star m s (Done v) -> v = w.
Proof.
  induction 1 as [s Hs|s [s' Hs'] _ IH]; intros Hst.
  - subst. inversion Hst as [|? s2 ? Hd]; [congruence|]. now apply done_final in Hd.
  - inversion Hst as [Heq|? s2 ? Hd Hst']; subst; [now apply done_final in Hs'|]. exact (IH s2 Hd Hst').
Qed.

Lemma dstep_dinv n s s' : dstep m s s' -> dinv n s -> dinv n s'.
Proof.
  destruct 1; cbn [dinv]; intros; repeat split; try rewrite slice_assign_length; lia.
Qed.

Lemma star_dinv n s s' : star m s s' -> dinv n s -> dinv n s'.
Proof. induction 1; eauto using dstep_dinv. Qed.

(** ** Each loop of the machine computes its loop of [Debounce] *)

Lemma clean_loop_exit op f sv i : length sv <= S i -> clean_loop op m f sv i = sv.
Proof. intros H. destruct f; cbn [clean_loop]; [reflexivity|]. nat_cmp_cases; [lia|reflexivity]. Qed.

(** One iteration, at its measure: [len - i] is the fuel the loop needs. *)
Lemma clean_loop_iter op sv i :
  S i < length sv ->
  clean_loop op m (length sv - i) sv i
  = clean_loop op m (length (fst (clean_iter op m sv i)) - snd (clean_iter op m sv i))
               (fst (clean_iter op m sv i)) (snd (clean_iter op m sv i)).
Proof.
  intros Hi. remember (length sv - i) as f eqn:Ef. destruct f as [|f]; [lia|].
  cbn [clean_loop]. ltb_lia. pose proof (clean_iter_progress op m sv i) as [Hp Hl].
  destruct (clean_iter op m sv i) as [sv' i']; cbn [fst snd] in *.
  apply (clean_loop_fuel_stable op m (length sv' - i')); lia.
Qed.

(** Lines 68-72 run [measure_run]. *)
Lemma inner_eventually op ops f : forall sv i d,
  length sv - i = f -> i < length sv ->
  eventually m (fun s => s = AtCheck op ops sv (fst (measure_run op f sv i d))
                                               (snd (measure_run op f sv i d)))
             (AtInner op ops sv i d).
Proof.
  induction f as [|f IH]; intros sv i d Ef Hi; [lia|]. cbn [measure_run].
  destruct (op sv.[i]) eqn:E.
  - nat_cmp_cases.
    + apply (eventually_step _ _ _ (step_inner_break m op ops sv i d E ltac:(lia))). now apply ev_now.
    + apply (eventually_step _ _ _ (step_inner_more m op ops sv i d E ltac:(lia))). apply IH; lia.
  - apply (eventually_step _ _ _ (step_inner_exit m op ops sv i d E)). now apply ev_now.
Qed.

(** Lines 65-76 run [clean_iter]. *)
Lemma iter_eventually op ops sv i :
  S i < length sv ->
  eventually m (fun s => s = AtWhile op ops (fst (clean_iter op m sv i)) (snd (clean_iter op m sv i)))
             (AtWhile op ops sv i).
Proof.
  intros Hi. unfold clean_iter. destruct (op (negb sv.[i]) && op sv.[S i]) eqn:E.
  - apply (eventually_step _ _ _ (step_enter m op ops sv i Hi E)).
    eapply eventually_trans; [apply (inner_eventually op ops (length sv - S i)); [reflexivity|exact Hi]|].
    intros s ->. destruct (measure_run op (length sv - S i) sv (S i) 0) as [i' d]; cbn [fst snd].
    destruct (Nat.ltb_spec0 d m) as [Hd|Hd].
    + apply (eventually_step _ _ _ (step_clear m op ops sv i' d Hd)). now apply ev_now.
    + apply (eventually_step _ _ _ (step_keep m op ops sv i' d ltac:(lia))). now apply ev_now.
  - apply (eventually_step _ _ _ (step_skip m op ops sv i Hi E)). now apply ev_now.
Qed.

(** Lines 64-76 run [clean_loop]. *)
Lemma while_eventually op ops n : forall sv i,
  length sv - i <= n ->
  eventually m (fun s => s = AtFor ops (clean_loop op m (length sv - i) sv i)) (AtWhile op ops sv i).
Proof.
  induction n as [|n IH]; intros sv i Hn;
    (destruct (Nat.lt_ge_cases (S i) (length sv)) as [Hlt|Hge];
     [|apply (eventually_step _ _ _ (step_while_exit m op ops sv i Hge)), ev_now;
       now rewrite clean_loop_exit]); [lia|].
  eapply eventually_trans; [exact (iter_eventually op ops sv i Hlt)|]. intros s ->.
  rewrite (clean_loop_iter op sv i Hlt). pose proof (clean_iter_progress op m sv i) as [Hp Hl].
  apply IH. lia.
Qed.

(** Lines 62-77 run the [fold_left] of [remove_short_states]. *)
Lemma for_eventually ops : forall sv,
  eventually m (fun s => s = Done (fold_left (fun sv op => clean_pass op m sv) ops sv)) (AtFor ops sv).
Proof.
  induction ops as [|op ops IH]; intros sv.
  - apply (eventually_step _ _ _ (step_for_end m sv)). now apply ev_now.
  - apply (eventually_step _ _ _ (step_for_next m op ops sv)).
    eapply eventually_trans; [exact (while_eventually op ops (length sv) sv 0 ltac:(lia))|].
    intros s ->. rewrite Nat.sub_0_r. exact (IH (clean_pass op m sv)).
Qed.
End Lemmas.

(** ** Theorems *)

(** C21. Liveness of [remove_short_states] (lines 57-77): from its entry,
    every run of the statement-level machine reaches the [return], and any
    run that reaches it ends with the array [remove_short_states] computes.
    The fuel-bounded loops of [Debounce], on which the debouncer's other
    theorems are proved, compute what the code computes. *)
Theorem remove_short_states_machine sv m rdf :
  eventually m (fun s => s = Done (remove_short_states sv m rdf)) (dstart sv rdf)
  /\ forall v, star m (dstart sv rdf) (Done v) -> v = remove_short_states sv m rdf.
Proof.
  pose proof (for_eventually m (clean_order rdf) sv) as H. split; [exact H|].
  intros v. now apply eventually_done_star.
Qed.

(** C27. Index safety of [remove_short_states] (lines 57-77): in every
    state the code reaches, the array keeps its length.  The inner loop
    reads [state_vector[i]] (line 68) only at an index inside the array,
    and the slice [state_vector[i-duration:i]] (line 74) satisfies
    [0 <= i - duration <= i <= len], so Python never raises [IndexError]
    and never wraps a negative index.  The outer test of line 65 reads
    [i] and [i+1] only after line 64 has checked [i + 1 < len]. *)
Theorem remove_short_states_in_bounds sv m rdf s :
  star m (dstart sv rdf) s -> dinv (length sv) s.
Proof. intros H. apply (star_dinv m _ _ _ H). reflexivity. Qed.

Definition sample_machine_state : dstate :=
  AtInner (fun x => negb x) [fun x => x] [true; false; true] 1 0.

(** Two steps in, [[True, False, True]] with DOWN cleared first is in the
    inner loop at index 1. *)
Lemma remove_short_states_in_bounds_witness :
  star 2 (dstart [true; false; true] true) sample_machine_state
  /\ dinv (length [true; false; true]) sample_machine_state.
Proof.
  assert (H : star 2 (dstart [true; false; true] true) sample_machine_state).
  { eapply star_step; [apply step_for_next|].
    eapply star_step; [apply step_enter; [cbn; lia|reflexivity]|]. apply star_refl. }
  exact (conj H (remove_short_states_in_bounds [true; false; true] 2 true sample_machine_state H)).
Defined.
