(* ===== verification/Transitions.v ===== *)
(** * Transitions: the TransitionExtractor, [statevector_to_spiketrains]

    Model of [statevector_to_spiketrains] in
    src/pipeline/fieldpotential_analysis/scripts/fp_up_down_detection.py
    (lines 121-141).  The [for i in range(len(state_vector)-1)] loop is a
    [fold_left] over [seq 0 (length sv - 1)] of [transition_step], whose
    accumulator is the pair of numpy arrays [(ups, downs)]; sample times are
    rationals (the magnitudes of [times]).  The code's DOWN->UP branch
    assigns [downs = np.append(ups, times[i+1])]: the model keeps that line
    as written, and the theorems characterise what it produces and how it
    differs from the two independent accumulators that spec section 4.5
    requires ([transitions_spec]).  neo's [SpikeTrain] constructor checks
    [t_start <= t_stop] and that every time lies between them, raising
    [ValueError] otherwise ([spike_train_new]); on a state vector no longer
    than [times] and times within the bounds both trains are built
    ([statevector_to_spiketrains_ok]).  The file ends with the debouncer and
    the extractor in sequence: the burst scenario of spec section 8, and
    the spacing of the UP->DOWN train after debouncing, read off the run
    boundaries of the debounced vector ([run_events]). *)

From Stdlib Require Import List Lia Bool Arith QArith Sorting.Sorted.
From S2P Require Import Prelude Runs DebounceSpec Debounce.
Import ListNotations.

(** ** The code *)

(** [times[i].magnitude]; [times] is aligned with the state vector, so the
    index is in range wherever the loop reads it. *)
Definition time_at (times : list Q) (i : nat) : Q := nth i times 0%Q.

(** One iteration of the loop body (lines 126-130). *)
Definition transition_step (sv : list bool) (times : list Q)
    (acc : list Q * list Q) (i : nat) : list Q * list Q :=
  let '(ups, downs) := acc in
  if sv.[i] && negb sv.[S i] then (ups ++ [time_at times (S i)], downs)
  else if negb sv.[i] && sv.[S i] then (ups, ups ++ [time_at times (S i)])
  else (ups, downs).

(** Lines 123-130: the two accumulators after the loop. *)
Definition transition_times (sv : list bool) (times : list Q) : list Q * list Q :=
  fold_left (transition_step sv times) (seq 0 (length sv - 1)) ([], []).

(** A [neo.core.SpikeTrain]: event times, time bounds, sampling rate and the
    keyword annotations (an abstract mapping, passed through unchanged). *)
Record spike_train (Ann : Type) := mk_spike_train {
  st_times : list Q;
  st_t_start : Q;
  st_t_stop : Q;
  st_sampling_rate : Q;
  st_annotations : Ann
}.
Arguments mk_spike_train {Ann}.
Arguments st_times {Ann}.
Arguments st_t_start {Ann}.
Arguments st_t_stop {Ann}.

(** [neo.core.SpikeTrain(times, t_start=..., t_stop=..., ...)]: neo
    checks that [t_start <= t_stop] and that every time lies in
    [[t_start, t_stop]], and raises [ValueError] otherwise. *)
Definition spike_train_new {Ann : Type} (times : list Q) (t_start t_stop sampling_rate : Q)
    (annotations : Ann) : result (spike_train Ann) :=
  if Qle_bool t_start t_stop && forallb (fun t => Qle_bool t_start t && Qle_bool t t_stop) times
  then Ok (mk_spike_train times t_start t_stop sampling_rate annotations)
  else Err ValueError.

(** Lines 121-141: the UP->DOWN train is built first. *)
Definition statevector_to_spiketrains {Ann : Type} (state_vector : list bool)
    (sampling_rate : Q) (times : list Q) (t_start t_stop : Q) (annotations : Ann)
    : result (spike_train Ann * spike_train Ann) :=
  let '(ups, downs) := transition_times state_vector times in
  up_trains <- spike_train_new ups t_start t_stop sampling_rate annotations ;;
  down_trains <- spike_train_new downs t_start t_stop sampling_rate annotations ;;
  Ok (up_trains, down_trains).

Example transition_times_ex :
  transition_times [false; true; false; true] [0; 1; 2; 3]%Q = ([2]%Q, [2; 3]%Q).
Proof. reflexivity. Qed.

(** ** The transitions of a state vector *)

(** The transitions in scan order, each with its kind ([true] for UP->DOWN,
    the state before it) and the time of the later sample. *)
Fixpoint trans_events (l : list bool) (times : list Q) : list (bool * Q) :=
  match l with
  | x :: l' =>
      match l' with
      | y :: _ =>
          (if Bool.eqb x y then [] else [(x, time_at times 1)])
          ++ trans_events l' (tl times)
      | [] => []
      end
  | [] => []
  end.

(** The loop restricted to the iterations that find a transition. *)
Fixpoint acc_events (acc : list Q * list Q) (evs : list (bool * Q)) : list Q * list Q :=
  match evs with
  | [] => acc
  | (k, t) :: evs' =>
      let '(ups, downs) := acc in
      acc_events (if k then (ups ++ [t], downs) else (ups, ups ++ [t])) evs'
  end.

(** The streams spec section 4.5 asks for: two independent accumulators. *)
Definition transitions_spec (sv : list bool) (times : list Q) : list Q * list Q :=
  (map snd (filter fst (trans_events sv times)),
   map snd (filter (fun e => negb (fst e)) (trans_events sv times))).

(** Consecutive transitions are of opposite kinds. *)
Fixpoint alternates (evs : list (bool * Q)) : Prop :=
  match evs with
  | e1 :: evs' =>
      match evs' with
      | e2 :: _ => fst e2 = negb (fst e1) /\ alternates evs'
      | [] => True
      end
  | [] => True
  end.

(** ** The loop as a recursion on the state vector *)

Definition transition_times_from (sv : list bool) (times : list Q)
    (acc : list Q * list Q) : list Q * list Q :=
  fold_left (transition_step sv times) (seq 0 (length sv - 1)) acc.

Lemma time_at_tl times i : time_at (tl times) i = time_at times (S i).
Proof. destruct times; unfold time_at; simpl; [now destruct i|reflexivity]. Qed.

Lemma transition_step_shift x sv times acc i :
  transition_step (x :: sv) times acc (S i) = transition_step sv (tl times) acc i.
Proof. destruct acc. unfold transition_step. now rewrite !time_at_tl. Qed.

Lemma fold_transition_shift x sv times n k acc :
  fold_left (transition_step (x :: sv) times) (seq (S k) n) acc
  = fold_left (transition_step sv (tl times)) (seq k n) acc.
Proof.
  revert k acc; induction n as [|n IH]; intros k acc; [reflexivity|].
  simpl. rewrite transition_step_shift. apply IH.
Qed.

Lemma transition_times_from_cons x y l times acc :
  transition_times_from (x :: y :: l) times acc
  = transition_times_from (y :: l) (tl times) (transition_step (x :: y :: l) times acc 0).
Proof.
  unfold transition_times_from. cbn [length]. rewrite !Nat.sub_succ, !Nat.sub_0_r.
  cbn [seq fold_left]. apply fold_transition_shift.
Qed.

(** The loop only acts at transitions. *)
Lemma transition_times_from_events sv times acc :
  transition_times_from sv times acc = acc_events acc (trans_events sv times).
Proof.
  revert times acc; induction sv as [|x sv IH]; intros times acc; [reflexivity|].
  destruct sv as [|y l]; [reflexivity|].
  rewrite transition_times_from_cons, IH. destruct acc as [ups downs].
  unfold transition_step. cbn [trans_events nth].
  destruct x, y; reflexivity.
Qed.

Lemma transition_times_events sv times :
  transition_times sv times = acc_events ([], []) (trans_events sv times).
Proof. apply transition_times_from_events. Qed.

(** ** Event-level lemmas *)

Lemma acc_events_fst ups downs evs :
  fst (acc_events (ups, downs) evs) = ups ++ map snd (filter fst evs).
Proof.
  revert ups downs; induction evs as [|[[|] t] evs IH]; intros ups downs; simpl.
  - now rewrite app_nil_r.
  - now rewrite IH, <- app_assoc.
  - apply IH.
Qed.

Lemma acc_events_all_up ups downs evs :
  Forall (fun e => fst e = true) evs -> snd (acc_events (ups, downs) evs) = downs.
Proof.
  revert ups downs; induction evs as [|[k t] evs IH]; intros ups downs H; [reflexivity|].
  inversion H as [|? ? Hk Hevs]; subst; simpl in Hk; subst. apply IH, Hevs.
Qed.

Lemma acc_events_last_down ups downs pre t post :
  Forall (fun e => fst e = true) post ->
  snd (acc_events (ups, downs) (pre ++ (false, t) :: post)) = ups ++ map snd (filter fst pre) ++ [t].
Proof.
  intros Hpost. revert ups downs; induction pre as [|[[|] t'] pre IH]; intros ups downs; simpl.
  - now rewrite acc_events_all_up.
  - now rewrite IH, <- app_assoc.
  - apply IH.
Qed.

Lemma trans_events_cons2 x y l times :
  trans_events (x :: y :: l) times
  = (if Bool.eqb x y then [] else [(x, time_at times 1)]) ++ trans_events (y :: l) (tl times).
Proof. reflexivity. Qed.

(** Either every transition is UP->DOWN, or there is a last DOWN->UP one. *)
Lemma last_down_split (evs : list (bool * Q)) :
  Forall (fun e => fst e = true) evs
  \/ exists pre t post, evs = pre ++ (false, t) :: post /\ Forall (fun e => fst e = true) post.
Proof.
  induction evs as [|[k t] evs [IH|(pre & t' & post & -> & Hpost)]]; [left; constructor| |].
  - destruct k; [left; now constructor|right; now exists [], t, evs].
  - right. now exists ((k, t) :: pre), t', post.
Qed.

Lemma trans_events_alternates sv times :
  alternates (trans_events sv times)
  /\ match trans_events sv times with (k, _) :: _ => k = hd false sv | [] => True end.
Proof.
  revert times; induction sv as [|x sv IH]; intros times; [simpl; auto|].
  destruct sv as [|y l]; [simpl; auto|].
  destruct (IH (tl times)) as [Halt Hhd]. rewrite trans_events_cons2.
  destruct (Bool.eqb x y) eqn:E; cbn [app].
  - apply eqb_prop in E; subst y. split; [exact Halt|exact Hhd].
  - split; [|reflexivity]. cbn [alternates].
    destruct (trans_events (y :: l) (tl times)) as [|[k t] evs]; [exact I|].
    split; [|exact Halt]. simpl in Hhd |- *. subst k. destruct x, y; simpl in *; congruence.
Qed.

(** Event times are strictly increasing when the sample times are. *)
Lemma trans_events_sorted sv times :
  (length sv <= length times)%nat -> StronglySorted Qlt times ->
  StronglySorted Qlt (map snd (trans_events sv times))
  /\ Forall (fun q => hd 0%Q times < q)%Q (map snd (trans_events sv times)).
Proof.
  revert times; induction sv as [|x sv IH]; intros times Hlen Hs; [split; constructor|].
  destruct sv as [|y l]; [split; constructor|].
  destruct times as [|t0 [|t1 ts]]; simpl in Hlen; [lia|lia|].
  apply StronglySorted_inv in Hs as [Hs Ht0].
  destruct (IH (t1 :: ts)) as [IHs IHf]; [simpl; lia|exact Hs|].
  inversion Ht0 as [|? ? H01 _]; subst. simpl hd in *.
  assert (Hall : Forall (fun q => t0 < q)%Q (map snd (trans_events (y :: l) (t1 :: ts)))).
  { eapply Forall_impl; [|exact IHf]. intros q Hq. eapply Qlt_trans; eassumption. }
  rewrite trans_events_cons2. unfold time_at at 1; cbn [nth tl].
  destruct (Bool.eqb x y); simpl; [split; assumption|].
  split; [constructor; assumption|constructor; assumption].
Qed.

(** ** The times of the trains *)

(** Every event time is one of the sample times. *)
Lemma trans_events_times (P : Q -> Prop) sv times :
  (length sv <= length times)%nat -> Forall P times -> Forall P (map snd (trans_events sv times)).
Proof.
  revert times; induction sv as [|x sv IH]; intros times Hlen Hp; [constructor|].
  destruct sv as [|y l]; [constructor|].
  destruct times as [|t0 [|t1 ts]]; cbn [length] in Hlen; [lia|lia|].
  inversion Hp as [|? ? _ Hp']; subst. rewrite trans_events_cons2, map_app.
  apply Forall_app. split; [|apply IH; [cbn [length tl]; lia|exact Hp']].
  destruct (Bool.eqb x y); repeat constructor. now inversion Hp'.
Qed.

Lemma acc_events_Forall (P : Q -> Prop) ups downs evs :
  Forall P ups -> Forall P downs -> Forall P (map snd evs) ->
  Forall P (fst (acc_events (ups, downs) evs)) /\ Forall P (snd (acc_events (ups, downs) evs)).
Proof.
  revert ups downs; induction evs as [|[[|] t] evs IH]; intros ups downs Hu Hd He; [auto| |];
    inversion He as [|? ? Ht He']; subst; cbn [acc_events];
    apply IH; try apply Forall_app; auto.
Qed.

(** The two accumulators only hold sample times. *)
Lemma transition_times_Forall (P : Q -> Prop) sv times :
  (length sv <= length times)%nat -> Forall P times ->
  Forall P (fst (transition_times sv times)) /\ Forall P (snd (transition_times sv times)).
Proof.
  intros Hl Hp. rewrite transition_times_events.
  apply acc_events_Forall; [constructor|constructor|now apply trans_events_times].
Qed.

Lemma spike_train_new_ok {Ann} times t_start t_stop rate (ann : Ann) :
  t_start <= t_stop -> Forall (fun t => t_start <= t <= t_stop) times ->
  spike_train_new times t_start t_stop rate ann = Ok (mk_spike_train times t_start t_stop rate ann).
Proof.
  intros H0 Hf. unfold spike_train_new.
  replace (Qle_bool t_start t_stop) with true by (symmetry; now apply Qle_bool_iff).
  replace (forallb _ times) with true; [reflexivity|]. symmetry. apply forallb_forall.
  intros t Ht. apply (proj1 (Forall_forall _ _) Hf) in Ht as [H1 H2].
  apply andb_true_iff. split; now apply Qle_bool_iff.
Qed.

(** neo accepts both trains when every sample time lies within
    [[t_start, t_stop]]; the UP->DOWN train ends at [t_stop]. *)
Lemma statevector_to_spiketrains_ok {Ann} sv rate times t_start t_stop (ann : Ann) :
  (length sv <= length times)%nat -> t_start <= t_stop ->
  Forall (fun t => t_start <= t <= t_stop) times ->
  exists ups downs, statevector_to_spiketrains sv rate times t_start t_stop ann = Ok (ups, downs)
                    /\ st_t_stop ups = t_stop.
Proof.
  intros Hl H0 Hf. destruct (transition_times_Forall _ sv times Hl Hf) as [Hu Hd].
  unfold statevector_to_spiketrains. destruct (transition_times sv times) as [u d].
  rewrite (spike_train_new_ok u) by assumption. cbn [bind].
  rewrite (spike_train_new_ok d) by assumption. cbn [bind]. eauto.
Qed.

(** ** What [statevector_to_spiketrains] computes *)

(** C10. The UP->DOWN accumulator [ups] of the code is exactly the stream
    spec section 4.5 asks for: the time of the later sample of every
    [True -> False] step, in scan order. *)
Theorem transition_times_ups sv times :
  fst (transition_times sv times) = fst (transitions_spec sv times).
Proof. rewrite transition_times_events, acc_events_fst. reflexivity. Qed.

(** C11. What the code's DOWN->UP array really holds: because line 130
    assigns [downs = np.append(ups, times[i+1])], it is the UP->DOWN times
    found before the last DOWN->UP transition, followed by the time of that
    last DOWN->UP transition; every earlier DOWN->UP time is lost. *)
Theorem transition_times_downs sv times pre t post :
  trans_events sv times = pre ++ (false, t) :: post ->
  Forall (fun e => fst e = true) post ->
  snd (transition_times sv times) = map snd (filter fst pre) ++ [t].
Proof.
  intros Hev Hpost. rewrite transition_times_events, Hev, acc_events_last_down by exact Hpost.
  reflexivity.
Qed.

Lemma transition_times_downs_witness :
  (trans_events [false; true; false; true] [0; 1; 2; 3]%Q
   = [(false, 1); (true, 2)]%Q ++ (false, 3%Q) :: []
   /\ Forall (fun e : bool * Q => fst e = true) [])
  /\ snd (transition_times [false; true; false; true] [0; 1; 2; 3]%Q) = [2; 3]%Q.
Proof.
  split; [split; [reflexivity|constructor]|].
  apply (transition_times_downs [false; true; false; true] [0; 1; 2; 3]%Q
           [(false, 1); (true, 2)]%Q 3%Q []); [reflexivity|constructor].
Defined.

(** The code and spec section 4.5 part ways: on the state vector
    DOWN, UP, DOWN, UP the code's DOWN->UP train is [2; 3] (an UP->DOWN time
    and the last DOWN->UP time), where the two independent accumulators give
    [1; 3]; the UP->DOWN trains agree. *)
Example transition_times_vs_spec :
  transition_times [false; true; false; true] [0; 1; 2; 3]%Q = ([2]%Q, [2; 3]%Q)
  /\ transitions_spec [false; true; false; true] [0; 1; 2; 3]%Q = ([2]%Q, [1; 3]%Q).
Proof. split; reflexivity. Qed.

(** C13. Both arrays the code returns are strictly increasing in time when
    the sample times are strictly increasing and aligned with the state
    vector (neo requires nothing more of a spike train's times). *)
Theorem transition_times_sorted sv times :
  (length sv <= length times)%nat -> StronglySorted Qlt times ->
  StronglySorted Qlt (fst (transition_times sv times))
  /\ StronglySorted Qlt (snd (transition_times sv times)).
Proof.
  intros Hlen Hs. destruct (trans_events_sorted sv times Hlen Hs) as [Hev _].
  rewrite transition_times_events. split.
  - rewrite acc_events_fst. now apply StronglySorted_map_filter.
  - destruct (last_down_split (trans_events sv times)) as [Hall|(pre & t & post & Hsplit & Hpost)].
    + rewrite acc_events_all_up by exact Hall. constructor.
    + rewrite Hsplit, acc_events_last_down by exact Hpost. simpl.
      rewrite Hsplit, map_app in Hev. simpl in Hev.
      apply StronglySorted_snoc.
      * apply StronglySorted_map_filter. eapply StronglySorted_app_l, Hev.
      * apply StronglySorted_app_before in Hev.
        apply Forall_forall. intros q Hq. apply in_map_iff in Hq as (e & <- & He).
        apply filter_In in He as [He _]. rewrite Forall_forall in Hev. apply Hev, in_map, He.
Qed.

Lemma transition_times_sorted_witness :
  ((length [false; true; true; false] <= length [0; 1; 2; 3]%Q)%nat
   /\ StronglySorted Qlt [0; 1; 2; 3]%Q)
  /\ StronglySorted Qlt (fst (transition_times [false; true; true; false] [0; 1; 2; 3]%Q))
  /\ StronglySorted Qlt (snd (transition_times [false; true; true; false] [0; 1; 2; 3]%Q)).
Proof.
  assert (Hs : StronglySorted Qlt [0; 1; 2; 3]%Q)
    by (repeat constructor; unfold Qlt; simpl; lia).
  split; [split; [simpl; lia|exact Hs]|].
  apply (transition_times_sorted [false; true; true; false] [0; 1; 2; 3]%Q); [simpl; lia|exact Hs].
Defined.

Lemma trans_events_repeat b n times : trans_events (repeat b n) times = [].
Proof.
  revert times; induction n as [|n IH]; intros times; [reflexivity|].
  destruct n as [|n]; [reflexivity|].
  change (repeat b (S (S n))) with (b :: b :: repeat b n).
  rewrite trans_events_cons2, eqb_reflx. apply IH.
Qed.

(** A constant state vector (all DOWN or all UP) yields no transition at
    all: both arrays are empty. *)
Lemma transition_times_constant b n times :
  transition_times (repeat b n) times = ([], []).
Proof. rewrite transition_times_events, trans_events_repeat. reflexivity. Qed.

Lemma time_at_skipn times k i : time_at (skipn k times) i = time_at times (k + i).
Proof.
  revert times; induction k as [|k IH]; intros times; [reflexivity|].
  destruct times as [|t times]; [|apply IH].
  unfold time_at. rewrite skipn_nil. now rewrite !nth_overflow by (cbn; lia).
Qed.

(** The events of a vector that starts with a block of [S n] equal
    states: at most one event at the end of the block, then those of the
    rest. *)
Lemma trans_events_repeat_app x n l times :
  trans_events (repeat x (S n) ++ l) times
  = match l with
    | [] => []
    | y :: _ => if Bool.eqb x y then [] else [(x, time_at times (S n))]
    end ++ trans_events l (skipn (S n) times).
Proof.
  revert times; induction n as [|n IH]; intros times.
  - destruct l as [|y l]; [reflexivity|]. cbn [repeat app]. rewrite trans_events_cons2.
    destruct times; reflexivity.
  - change (repeat x (S (S n)) ++ l) with (x :: (repeat x (S n) ++ l)).
    change (repeat x (S n) ++ l) with (x :: (repeat x n ++ l)) at 1.
    rewrite trans_events_cons2, eqb_reflx. cbn [app].
    change (x :: repeat x n ++ l) with (repeat x (S n) ++ l). rewrite IH.
    destruct l as [|y l]; [reflexivity|]. rewrite time_at_tl.
    destruct times; reflexivity.
Qed.

(** ** Debouncing, then extracting transitions (spec section 8) *)

(** C14. Spec section 8, the burst scenario after thresholding: in a DOWN
    state vector, an UP burst of at least [min_state_duration] samples,
    with DOWN samples before it and at least [min_state_duration] after
    it, survives the debouncer in either order. The extractor then
    reports one DOWN->UP transition at the burst's first sample and one
    UP->DOWN transition just after its last, [b] samples later. *)
Theorem debounce_burst_transitions a b c m rdf times :
  (1 <= a -> 1 <= m -> m <= b -> m <= c ->
   remove_short_states (repeat false a ++ repeat true b ++ repeat false c) m rdf
   = repeat false a ++ repeat true b ++ repeat false c
   /\ transition_times (repeat false a ++ repeat true b ++ repeat false c) times
      = ([time_at times (a + b)], [time_at times a]))%nat.
Proof.
  intros Ha Hm Hb Hc. split.
  - apply remove_short_states_fixed_iff.
    replace (repeat false a ++ repeat true b ++ repeat false c)
      with (flatten [(false, a); (true, b); (false, c)])
      by (unfold flatten, expand; simpl; now rewrite app_nil_r).
    rewrite runs_flatten by (simpl; repeat split; try lia; discriminate).
    simpl. repeat constructor; simpl; lia.
  - rewrite transition_times_events.
    destruct a as [|a], b as [|b], c as [|c]; try lia.
    rewrite trans_events_repeat_app. cbn [repeat app Bool.eqb].
    change (true :: repeat true b ++ false :: repeat false c)
      with (repeat true (S b) ++ repeat false (S c)).
    rewrite trans_events_repeat_app, trans_events_repeat. cbn [repeat app Bool.eqb acc_events].
    now rewrite time_at_skipn.
Qed.

Lemma debounce_burst_transitions_witness :
  (1 <= 10 /\ 1 <= 5 /\ 5 <= 50 /\ 5 <= 940)%nat
  /\ remove_short_states (repeat false 10 ++ repeat true 50 ++ repeat false 940) 5 true
     = repeat false 10 ++ repeat true 50 ++ repeat false 940
  /\ transition_times (repeat false 10 ++ repeat true 50 ++ repeat false 940)
       (map (fun k => inject_Z (Z.of_nat k)) (seq 0 1000))
     = ([time_at (map (fun k => inject_Z (Z.of_nat k)) (seq 0 1000)) (10 + 50)],
        [time_at (map (fun k => inject_Z (Z.of_nat k)) (seq 0 1000)) 10]).
Proof.
  split; [lia|]. apply debounce_burst_transitions; lia.
Defined.

(** Spec section 8: a one-sample UP spike in a DOWN
    state vector, with DOWN samples before it and at least
    [min_state_duration] after it, is erased by the debouncer, and the
    transition extractor then reports no transition at all. *)
Theorem debounce_spike_no_transitions k j m rdf times :
  (1 <= k -> 2 <= m -> m <= j ->
  transition_times (remove_short_states (repeat false k ++ true :: repeat false j) m rdf) times
  = ([], []))%nat.
Proof.
  intros Hk Hm Hj. rewrite remove_short_states_spike_erased by assumption.
  apply transition_times_constant.
Qed.

Lemma debounce_spike_no_transitions_witness :
  (1 <= 10 /\ 2 <= 5 /\ 5 <= 989)%nat
  /\ transition_times (remove_short_states (repeat false 10 ++ true :: repeat false 989) 5 true)
       (map (fun k => inject_Z (Z.of_nat k)) (seq 0 1000)) = ([], []).
Proof.
  split; [lia|]. apply debounce_spike_no_transitions; lia.
Defined.

(** ** Debounced transitions are spaced *)

Local Open Scope nat_scope.

(** The boundary events of a run list whose first sample is at index [k]:
    the state of the run that ends and the index of the next run's first
    sample. *)
Fixpoint run_events (rs : list run) (k : nat) : list (bool * nat) :=
  match rs with
  | (b, n) :: rest =>
      match rest with
      | [] => []
      | _ :: _ => (b, k + n) :: run_events rest (k + n)
      end
  | [] => []
  end.

(** Consecutive indices at least [d] apart. *)
Fixpoint spaced (d : nat) (l : list nat) : Prop :=
  match l with
  | x :: l' => match l' with y :: _ => x + d <= y /\ spaced d l' | [] => True end
  | [] => True
  end.

(** Consecutive events of opposite kinds, at least [d] apart. *)
Fixpoint spaced_events (d : nat) (l : list (bool * nat)) : Prop :=
  match l with
  | e1 :: l' =>
      match l' with
      | e2 :: _ => fst e2 = negb (fst e1) /\ snd e1 + d <= snd e2 /\ spaced_events d l'
      | [] => True
      end
  | [] => True
  end.

(** The transitions of a vector are its run boundaries. *)
Lemma trans_events_runs rs k times :
  runs_ok rs ->
  trans_events (flatten rs) (skipn k times)
  = map (fun e => (fst e, time_at times (snd e))) (run_events rs k).
Proof.
  revert k; induction rs as [|[b n] rest IH]; intros k Hok; [reflexivity|].
  destruct Hok as (Hn & Hd & Hrest). destruct n as [|n]; [lia|].
  change (flatten ((b, S n) :: rest)) with (repeat b (S n) ++ flatten rest).
  rewrite trans_events_repeat_app. destruct rest as [|[c n'] rest']; [reflexivity|].
  destruct n' as [|n']; [destruct Hrest; lia|].
  change (flatten ((c, S n') :: rest')) with (c :: (repeat c n' ++ flatten rest')) at 1.
  cbn [head_differs] in Hd. apply head_differs_neg in Hd. subst c.
  rewrite time_at_skipn, skipn_skipn. replace (S n + k) with (k + S n) by lia.
  rewrite (IH (k + S n) Hrest). destruct b; reflexivity.
Qed.

Lemma run_events_spaced m rs k :
  runs_ok rs -> Forall (fun r => m <= snd r) (tl rs) -> spaced_events m (run_events rs k).
Proof.
  revert k; induction rs as [|[b n] rest IH]; intros k Hok Hlong; [exact I|].
  destruct Hok as (_ & Hd & Hrest). cbn [tl] in Hlong.
  destruct rest as [|[c n'] rest']; [exact I|].
  pose proof (IH (k + n) Hrest (Forall_inv_tail Hlong)) as Hs.
  destruct rest' as [|[c2 n2] rest'']; [exact I|]. cbn [run_events] in Hs |- *.
  apply Forall_inv in Hlong. cbn [snd] in Hlong. cbn [head_differs] in Hd.
  apply head_differs_neg in Hd. simpl in Hlong |- *. repeat split; [exact Hd|lia|exact Hs].
Qed.

Lemma run_events_range rs k :
  runs_ok rs -> Forall (fun e => k < snd e < k + length (flatten rs)) (run_events rs k).
Proof.
  revert k; induction rs as [|[b n] rest IH]; intros k Hok; [constructor|].
  destruct Hok as (Hn & _ & Hrest). destruct rest as [|[c n'] rest']; [constructor|].
  cbn [run_events]. pose proof (IH (k + n) Hrest) as Hr.
  assert (Hl : length (flatten ((b, n) :: (c, n') :: rest'))
               = n + length (flatten ((c, n') :: rest'))) by apply length_flatten_cons.
  assert (Hl' : 0 < length (flatten ((c, n') :: rest'))).
  { rewrite length_flatten_cons. destruct Hrest; lia. }
  constructor; [cbn [snd]; lia|].
  eapply Forall_impl; [|exact Hr]. intros e He. cbv beta in He |- *. lia.
Qed.

(** The UP->DOWN events of alternating events [d] apart are [2d] apart. *)
Lemma spaced_events_ups d l :
  spaced_events d l ->
  spaced (2 * d) (map snd (filter fst l))
  /\ forall e x, hd_error l = Some e -> fst e = false ->
       hd_error (map snd (filter fst l)) = Some x -> snd e + d <= x.
Proof.
  induction l as [|e1 l IH]; intros Hs; [split; [exact I|discriminate]|].
  assert (Hl : spaced_events d l) by (destruct l; [exact I|exact (proj2 (proj2 Hs))]).
  destruct (IH Hl) as [IHs IHh]. destruct e1 as [[|] i]; cbn [filter fst map].
  - split; [|intros e x [= <-]; discriminate].
    destruct l as [|[b2 i2] l']; [exact I|]. destruct Hs as (Hb & Hi & _). cbn [fst snd negb] in Hb, Hi.
    subst b2. cbn [filter fst] in IHs, IHh |- *.
    destruct (map snd (filter fst l')) as [|x xs] eqn:E; [exact I|].
    split; [|exact IHs]. specialize (IHh (false, i2) x eq_refl eq_refl eq_refl). simpl in *. lia.
  - split; [exact IHs|]. intros e x [= <-] _ Hx. cbn [snd].
    destruct l as [|[b2 i2] l']; [discriminate|]. destruct Hs as (Hb & Hi & _). cbn [fst snd negb] in Hb, Hi.
    subst b2. cbn [filter fst map hd_error] in Hx. injection Hx as <-. exact Hi.
Qed.

(** [filter fst] commutes with a map that keeps the kind. *)
Lemma filter_fst_map_kind {A B} (f : B -> A) (l : list (bool * B)) :
  filter fst (map (fun e => (fst e, f (snd e))) l) = map (fun e => (fst e, f (snd e))) (filter fst l).
Proof. induction l as [|[[|] x] l IH]; simpl; [reflexivity|now rewrite IH|exact IH]. Qed.

(** C4. After debouncing, the UP->DOWN train of [statevector_to_spiketrains]
    is spaced: it lists the times of sample indices, each index at least
    [2 * min_state_duration] after the previous one (a DOWN run and an UP
    run, neither of them leading, lie between two UP->DOWN transitions),
    and each index lies strictly inside the state vector (the transition
    is reported at the later sample, [times[i+1]]).  It holds for either
    cleaning order and for any sample times. *)
Theorem debounced_ups_spaced sv m rdf times :
  exists idx,
    fst (transition_times (remove_short_states sv m rdf) times) = map (time_at times) idx
    /\ spaced (2 * m) idx /\ Forall (fun i => 0 < i < length sv) idx.
Proof.
  set (rs := runs (remove_short_states sv m rdf)).
  assert (Hok : runs_ok rs) by apply runs_ok_runs.
  assert (Hf : flatten rs = remove_short_states sv m rdf) by apply flatten_runs.
  exists (map snd (filter fst (run_events rs 0))). split; [|split].
  - rewrite transition_times_events, acc_events_fst, <- Hf.
    pose proof (trans_events_runs rs 0 times Hok) as E. cbn [skipn] in E. rewrite E.
    rewrite filter_fst_map_kind, !map_map. reflexivity.
  - apply spaced_events_ups, run_events_spaced; [exact Hok|apply remove_short_states_runs_long].
  - assert (Hl : length (flatten rs) = length sv)
      by (rewrite Hf, remove_short_states_spec; now rewrite !spec_pass_length).
    pose proof (run_events_range rs 0 Hok) as Hr. rewrite Hl in Hr.
    apply Forall_map, Forall_forall. intros e He. apply filter_In in He as [He _].
    exact (proj1 (Forall_forall _ _) Hr e He).
Qed.

(** Two UP bursts of three samples, debounced with
    [min_state_duration = 3]: UP->DOWN transitions at samples 4 and 10,
    six samples apart. *)
Example debounced_ups_two_bursts :
  fst (transition_times (remove_short_states [false; true; true; true; false; false; false;
                                              true; true; true; false; false; false] 3 true)
         (map (fun k => inject_Z (Z.of_nat k)) (seq 0 13))) = [4; 10]%Q.
Proof. vm_compute. reflexivity. Qed.
