(* ===== verification/Values.v ===== *)
(** * Values: the floating-point samples of a logMUA signal

    A logMUA sample is [np.log] of a mean spectral power: a finite number,
    [-inf] (log of a zero power), [+inf], or [nan] (mean of an empty
    frequency band).  Finite values are modelled as rationals [Q]; the
    comparisons and predicates are numpy's ([np.isfinite], [value > t] is
    false on [nan]).  This file also holds the rational helpers the numeric
    components share ([np.mean], [np.sum]). *)

From Stdlib Require Import List Lia Bool Arith QArith Qround Lqa.
From S2P Require Import Prelude.
Import ListNotations.

Inductive fval : Type :=
| Fin (q : Q)
| PosInf
| NegInf
| NaN.

(** [np.isfinite]. *)
Definition isfinite (v : fval) : bool :=
  match v with Fin _ => true | _ => false end.

(** [a[np.isfinite(a)]]: the finite samples, in order. *)
Fixpoint finite_part (l : list fval) : list Q :=
  match l with
  | [] => []
  | Fin q :: l' => q :: finite_part l'
  | _ :: l' => finite_part l'
  end.

(** [t < q] on rationals, as a boolean. *)
Definition Qltb (t q : Q) : bool := negb (Qle_bool q t).

(** Python's [value > threshold] for a float [value] and a finite
    threshold: [nan > t] and [-inf > t] are false, [inf > t] is true. *)
Definition fgt (v : fval) (t : Q) : bool :=
  match v with
  | Fin q => Qltb t q
  | PosInf => true
  | NegInf | NaN => false
  end.

(** [np.sum] and [np.mean] over rationals; the mean of an empty array is
    [nan], hence [None]. *)
Definition Qsum (l : list Q) : Q := fold_right Qplus 0 l.

Definition Qmean (l : list Q) : option Q :=
  match l with
  | [] => None
  | _ => Some (Qsum l / inject_Z (Z.of_nat (length l)))
  end.

(** ** Lemmas *)

Lemma Qltb_spec t q : Qltb t q = true <-> t < q.
Proof.
  unfold Qltb. rewrite negb_true_iff. split; intros H.
  - apply Qnot_le_lt. intros Hle. apply Qle_bool_iff in Hle. congruence.
  - destruct (Qle_bool q t) eqn:E; [|reflexivity].
    apply Qle_bool_iff in E. exfalso. apply (Qlt_not_le t q); assumption.
Qed.

Lemma fgt_mono v t1 t2 : t1 <= t2 -> fgt v t2 = true -> fgt v t1 = true.
Proof.
  destruct v; simpl; try easy. rewrite !Qltb_spec. intros; lra.
Qed.

Lemma finite_part_length l : (length (finite_part l) <= length l)%nat.
Proof. induction l as [|[] l IH]; simpl; lia. Qed.

Lemma finite_part_app l1 l2 : finite_part (l1 ++ l2) = finite_part l1 ++ finite_part l2.
Proof. induction l1 as [|[] l1 IH]; simpl; congruence. Qed.

Lemma Qsum_app l1 l2 : Qsum (l1 ++ l2) == Qsum l1 + Qsum l2.
Proof. induction l1 as [|a l1 IH]; simpl; [lra|]. rewrite IH. lra. Qed.

Lemma Qsum_map_opp l : Qsum (map Qopp l) == - Qsum l.
Proof. induction l as [|a l IH]; simpl; [lra|]. rewrite IH. lra. Qed.

Lemma ratio_bounds (a n : Z) :
  (0 <= a <= n)%Z -> (0 < n)%Z -> 0 <= inject_Z a * 2 / inject_Z n <= 2.
Proof.
  intros Ha Hn. change 2 with (inject_Z 2). rewrite <- inject_Z_mult.
  assert (Hn' : inject_Z 0 < inject_Z n) by (rewrite <- Zlt_Qlt; exact Hn). split.
  - apply Qle_shift_div_l; [exact Hn'|].
    rewrite Qmult_0_l. change 0 with (inject_Z 0). rewrite <- Zle_Qle. lia.
  - apply Qle_shift_div_r; [exact Hn'|].
    rewrite <- inject_Z_mult, <- Zle_Qle. lia.
Qed.
