(* ===== verification/Threshold.v ===== *)
(** * Threshold: the BimodalThresholdEstimator, [logMUA_distribution]

    Model of [logMUA_distribution] in
    src/pipeline/fieldpotential_analysis/scripts/fp_up_down_detection.py
    (lines 9-54; its plotting block, lines 32-53, is in [DistributionPlot]).  The non-linear
    least-squares fit [scipy.optimize.curve_fit] of the [gaussian] lambda is
    the interface [CurveFit]: a fit returns parameters or raises
    [RuntimeError], which is all scipy promises.  [np.histogram] (a numpy
    call, not code of this repository) is modelled after numpy's algorithm
    on rationals, so that the chain of fallible steps and the mirroring of
    the lower half of the distribution are executable.  Exceptions are
    values of [result] (file [Prelude]). *)

From Stdlib Require Import List Lia Bool Arith QArith Qround Qminmax Lqa Permutation.
From S2P Require Import Prelude Values.
Import ListNotations.

(** ** The fitting library *)

(** [curve_fit(gaussian, xdata, ydata, p0=...)], projected on the fitted
    [(m, s)].  On finite data with as many points as ordinates and at least
    as many points as the two parameters, scipy either converges or raises
    [RuntimeError]. *)
Class CurveFit := {
  curve_fit_gaussian : list Q -> list Q -> Q * Q -> result (Q * Q);
  curve_fit_outcome : forall xs ys p0,
    length xs = length ys -> (2 <= length xs)%nat ->
    (exists p, curve_fit_gaussian xs ys p0 = Ok p) \/ curve_fit_gaussian xs ys p0 = Err RuntimeError
}.

(** ** numpy's histogram, on rationals *)

(** The histogram range: [(min, max)], widened by 1/2 on each side when all
    values are equal. *)
Definition hist_range (x0 : Q) (l : list Q) : Q * Q :=
  let lo := fold_right Qmin x0 l in
  let hi := fold_right Qmax x0 l in
  if Qeq_bool lo hi then (lo - (1#2), hi + (1#2)) else (lo, hi).

(** The bin of [x]: [floor((x - lo) * bins / (hi - lo))], the right edge
    belonging to the last bin. *)
Definition bin_index (bins : nat) (lo hi x : Q) : nat :=
  let k := Qfloor ((x - lo) * inject_Z (Z.of_nat bins) / (hi - lo)) in
  if (Z.of_nat bins <=? k)%Z then (bins - 1)%nat else Z.to_nat k.

(** [np.histogram(a, bins=bins, density=True)]: densities and edges.  With
    no sample the densities are [0/0 = nan], and the [curve_fit] that
    receives them raises [ValueError]; [bins = 0] raises [ValueError] in
    numpy itself. *)
Definition histogram (bins : nat) (l : list Q) : result (list Q * list Q) :=
  match bins, l with
  | O, _ => Err ValueError
  | _, [] => Err ValueError
  | S _, x0 :: _ =>
      let '(lo, hi) := hist_range x0 l in
      let width := (hi - lo) / inject_Z (Z.of_nat bins) in
      let n := inject_Z (Z.of_nat (length l)) in
      let count k := inject_Z (Z.of_nat (length (filter (fun x => Nat.eqb (bin_index bins lo hi x) k) l))) in
      Ok (map (fun k => count k / (n * width)) (seq 0 bins),
          map (fun k => lo + inject_Z (Z.of_nat k) * width) (seq 0 (S bins)))
  end.

(** ** The code *)

(** [edges[:-1] + np.diff(edges)[0] / 2.] (lines 13 and 27). *)
Definition bin_centers (edges : list Q) : result (list Q) :=
  match edges with
  | e0 :: e1 :: _ => Ok (map (fun e => e + (e1 - e0) / 2) (removelast edges))
  | _ => Err IndexError
  end.

(** [logMUA[logMUA - m0 <= 0] - m0] (line 23): the shifted lower half. *)
Definition logMUA_leftpeak (logMUA : list Q) (m0 : Q) : list Q :=
  map (fun x => x - m0) (filter (fun x => Qle_bool (x - m0) 0) logMUA).

(** [np.append(logMUA_leftpeak, -1 * logMUA_leftpeak)] (line 25). *)
Definition logMUA_peak (leftpeak : list Q) : list Q :=
  leftpeak ++ map Qopp leftpeak.

(** [len(logMUA_leftpeak) * 2. / len(logMUA)] (line 24). *)
Definition left_right_ratio (leftpeak logMUA : list Q) : result Q :=
  match logMUA with
  | [] => Err ZeroDivisionError
  | _ => Ok (inject_Z (Z.of_nat (length leftpeak)) * 2 / inject_Z (Z.of_nat (length logMUA)))
  end.

Section Distribution.
Context `{CurveFit}.

(** Lines 9-31 and 54: the fitted centre [m0] of the dominant mode and the
    spread [s0] of its mirrored lower half. *)
Definition logMUA_distribution (logMUA : list fval) (bins : nat) : result (Q * Q) :=
  let xs := finite_part logMUA in
  '(hist, edges) <- histogram bins xs ;;
  xvalues <- bin_centers edges ;;
  '(m0, _) <- curve_fit_gaussian xvalues hist (-4, 1) ;;
  let leftpeak := logMUA_leftpeak xs m0 in
  _ <- left_right_ratio leftpeak xs ;;
  '(peakhist, edges2) <- histogram bins (logMUA_peak leftpeak) ;;
  xvalues2 <- bin_centers edges2 ;;
  '(_, s0) <- curve_fit_gaussian xvalues2 peakhist (0, 1) ;;
  Ok (m0, s0).
End Distribution.

(** Two fitting routines used to run the model on concrete inputs; they
    are plain definitions, passed explicitly, never found by instance
    search. *)

(** A fitting routine that always converges: the histogram's weighted mean
    and a unit spread.  It stands for scipy in the concrete runs below. *)
Definition moment_fit (xs ys : list Q) (p0 : Q * Q) : result (Q * Q) :=
  let w := Qsum ys in
  if Qeq_bool w 0 then Ok p0 else Ok (Qred (Qsum (map (fun p => fst p * snd p) (combine xs ys)) / w), 1).

Definition moment_curve_fit : CurveFit.
Proof.
  refine {| curve_fit_gaussian := moment_fit |}.
  intros xs ys p0 _ _. left. unfold moment_fit. destruct (Qeq_bool _ _); eauto.
Defined.

Example logMUA_distribution_ex :
  match @logMUA_distribution moment_curve_fit [Fin (-4); NaN; Fin (-3); NegInf; Fin (-4); Fin 0] 4 with
  | Ok (m0, s0) => Qeq_bool m0 (-5#2) && Qeq_bool s0 1
  | Err _ => false
  end = true.
Proof. vm_compute. reflexivity. Qed.

(** A fitting routine that returns its initial guess. *)
Definition initial_guess_fit : CurveFit.
Proof.
  refine {| curve_fit_gaussian := fun _ _ p0 => Ok p0 |}.
  intros; left; eauto.
Defined.

(** ** Lemmas *)

Lemma histogram_shape bins l h e :
  histogram bins l = Ok (h, e) -> length h = bins /\ length e = S bins /\ l <> [].
Proof.
  destruct bins as [|b], l as [|x0 l]; unfold histogram; try discriminate.
  destruct (hist_range x0 (x0 :: l)) as [lo hi].
  match goal with
  | |- Ok (?H, ?E) = _ -> _ =>
      intros Heq; assert (h = H) by congruence; assert (e = E) by congruence; subst h e
  end.
  rewrite !length_map, !length_seq. repeat split; discriminate.
Qed.

Lemma histogram_nil bins : histogram bins [] = Err ValueError.
Proof. now destruct bins. Qed.

Lemma bin_centers_shape e : (2 <= length e)%nat ->
  exists xv, bin_centers e = Ok xv /\ length xv = pred (length e).
Proof.
  destruct e as [|e0 [|e1 e]]; intros Hl; try (simpl in Hl; lia).
  exists (map (fun x => x + (e1 - e0) / 2) (removelast (e0 :: e1 :: e))).
  split; [reflexivity|]. now rewrite length_map, length_removelast_cons.
Qed.

Lemma left_right_ratio_ok lp xs : xs <> [] -> exists r, left_right_ratio lp xs = Ok r.
Proof. destruct xs; [congruence|]. intros _. eexists. reflexivity. Qed.

Lemma Qopp_involutive_eq q : Qopp (Qopp q) = q.
Proof. destruct q as [n d]. unfold Qopp. simpl. now rewrite Z.opp_involutive. Qed.

Lemma map_Qopp_involutive l : map Qopp (map Qopp l) = l.
Proof. rewrite map_map. induction l; simpl; [reflexivity|]. now rewrite Qopp_involutive_eq, IHl. Qed.

(** Decomposing a successful or failing chain of the estimator. *)
Lemma fit_step `{CurveFit} xs ys p0 :
  length xs = length ys -> (2 <= length xs)%nat ->
  (exists p, curve_fit_gaussian xs ys p0 = Ok p) \/ curve_fit_gaussian xs ys p0 = Err RuntimeError.
Proof. apply curve_fit_outcome. Qed.

Lemma histogram_centers_ok bins l : (2 <= bins)%nat -> l <> [] ->
  exists h xv, (exists e, histogram bins l = Ok (h, e) /\ bin_centers e = Ok xv)
               /\ length xv = length h /\ (2 <= length xv)%nat.
Proof.
  intros Hb Hl. destruct bins as [|b]; [lia|]. destruct l as [|x0 l]; [congruence|].
  destruct (histogram (S b) (x0 :: l)) as [[h e]|err] eqn:E.
  - destruct (histogram_shape _ _ _ _ E) as (Hh & He & _).
    destruct (bin_centers_shape e) as (xv & Hxv & Hlen); [lia|].
    exists h, xv. split; [eauto|]. split; lia.
  - unfold histogram in E. destruct (hist_range x0 (x0 :: l)). discriminate.
Qed.

(** ** What the estimator guarantees *)

(** The mirrored sample of lines 23-25 is symmetric about the fitted
    centre: after the shift by [-m0] every retained value is at most 0,
    and negating the appended sample only permutes it, so its histogram is
    that of a distribution symmetric about 0. *)
Theorem logMUA_peak_symmetric xs m0 :
  Forall (fun x => x <= 0) (logMUA_leftpeak xs m0)
  /\ Permutation (map Qopp (logMUA_peak (logMUA_leftpeak xs m0)))
                 (logMUA_peak (logMUA_leftpeak xs m0)).
Proof.
  split.
  - unfold logMUA_leftpeak. apply Forall_map, Forall_forall. intros x Hx.
    apply filter_In in Hx as [_ Hx]. now apply Qle_bool_iff in Hx.
  - unfold logMUA_peak. rewrite map_app, map_Qopp_involutive. apply Permutation_app_comm.
Qed.

(** The diagnostic ratio of line 24 lies in [0, 2]. *)
Theorem left_right_ratio_bounds xs m0 r :
  left_right_ratio (logMUA_leftpeak xs m0) xs = Ok r -> 0 <= r <= 2.
Proof.
  unfold left_right_ratio. destruct xs as [|x xs']; [discriminate|]. intros [= <-].
  assert (Hle : (length (logMUA_leftpeak (x :: xs') m0) <= length (x :: xs'))%nat)
    by (unfold logMUA_leftpeak; rewrite length_map; apply filter_length_le).
  simpl length in Hle. apply ratio_bounds; rewrite ?Zpos_P_of_succ_nat; lia.
Qed.

Lemma left_right_ratio_bounds_witness :
  left_right_ratio (logMUA_leftpeak [-4; -3; 1]%Q (-3)) [-4; -3; 1]%Q = Ok (4 # 3)
  /\ 0 <= 4 # 3 <= 2.
Proof.
  split; [reflexivity|].
  apply (left_right_ratio_bounds [-4; -3; 1]%Q (-3)). reflexivity.
Defined.

Lemma leftpeak_above xs m0 : Forall (fun x => m0 < x) xs -> logMUA_leftpeak xs m0 = [].
Proof.
  unfold logMUA_leftpeak. induction 1 as [|x l Hx _ IH]; [reflexivity|].
  simpl. destruct (Qle_bool (x - m0) 0) eqn:E; [|exact IH].
  apply Qle_bool_iff in E. exfalso. lra.
Qed.

Section Errors.
Context `{CurveFit}.

(** C17. Error classification.  With no finite logMUA sample the
    estimator fails with [ValueError], whatever the bin count: the density
    histogram is [nan] and [curve_fit] rejects it (spec section 7,
    DataQualityError).  With at least two histogram bins (the code uses
    100), the estimator either returns [(m0, s0)] or raises [ValueError]
    (an empty sample) or [RuntimeError] (a fit that does not converge);
    no other exception escapes it. *)
Theorem logMUA_distribution_errors logMUA bins :
  (finite_part logMUA = [] -> logMUA_distribution logMUA bins = Err ValueError)
  /\ (forall e, (2 <= bins)%nat -> logMUA_distribution logMUA bins = Err e ->
      e = ValueError \/ e = RuntimeError).
Proof.
  split; [intros Hf; unfold logMUA_distribution; now rewrite Hf, histogram_nil|].
  intros e Hb. unfold logMUA_distribution.
  set (xs := finite_part logMUA).
  destruct xs as [|x xs'] eqn:Exs; [rewrite histogram_nil; intros [= <-]; auto|].
  destruct (histogram_centers_ok bins (x :: xs') Hb ltac:(discriminate))
    as (h & xv & (ed & Hh & Hxv) & Hlen & H2).
  rewrite Hh. cbn [bind]. rewrite Hxv. cbn [bind].
  destruct (fit_step xv h (-4, 1) Hlen H2) as [[[m0 s'] ->]| ->]; cbn [bind];
    [|intros [= <-]; auto].
  destruct (left_right_ratio_ok (logMUA_leftpeak (x :: xs') m0) (x :: xs') ltac:(discriminate))
    as [r ->]. cbn [bind].
  set (pk := logMUA_peak (logMUA_leftpeak (x :: xs') m0)).
  destruct pk as [|p pk'] eqn:Epk; [rewrite histogram_nil; intros [= <-]; auto|].
  destruct (histogram_centers_ok bins (p :: pk') Hb ltac:(discriminate))
    as (h2 & xv2 & (ed2 & Hh2 & Hxv2) & Hlen2 & H22).
  rewrite Hh2. cbn [bind]. rewrite Hxv2. cbn [bind].
  destruct (fit_step xv2 h2 (0, 1) Hlen2 H22) as [[[m1 s0] ->]| ->]; cbn [bind];
    [discriminate|intros [= <-]; auto].
Qed.

(** C19. A gap of spec section 7: when the first fit places the centre
    [m0] below every finite sample, the lower half of line 23 is empty, the
    mirrored histogram is [nan], and the estimator raises [ValueError] even
    though the data has finite samples and both fits could converge. *)
Theorem logMUA_distribution_empty_lower_half logMUA bins h ed xv m0 s' :
  histogram bins (finite_part logMUA) = Ok (h, ed) ->
  bin_centers ed = Ok xv ->
  curve_fit_gaussian xv h (-4, 1) = Ok (m0, s') ->
  Forall (fun x => m0 < x) (finite_part logMUA) ->
  logMUA_distribution logMUA bins = Err ValueError.
Proof.
  intros Hh Hxv Hfit Hlow. unfold logMUA_distribution.
  rewrite Hh. cbn [bind]. rewrite Hxv. cbn [bind]. rewrite Hfit. cbn [bind].
  destruct (histogram_shape _ _ _ _ Hh) as (_ & _ & Hne).
  destruct (left_right_ratio_ok (logMUA_leftpeak (finite_part logMUA) m0) _ Hne) as [r ->].
  cbn [bind].
  rewrite leftpeak_above by exact Hlow. now rewrite histogram_nil.
Qed.
End Errors.

Lemma logMUA_distribution_empty_lower_half_witness :
  let logMUA := [Fin 0; Fin 1; NaN] in
  (exists h ed xv,
    histogram 4 (finite_part logMUA) = Ok (h, ed) /\ bin_centers ed = Ok xv
    /\ @curve_fit_gaussian initial_guess_fit xv h (-4, 1) = Ok (-4, 1)
    /\ Forall (fun x => -4 < x) (finite_part logMUA))
  /\ @logMUA_distribution initial_guess_fit logMUA 4 = Err ValueError.
Proof.
  cbv zeta.
  assert (Hf : Forall (fun x => -4 < x) (finite_part [Fin 0; Fin 1; NaN]))
    by (repeat constructor; unfold Qlt; simpl; lia).
  destruct (histogram 4 (finite_part [Fin 0; Fin 1; NaN])) as [[h ed]|e] eqn:Eh;
    [|vm_compute in Eh; discriminate].
  destruct (bin_centers ed) as [xv|e] eqn:Ex; [|vm_compute in Eh; injection Eh as _ <-;
    vm_compute in Ex; discriminate].
  split; [exists h, ed, xv; repeat split; assumption|].
  apply (@logMUA_distribution_empty_lower_half initial_guess_fit
           [Fin 0; Fin 1; NaN] 4 h ed xv (-4) 1); try assumption; reflexivity.
Defined.

Lemma logMUA_distribution_errors_witness :
  (finite_part [NaN; NegInf; PosInf] = []
   /\ @logMUA_distribution moment_curve_fit [NaN; NegInf; PosInf] 100 = Err ValueError)
  /\ (((2 <= 100)%nat /\ @logMUA_distribution moment_curve_fit [NaN] 100 = Err ValueError)
      /\ (ValueError = ValueError \/ ValueError = RuntimeError)).
Proof.
  assert (Hf : finite_part [NaN; NegInf; PosInf] = []) by reflexivity.
  assert (Hb : (2 <= 100)%nat) by lia.
  assert (He : @logMUA_distribution moment_curve_fit [NaN] 100 = Err ValueError) by reflexivity.
  split; [split; [exact Hf|]|split; [exact (conj Hb He)|]].
  - exact (proj1 (@logMUA_distribution_errors moment_curve_fit [NaN; NegInf; PosInf] 100) Hf).
  - exact (proj2 (@logMUA_distribution_errors moment_curve_fit [NaN] 100) ValueError Hb He).
Defined.
