(* ===== verification/Classifier.v ===== *)
(** * Classifier: the StateClassifier, [create_state_vector]

    Model of [create_state_vector] in
    src/pipeline/fieldpotential_analysis/scripts/fp_up_down_detection.py
    (lines 80-90): the threshold is chosen by Python truthiness of
    [fixed_threshold] ([select_threshold], lines 83-86) and every logMUA
    sample is compared with it ([classify], line 88).  The fit comes from
    [logMUA_distribution] (file [Threshold]) with its default of 100 bins. *)

From Stdlib Require Import List Lia Bool Arith QArith Lqa.
From S2P Require Import Prelude Values Threshold.
Import ListNotations.

(** Lines 83-86: [if fixed_threshold:] is true for a non-zero number. *)
Definition select_threshold (fixed_threshold sigma_threshold m0 s0 : Q) : Q :=
  if negb (Qeq_bool fixed_threshold 0) then fixed_threshold + m0
  else sigma_threshold * s0 + m0.

(** Line 88: [True if value > threshold else False] for every sample. *)
Definition classify (logMUA : list fval) (threshold : Q) : list bool :=
  map (fun value => fgt value threshold) logMUA.

(** The default bin count of [logMUA_distribution]. *)
Definition default_bins : nat := 100.

Section Create.
Context `{CurveFit}.

(** Lines 80-90. *)
Definition create_state_vector (logMUA : list fval) (fixed_threshold sigma_threshold : Q)
    : result (list bool) :=
  '(m0, s0) <- logMUA_distribution logMUA default_bins ;;
  Ok (classify logMUA (select_threshold fixed_threshold sigma_threshold m0 s0)).
End Create.

(** Number of UP samples. *)
Definition count_up (sv : list bool) : nat := length (filter (fun b => b) sv).

(** ** Lemmas *)

Lemma classify_length l t : length (classify l t) = length l.
Proof. apply length_map. Qed.

Lemma classify_nth l t i : (i < length l)%nat -> nth i (classify l t) false = fgt (nth i l NaN) t.
Proof.
  intros Hi. unfold classify.
  rewrite (nth_indep _ false (fgt NaN t)) by now rewrite length_map.
  exact (map_nth (fun value => fgt value t) l NaN i).
Qed.

Lemma count_up_mono l t1 t2 :
  t1 <= t2 -> (count_up (classify l t2) <= count_up (classify l t1))%nat.
Proof.
  intros Ht. unfold count_up, classify in *. induction l as [|v l IH]; simpl; [lia|].
  destruct (fgt v t2) eqn:E2.
  - rewrite (fgt_mono v t1 t2 Ht E2). simpl. lia.
  - destruct (fgt v t1); simpl; lia.
Qed.

Section Claims.
Context `{CurveFit}.

Lemma create_state_vector_ok logMUA fixed sigma m0 s0 :
  logMUA_distribution logMUA default_bins = Ok (m0, s0) ->
  create_state_vector logMUA fixed sigma = Ok (classify logMUA (select_threshold fixed sigma m0 s0)).
Proof. intros Hd. unfold create_state_vector. now rewrite Hd. Qed.

(** One state per logMUA sample. *)
Lemma create_state_vector_length logMUA fixed sigma sv :
  create_state_vector logMUA fixed sigma = Ok sv -> length sv = length logMUA.
Proof.
  unfold create_state_vector. intros Hc. apply bind_inv in Hc as ([m0 s0] & _ & Hc).
  injection Hc as <-. apply classify_length.
Qed.

(** C20. Spec section 8: in sigma mode ([fixed_threshold = 0]) with a
    non-negative fitted spread, raising [sigma_threshold] never increases
    the number of samples classified UP. *)
Theorem create_state_vector_sigma_mono logMUA sigma1 sigma2 m0 s0 sv1 sv2 :
  logMUA_distribution logMUA default_bins = Ok (m0, s0) -> 0 <= s0 -> sigma1 <= sigma2 ->
  create_state_vector logMUA 0 sigma1 = Ok sv1 ->
  create_state_vector logMUA 0 sigma2 = Ok sv2 ->
  (count_up sv2 <= count_up sv1)%nat.
Proof.
  intros Hd Hs Hsig. rewrite !(create_state_vector_ok _ _ _ _ _ Hd). intros [= <-] [= <-].
  apply count_up_mono. unfold select_threshold. simpl. nra.
Qed.

(** The classifier raises nothing of its own: every error of
    [create_state_vector] is an error of the threshold estimation.  In
    particular the ambiguous configurations of spec section 7 (both or
    neither of [fixed_threshold], [sigma_threshold] set) raise no
    configuration error. *)
Theorem create_state_vector_errors logMUA fixed sigma e :
  create_state_vector logMUA fixed sigma = Err e ->
  logMUA_distribution logMUA default_bins = Err e.
Proof.
  unfold create_state_vector. destruct (logMUA_distribution logMUA default_bins) as [[m0 s0]|e'];
    simpl; congruence.
Qed.

End Claims.

(** ** Concrete runs, with the moment-based fitting routine *)

Definition sample_logMUA : list fval := [Fin (-4); Fin (-3); Fin (-4); Fin 0; NaN; PosInf].

Lemma sample_distribution :
  @logMUA_distribution moment_curve_fit sample_logMUA default_bins = Ok (-137 # 50, 1).
Proof. vm_compute. reflexivity. Qed.

Lemma sample_state_vector sigma :
  0 <= sigma <= 2 ->
  @create_state_vector moment_curve_fit sample_logMUA 0 sigma
  = Ok [false; false; false; true; false; true].
Proof.
  intros Hs. rewrite (create_state_vector_ok _ _ _ _ _ sample_distribution).
  unfold select_threshold. change (negb (Qeq_bool 0 0)) with false. cbv iota beta.
  unfold classify, sample_logMUA. cbn [map fgt].
  repeat match goal with |- context [Qltb ?t ?q] =>
    first [ replace (Qltb t q) with true by (symmetry; apply Qltb_spec; lra)
          | replace (Qltb t q) with false
              by (symmetry; apply not_true_iff_false; rewrite Qltb_spec; lra) ]
  end. reflexivity.
Qed.

Lemma create_state_vector_sigma_mono_witness :
  (@logMUA_distribution moment_curve_fit sample_logMUA default_bins = Ok (-137 # 50, 1)
   /\ 0 <= 1 /\ 1 <= 2
   /\ @create_state_vector moment_curve_fit sample_logMUA 0 1 = Ok [false; false; false; true; false; true]
   /\ @create_state_vector moment_curve_fit sample_logMUA 0 2 = Ok [false; false; false; true; false; true])
  /\ (count_up [false; false; false; true; false; true] <= count_up [false; false; false; true; false; true])%nat.
Proof.
  assert (H1 := sample_state_vector 1 ltac:(lra)).
  assert (H2 := sample_state_vector 2 ltac:(lra)).
  assert (H01 : 0 <= 1) by lra. assert (H12 : 1 <= 2) by lra.
  split; [exact (conj sample_distribution (conj H01 (conj H12 (conj H1 H2))))|].
  exact (@create_state_vector_sigma_mono moment_curve_fit sample_logMUA 1 2 (-137 # 50) 1 _ _
           sample_distribution H01 H12 H1 H2).
Defined.

Lemma create_state_vector_errors_witness :
  @create_state_vector moment_curve_fit [NaN] 0 0 = Err ValueError
  /\ @logMUA_distribution moment_curve_fit [NaN] default_bins = Err ValueError.
Proof.
  assert (H : @create_state_vector moment_curve_fit [NaN] 0 0 = Err ValueError) by reflexivity.
  split; [exact H|].
  exact (@create_state_vector_errors moment_curve_fit [NaN] 0 0 ValueError H).
Defined.

