(* ===== verification/DistributionPlot.v ===== *)
(** * DistributionPlot: the plotting block of [logMUA_distribution]

    Lines 32-53 of
    src/pipeline/fieldpotential_analysis/scripts/fp_up_down_detection.py
    run when [create_state_vector] is called with a true [plot] (the
    [--show_plots] option).  They draw two panels:
    - the amplitude histogram with the fitted noise Gaussian scaled by the
      left/right ratio;
    - the non-Gaussian tail, with the state threshold marked.  The marker
      is at [fixed_threshold] if that is truthy, else at
      [sigma_threshold * s0] if that is truthy, else there is none.
    Both panels use the histogram centres shifted by [m0] (line 20).

    [logMUA_distribution_plot] is lines 9-54 with the block included, and
    [create_state_vector_plot] is lines 80-90 with their [plot] argument.
    The Gaussian of line 16 (with [np.exp] and [np.sqrt]) is the section
    variable [gaussian].  The labels' text and position, which depend on
    matplotlib's autoscaling, are not modelled. *)

From Stdlib Require Import String.
From Stdlib Require Import List Lia Bool Arith QArith Lqa.
From S2P Require Import Prelude Values Threshold Classifier.
Import ListNotations.
Open Scope list_scope.
Open Scope string_scope.

(** ** The figure *)

(** One panel: bars at [xs] of heights [ys] and width [width], an optional
    curve over [xs], an optional vertical marker, and its labels. *)
Record dist_panel := mk_dist_panel {
  dp_xs : list Q;
  dp_heights : list Q;
  dp_width : Q;
  dp_curve : option (list Q);
  dp_marker : option Q;
  dp_xlabel : string;
  dp_ylabel : option string;
  dp_title : string
}.

Record dist_figure := mk_dist_figure {
  df_amplitude : dist_panel;
  df_tail : dist_panel
}.

(** [np.diff(xvalues)[0]]: [IndexError] with fewer than two centres. *)
Definition bar_width (xvalues : list Q) : result Q :=
  match xvalues with
  | x0 :: x1 :: _ => Ok (x1 - x0)
  | _ => Err IndexError
  end.

(** Lines 48-53: the marker of the tail panel, chosen by Python truthiness. *)
Definition threshold_marker (fixed_threshold sigma_threshold s0 : Q) : option Q :=
  if negb (Qeq_bool fixed_threshold 0) then Some fixed_threshold
  else if negb (Qeq_bool sigma_threshold 0) then Some (sigma_threshold * s0)
  else None.

Section Plotting.
Variable gaussian : Q -> Q -> Q -> Q.

(** [[hist[i] - gaussian(x, 0, s0) for (i, x) in enumerate(xvalues)]]. *)
Definition tail_heights (hist xvalues : list Q) (s0 : Q) : result (list Q) :=
  map_result (fun p => match nth_error hist (fst p) with
                       | Some h => Ok (h - gaussian (snd p) 0 s0)
                       | None => Err IndexError
                       end)
             (combine (seq 0 (length xvalues)) xvalues).

(** Lines 33-53. *)
Definition distribution_figure (xvalues hist : list Q) (left_right_ratio s0 fixed_threshold sigma_threshold : Q)
    : result dist_figure :=
  w0 <- bar_width xvalues ;;
  let amplitude := mk_dist_panel xvalues hist w0
                     (Some (map (fun x => left_right_ratio * gaussian x 0 s0) xvalues)) None
                     "log(MUA)" (Some "sample density") "Amplitude distribution" in
  tail <- tail_heights hist xvalues s0 ;;
  w1 <- bar_width xvalues ;;
  Ok (mk_dist_figure amplitude
        (mk_dist_panel xvalues tail w1 None (threshold_marker fixed_threshold sigma_threshold s0)
           "log(MUA)" None "Non-Gaussian tail")).

Context `{CurveFit}.

(** Lines 9-54 with the plotting block: [xvalues -= m0] (line 20) only
    matters to the plot. *)
Definition logMUA_distribution_plot (logMUA : list fval) (fixed_threshold sigma_threshold : Q)
    (plot : bool) (bins : nat) : result (Q * Q * option dist_figure) :=
  let xs := finite_part logMUA in
  '(hist, edges) <- histogram bins xs ;;
  xvalues <- bin_centers edges ;;
  '(m0, _) <- curve_fit_gaussian xvalues hist (-4, 1) ;;
  let xvalues := map (fun x => x - m0) xvalues in
  let leftpeak := logMUA_leftpeak xs m0 in
  ratio <- left_right_ratio leftpeak xs ;;
  '(peakhist, edges2) <- histogram bins (logMUA_peak leftpeak) ;;
  xvalues2 <- bin_centers edges2 ;;
  '(_, s0) <- curve_fit_gaussian xvalues2 peakhist (0, 1) ;;
  fig <- (if plot then f <- distribution_figure xvalues hist ratio s0 fixed_threshold sigma_threshold ;;
                       Ok (Some f)
          else Ok None) ;;
  Ok (m0, s0, fig).

(** Lines 80-90 with their [plot] argument. *)
Definition create_state_vector_plot (logMUA : list fval) (fixed_threshold sigma_threshold : Q)
    (plot : bool) : result (list bool * option dist_figure) :=
  '(m0, s0, fig) <- logMUA_distribution_plot logMUA fixed_threshold sigma_threshold plot default_bins ;;
  Ok (classify logMUA (select_threshold fixed_threshold sigma_threshold m0 s0), fig).
End Plotting.

(** ** Lemmas *)

Lemma bin_centers_length e xv : bin_centers e = Ok xv -> length xv = pred (length e).
Proof.
  intros H. destruct e as [|e0 [|e1 e]]; try discriminate.
  destruct (bin_centers_shape (e0 :: e1 :: e) ltac:(cbn; lia)) as (xv' & E & L).
  rewrite H in E. now injection E as ->.
Qed.

Lemma tail_heights_ok gaussian hist xvalues s0 :
  length hist = length xvalues -> exists t, tail_heights gaussian hist xvalues s0 = Ok t.
Proof.
  intros Hl. apply map_result_ok, Forall_forall. intros [i x] Hin.
  apply in_combine_l, in_seq in Hin. cbn [fst snd].
  destruct (nth_error hist i) eqn:E; [eauto|].
  apply nth_error_None in E. lia.
Qed.

(** The plot of a histogram of at least two bins is drawn, with the
    marker of [threshold_marker]. *)
Lemma distribution_figure_ok gaussian xvalues hist ratio s0 fixed sigma :
  length hist = length xvalues -> (2 <= length xvalues)%nat ->
  exists fig, distribution_figure gaussian xvalues hist ratio s0 fixed sigma = Ok fig
              /\ dp_marker (df_tail fig) = threshold_marker fixed sigma s0.
Proof.
  intros Hl H2. destruct (tail_heights_ok gaussian hist xvalues s0 Hl) as [t Ht].
  destruct xvalues as [|x0 [|x1 xv]]; [cbn in H2; lia|cbn in H2; lia|].
  unfold distribution_figure. cbn [bar_width bind]. rewrite Ht. cbn [bind].
  eexists; split; reflexivity.
Qed.

(** Where [logMUA_distribution] succeeds, the histogram and its centres
    have [bins] entries each. *)
Lemma centres_match bins l h e xv :
  histogram bins l = Ok (h, e) -> bin_centers e = Ok xv ->
  length h = length xv /\ length xv = bins.
Proof.
  intros Hh Hxv. destruct (histogram_shape _ _ _ _ Hh) as (Lh & Le & _).
  apply bin_centers_length in Hxv. rewrite Le in Hxv. cbn in Hxv. lia.
Qed.

(** Turning the plot on changes neither the fit nor the exceptions of
    [logMUA_distribution] once it has two bins. *)
Lemma logMUA_distribution_plot_fit `{CurveFit} gaussian logMUA fixed sigma plot bins :
  (2 <= bins)%nat ->
  (r <- logMUA_distribution_plot gaussian logMUA fixed sigma plot bins ;; Ok (fst r))
  = logMUA_distribution logMUA bins.
Proof.
  intros Hb. unfold logMUA_distribution_plot, logMUA_distribution.
  destruct (histogram bins (finite_part logMUA)) as [[hist edges]|e] eqn:Eh; cbn [bind]; [|reflexivity].
  destruct (bin_centers edges) as [xv|e] eqn:Exv; cbn [bind]; [|reflexivity].
  destruct (centres_match _ _ _ _ _ Eh Exv) as [Lh Lx].
  destruct (curve_fit_gaussian xv hist (-4, 1)) as [[m0 s']|e]; cbn [bind]; [|reflexivity].
  destruct (left_right_ratio _ _) as [r|e]; cbn [bind]; [|reflexivity].
  destruct (histogram bins (logMUA_peak (logMUA_leftpeak (finite_part logMUA) m0)))
    as [[ph e2]|e]; cbn [bind]; [|reflexivity].
  destruct (bin_centers e2) as [xv2|e]; cbn [bind]; [|reflexivity].
  destruct (curve_fit_gaussian xv2 ph (0, 1)) as [[m1 s0]|e]; cbn [bind]; [|reflexivity].
  destruct plot; [|reflexivity].
  destruct (distribution_figure_ok gaussian (map (fun x => x - m0) xv) hist r s0 fixed sigma)
    as (fig & -> & _); rewrite ?length_map; [lia|lia|reflexivity].
Qed.

Lemma classify_Qeq l t1 t2 : t1 == t2 -> classify l t1 = classify l t2.
Proof.
  intros Ht. unfold classify. apply map_ext. intros [q| | |]; try reflexivity. cbn [fgt].
  apply Bool.eq_iff_eq_true. rewrite !Qltb_spec. split; intros; lra.
Qed.

(** The dashed line of the tail panel, moved back by [m0] (line 20 shifts
    the axis), is the threshold the samples are classified with; with no
    line the threshold is [m0] itself. *)
Lemma threshold_marker_select fixed sigma m0 s0 :
  match threshold_marker fixed sigma s0 with
  | Some x => select_threshold fixed sigma m0 s0 = x + m0
  | None => select_threshold fixed sigma m0 s0 == m0
  end.
Proof.
  unfold threshold_marker, select_threshold.
  destruct (Qeq_bool fixed 0); cbn [negb]; [|reflexivity].
  destruct (Qeq_bool sigma 0) eqn:E; cbn [negb]; [|reflexivity].
  apply Qeq_bool_iff in E. rewrite E. lra.
Qed.

Section Claims.
Context `{CurveFit}.
Variable gaussian : Q -> Q -> Q -> Q.

(** C15. fp_up_down_detection.py lines 32-53: the diagnostic plot of
    [--show_plots] does not change the analysis.  With the plot on or
    off, [create_state_vector] returns the same state vector, or raises
    the same exception: the plotting block, run between the second fit
    and the return of [logMUA_distribution], always succeeds on the
    histogram of 100 bins it receives. *)
Theorem show_plots_same_states logMUA fixed_threshold sigma_threshold plot :
  (r <- create_state_vector_plot gaussian logMUA fixed_threshold sigma_threshold plot ;; Ok (fst r))
  = create_state_vector logMUA fixed_threshold sigma_threshold.
Proof.
  unfold create_state_vector_plot, create_state_vector.
  rewrite <- (logMUA_distribution_plot_fit gaussian logMUA fixed_threshold sigma_threshold plot)
    by (unfold default_bins; lia).
  now destruct (logMUA_distribution_plot gaussian logMUA fixed_threshold sigma_threshold plot default_bins)
    as [[[m0 s0] fig]|e].
Qed.

(** With the plot on, the state vector is the classification at the
    marker drawn on the tail panel, moved back by [m0]. *)
Lemma create_state_vector_marker logMUA fixed_threshold sigma_threshold sv fig :
  create_state_vector_plot gaussian logMUA fixed_threshold sigma_threshold true = Ok (sv, Some fig) ->
  exists m0, match dp_marker (df_tail fig) with
             | Some x => sv = classify logMUA (x + m0)
             | None => sv = classify logMUA m0
             end.
Proof.
  unfold create_state_vector_plot, logMUA_distribution_plot. intros Hr.
  apply bind_inv in Hr as ([[m0 s0] fig'] & Hd & Hr). injection Hr as Hsv Hfig. subst sv fig'.
  exists m0.
  apply bind_inv in Hd as ([hist edges] & _ & Hd). apply bind_inv in Hd as (xv & _ & Hd).
  apply bind_inv in Hd as ([m0' s'] & _ & Hd). apply bind_inv in Hd as (r & _ & Hd).
  apply bind_inv in Hd as ([ph e2] & _ & Hd). apply bind_inv in Hd as (xv2 & _ & Hd).
  apply bind_inv in Hd as ([m1 s0'] & _ & Hd). apply bind_inv in Hd as (f & Hf & Hd).
  injection Hd as E1 E2 E3. subst m0 s0 f.
  apply bind_inv in Hf as (fig' & Hf & Hs). injection Hs as ->.
  unfold distribution_figure in Hf.
  apply bind_inv in Hf as (w0 & _ & Hf). apply bind_inv in Hf as (t & _ & Hf).
  apply bind_inv in Hf as (w1 & _ & Hf). injection Hf as <-. cbn [df_tail dp_marker].
  pose proof (threshold_marker_select fixed_threshold sigma_threshold m0' s0') as Hm.
  destruct (threshold_marker _ _ _); [now rewrite Hm|]. now apply classify_Qeq.
Qed.
End Claims.

(** In sigma mode with [sigma_threshold = 2] and the moment fit's unit
    spread, the dashed line is at [2] on the shifted axis. *)
Example distribution_plot_marker :
  match @create_state_vector_plot (fun _ _ _ => 0) moment_curve_fit
          [Fin (-4); NaN; Fin (-3); NegInf; Fin (-4); Fin 0] 0 2 true with
  | Ok (_, Some fig) => dp_marker (df_tail fig)
  | _ => None
  end = Some (2 * 1).
Proof. vm_compute. reflexivity. Qed.
