(* ===== verification/Pipeline.v ===== *)
(** * Pipeline: the per-channel driver, [create_all_state_vectors]

    Model of [create_all_state_vectors] (lines 93-118) and of the Python
    call of [statevector_to_spiketrains] it makes (lines 106-113) in
    src/pipeline/fieldpotential_analysis/scripts/fp_up_down_detection.py,
    and of [remove_duplicate_properties] (lines 144-151).  A neo annotation
    dictionary is an association list in insertion order.  The call passes
    six explicit keywords and [**asig.annotations]; Python's binding of
    keyword arguments ([bind_sv2st_call]) raises [TypeError] on a duplicate
    keyword or a missing parameter.  The [for] loop over channels threads
    the three result lists; an exception in any channel ends the whole
    loop (there is no per-channel handler).  Line 118 stacks the state
    vectors with [np.array], which raises [ValueError] on rows of unequal
    lengths (numpy 1.24 and later). *)

From Stdlib Require Import List Lia Bool Arith QArith String.
From S2P Require Import Prelude Runs DebounceSpec Debounce Transitions Values Threshold Classifier.
Import ListNotations.
Open Scope string_scope.
Open Scope list_scope.

(** ** Annotations *)

(** An annotation value: a number or anything else (a string, a list). *)
Inductive aval : Type :=
| AvQ (q : Q)
| AvOther (s : string).

Definition annotations : Type := list (string * aval).

(** [k in d]. *)
Definition has_key (k : string) (d : annotations) : bool :=
  existsb (fun p => String.eqb (fst p) k) d.

(** [d[k]]. *)
Fixpoint lookup_key (k : string) (d : annotations) : option aval :=
  match d with
  | [] => None
  | (k', v) :: d' => if String.eqb k' k then Some v else lookup_key k d'
  end.

(** [del d[k]] (the key is present and unique in a dict). *)
Fixpoint del_key (k : string) (d : annotations) : annotations :=
  match d with
  | [] => []
  | (k', v) :: d' => if String.eqb k' k then d' else (k', v) :: del_key k d'
  end.

(** Lines 144-151, on the annotation dictionary of one object:
    [for k in del_keys: if k in annotations: del annotations[k]]. *)
Definition remove_duplicate_keys (del_keys : list string) (d : annotations) : annotations :=
  fold_left (fun d k => if has_key k d then del_key k d else d) del_keys d.

Definition default_del_keys : list string := ["nix_name"; "neo_name"].

(** Lines 144-151: the objects' dictionaries, updated in place. *)
Definition remove_duplicate_properties (objects : list annotations) : list annotations :=
  map (remove_duplicate_keys default_del_keys) objects.

(** ** The call of lines 106-113 *)

(** A logMUA analog signal as the driver reads it. *)
Record logmua_signal := mk_logmua_signal {
  ls_values : list fval;
  ls_times : list Q;
  ls_t_start : Q;
  ls_sampling_rate : Q;
  ls_annotations : annotations
}.

(** The keywords the call spells out, and the parameter it binds
    positionally. *)
Definition sv2st_explicit_keywords : list string :=
  ["times"; "t_start"; "sampling_rate"; "fixed_threshold"; "sigma_threshold";
   "min_state_duration"].

(** Python's binding of
    [statevector_to_spiketrains(state_vector, times=..., t_start=...,
    sampling_rate=..., fixed_threshold=..., sigma_threshold=...,
    min_state_duration=..., **asig.annotations)] against
    [def statevector_to_spiketrains(state_vector, sampling_rate, times,
    t_start, t_stop, **annotations)]: a key of the annotations that repeats
    an explicit keyword or names [state_vector] is a [TypeError] (multiple
    values); [t_stop] can only come from the annotations, and its absence
    is a [TypeError] (missing argument).  On success: the bound [t_stop]
    and the [**annotations] the function receives. *)
Definition bind_sv2st_call (ann : annotations) : result (Q * annotations) :=
  if existsb (fun p => existsb (String.eqb (fst p)) ("state_vector" :: sv2st_explicit_keywords)) ann
  then Err TypeError
  else match lookup_key "t_stop" ann with
       | None => Err TypeError
       | Some (AvOther _) => Err TypeError
       | Some (AvQ t_stop) => Ok (t_stop, del_key "t_stop" ann)
       end.

(** The [**annotations] of the call: the three threshold keywords followed
    by the signal's remaining annotations. *)
Definition sv2st_kwargs (fixed_threshold sigma_threshold : Q) (min_state_duration : nat)
    (rest : annotations) : annotations :=
  ("fixed_threshold", AvQ fixed_threshold) :: ("sigma_threshold", AvQ sigma_threshold)
  :: ("min_state_duration", AvQ (inject_Z (Z.of_nat min_state_duration))) :: rest.

(** ** The driver *)

(** Line 118, [np.array(state_vectors)]: rows of unequal lengths cannot
    form an array and raise [ValueError] (numpy 1.24 and later). *)
Definition np_array_rows {A} (rows : list (list A)) : result (list (list A)) :=
  if rectangular rows then Ok rows else Err ValueError.

Section Driver.
Context `{CurveFit}.
Variable min_state_duration : nat.
Variable remove_down_first : bool.
Variable fixed_threshold sigma_threshold : Q.

(** The body of the [for] loop for one channel (lines 101-113). *)
Definition process_channel (asig : logmua_signal)
    : result (list bool * spike_train annotations * spike_train annotations) :=
  sv <- create_state_vector (ls_values asig) fixed_threshold sigma_threshold ;;
  let sv' := remove_short_states sv min_state_duration remove_down_first in
  '(t_stop, rest) <- bind_sv2st_call (ls_annotations asig) ;;
  '(ups, downs) <-
    statevector_to_spiketrains sv' (ls_sampling_rate asig) (ls_times asig) (ls_t_start asig) t_stop
      (sv2st_kwargs fixed_threshold sigma_threshold min_state_duration rest) ;;
  Ok (sv', ups, downs).

(** The loop of lines 100-116, with its three accumulators. *)
Fixpoint channels_loop (signals : list logmua_signal)
    (acc : list (list bool) * list (spike_train annotations) * list (spike_train annotations))
    : result (list (list bool) * list (spike_train annotations) * list (spike_train annotations)) :=
  match signals with
  | [] => Ok acc
  | asig :: rest =>
      '(sv, ups, downs) <- process_channel asig ;;
      let '(svs, UPs, DOWNs) := acc in
      channels_loop rest (svs ++ [sv], UPs ++ [ups], DOWNs ++ [downs])
  end.

(** Lines 93-118. *)
Definition create_all_state_vectors (logMUA_signals : list logmua_signal)
    : result (list (list bool) * list (spike_train annotations) * list (spike_train annotations)) :=
  '(state_vectors, UP_transitions, DOWN_transitions) <- channels_loop logMUA_signals ([], [], []) ;;
  svs <- np_array_rows state_vectors ;;
  Ok (svs, UP_transitions, DOWN_transitions).
End Driver.

(** ** Lemmas *)

Lemma lookup_key_has k d v : lookup_key k d = Some v -> has_key k d = true.
Proof.
  induction d as [|[k' v'] d IH]; simpl; [discriminate|].
  destruct (String.eqb k' k); simpl; [reflexivity|]. exact IH.
Qed.

Lemma bind_sv2st_call_t_stop ann r : bind_sv2st_call ann = Ok r -> has_key "t_stop" ann = true.
Proof.
  unfold bind_sv2st_call. destruct (existsb _ _); [discriminate|].
  destruct (lookup_key "t_stop" ann) as [[q|s]|] eqn:E; try discriminate.
  intros _. eapply lookup_key_has, E.
Qed.

Section DriverLemmas.
Context `{CurveFit}.
Variable m : nat.
Variable rdf : bool.
Variable fixed sigma : Q.

Lemma process_channel_ok asig r :
  process_channel m rdf fixed sigma asig = Ok r ->
  (exists sv, create_state_vector (ls_values asig) fixed sigma = Ok sv
              /\ fst (fst r) = remove_short_states sv m rdf)
  /\ has_key "t_stop" (ls_annotations asig) = true.
Proof.
  unfold process_channel.
  destruct (create_state_vector (ls_values asig) fixed sigma) as [sv|e]; cbn [bind]; [|discriminate].
  destruct (bind_sv2st_call (ls_annotations asig)) as [[t_stop rest]|e] eqn:Eb; cbn [bind];
    [|discriminate].
  destruct (statevector_to_spiketrains _ _ _ _ _ _) as [[ups downs]|e]; cbn [bind]; [|discriminate].
  intros [= <-].
  split; [eauto|]. eapply bind_sv2st_call_t_stop, Eb.
Qed.

(** The loop is [mapM process_channel]: it succeeds exactly when every
    channel does, and then lists the channels' results in channel order. *)
Lemma channels_loop_spec signals svs0 U0 D0 svs U D :
  channels_loop m rdf fixed sigma signals (svs0, U0, D0) = Ok (svs, U, D)
  <-> exists rs, Forall2 (fun asig r => process_channel m rdf fixed sigma asig = Ok r) signals rs
       /\ svs = svs0 ++ map (fun r => fst (fst r)) rs
       /\ U = U0 ++ map (fun r => snd (fst r)) rs
       /\ D = D0 ++ map snd rs.
Proof.
  revert svs0 U0 D0; induction signals as [|asig signals IH]; intros svs0 U0 D0; simpl.
  - split.
    + intros [= <- <- <-]. exists []. rewrite !app_nil_r. auto.
    + intros (rs & Hrs & -> & -> & ->). inversion Hrs; subst. now rewrite !app_nil_r.
  - destruct (process_channel m rdf fixed sigma asig) as [[[sv ups] downs]|e] eqn:Ep; cbn [bind].
    + rewrite IH. split.
      * intros (rs & Hrs & -> & -> & ->). exists ((sv, ups, downs) :: rs).
        split; [now constructor|]. simpl. now rewrite <- !app_assoc.
      * intros (rs & Hrs & -> & -> & ->). inversion Hrs as [|? r ? rs' Hr Hrs']; subst.
        rewrite Ep in Hr. injection Hr as <-. exists rs'. simpl.
        now rewrite <- !app_assoc.
    + split; [discriminate|]. intros (rs & Hrs & _). inversion Hrs; subst. congruence.
Qed.
End DriverLemmas.

Lemma in_del_key x k d : In x (map fst (del_key k d)) -> In x (map fst d).
Proof.
  induction d as [|[k1 v1] d IH]; simpl; [tauto|].
  destruct (String.eqb k1 k); simpl; [tauto|]. intuition.
Qed.

Lemma NoDup_del_key k d : NoDup (map fst d) -> NoDup (map fst (del_key k d)).
Proof.
  induction d as [|[k1 v1] d IH]; simpl; intros Hnd; [constructor|].
  apply NoDup_cons_iff in Hnd as [Hk1 Hnd].
  destruct (String.eqb k1 k); [exact Hnd|]. simpl.
  constructor; [intros Hin; apply Hk1, (in_del_key _ k), Hin|now apply IH].
Qed.

Lemma lookup_key_notin k d : ~ In k (map fst d) -> lookup_key k d = None.
Proof.
  induction d as [|[k1 v1] d IH]; simpl; intros Hn; [reflexivity|].
  destruct (String.eqb_spec k1 k); [subst; tauto|]. apply IH. tauto.
Qed.

Lemma lookup_del_key k k' d : NoDup (map fst d) ->
  lookup_key k (del_key k' d) = if String.eqb k' k then None else lookup_key k d.
Proof.
  induction d as [|[k1 v1] d IH]; simpl; intros Hnd; [now destruct (String.eqb k' k)|].
  apply NoDup_cons_iff in Hnd as [Hk1 Hnd].
  destruct (String.eqb_spec k1 k'); simpl.
  - subst k1. destruct (String.eqb_spec k' k); [subst; now apply lookup_key_notin|reflexivity].
  - rewrite IH by exact Hnd. destruct (String.eqb_spec k1 k), (String.eqb_spec k' k);
      subst; try reflexivity; congruence.
Qed.

Lemma has_key_false_lookup k d : has_key k d = false -> lookup_key k d = None.
Proof.
  induction d as [|[k1 v1] d IH]; simpl; [reflexivity|].
  destruct (String.eqb k1 k); simpl; [discriminate|exact IH].
Qed.

(** One step of the loop of line 148. *)
Lemma del_step_lookup k k' d : NoDup (map fst d) ->
  lookup_key k (if has_key k' d then del_key k' d else d)
  = if String.eqb k' k then None else lookup_key k d.
Proof.
  intros Hnd. destruct (has_key k' d) eqn:Eh; [now apply lookup_del_key|].
  destruct (String.eqb_spec k' k); [subst; now apply has_key_false_lookup|reflexivity].
Qed.

(** ** What the driver does *)

Section DriverClaims.
Context `{CurveFit}.

(** The batch, channel by channel. *)
Lemma create_all_state_vectors_iff m rdf fixed sigma signals svs U D :
  create_all_state_vectors m rdf fixed sigma signals = Ok (svs, U, D)
  <-> exists rs, Forall2 (fun asig r => process_channel m rdf fixed sigma asig = Ok r) signals rs
       /\ svs = map (fun r => fst (fst r)) rs
       /\ rectangular svs = true
       /\ U = map (fun r => snd (fst r)) rs
       /\ D = map snd rs.
Proof.
  unfold create_all_state_vectors.
  destruct (channels_loop m rdf fixed sigma signals ([], [], [])) as [[[svs' U'] D']|e] eqn:E;
    cbn [bind].
  - apply (channels_loop_spec m rdf fixed sigma signals [] [] [] svs' U' D') in E
      as (rs & Hrs & -> & -> & ->). cbn [app]. unfold np_array_rows.
    destruct (rectangular _) eqn:Er; cbn [bind]; split.
    + intros [= <- <- <-]. exists rs. auto.
    + intros (rs' & Hrs' & -> & _ & -> & ->). f_equal.
      assert (rs' = rs) as -> by (apply (Forall2_functional (fun asig r => process_channel m rdf fixed sigma asig = Ok r) signals rs' rs); auto; intros ? ? ? H1 H2; congruence).
      reflexivity.
    + discriminate.
    + intros (rs' & Hrs' & -> & Hr & _).
      assert (rs' = rs) as -> by (apply (Forall2_functional (fun asig r => process_channel m rdf fixed sigma asig = Ok r) signals rs' rs); auto; intros ? ? ? H1 H2; congruence).
      congruence.
  - split; [discriminate|]. intros (rs & Hrs & -> & _ & -> & ->).
    enough (channels_loop m rdf fixed sigma signals ([], [], []) = Ok (map (fun r => fst (fst r)) rs,
             map (fun r => snd (fst r)) rs, map snd rs)) by congruence.
    apply channels_loop_spec. exists rs. auto.
Qed.

(** C24. Channel order (spec sections 3 and 5): [create_all_state_vectors]
    succeeds exactly when every channel's processing succeeds and the
    state vectors all have one length, so that [np.array] at line 118 can
    stack them.  Its three outputs then list the channels' state vectors
    and spike trains in the order of the input channels. *)
Theorem create_all_state_vectors_spec m rdf fixed sigma signals svs U D :
  create_all_state_vectors m rdf fixed sigma signals = Ok (svs, U, D)
  <-> exists rs, Forall2 (fun asig r => process_channel m rdf fixed sigma asig = Ok r) signals rs
       /\ svs = map (fun r => fst (fst r)) rs
       /\ rectangular svs = true
       /\ U = map (fun r => snd (fst r)) rs
       /\ D = map snd rs.
Proof. apply create_all_state_vectors_iff. Qed.

Lemma create_all_state_vectors_channels m rdf fixed sigma signals r :
  create_all_state_vectors m rdf fixed sigma signals = Ok r ->
  Forall (fun asig => exists x, process_channel m rdf fixed sigma asig = Ok x) signals.
Proof.
  destruct r as [[svs U] D]. rewrite create_all_state_vectors_iff.
  intros (rs & Hrs & _). induction Hrs; constructor; eauto.
Qed.

(** C25. The call of lines 106-113 passes [t_stop], which
    [statevector_to_spiketrains] requires, only through
    [**asig.annotations]: a channel whose annotations hold no key
    ["t_stop"] (the logMUA stage writes one, see [LogMUA]) makes the call
    raise [TypeError], and the whole batch fails. *)
Theorem create_all_state_vectors_missing_t_stop m rdf fixed sigma signals asig r :
  In asig signals -> has_key "t_stop" (ls_annotations asig) = false ->
  create_all_state_vectors m rdf fixed sigma signals <> Ok r.
Proof.
  intros Hin Hkey Hok. apply create_all_state_vectors_channels in Hok.
  rewrite Forall_forall in Hok. destruct (Hok asig Hin) as [x Hx].
  apply process_channel_ok in Hx as [_ Ht]. congruence.
Qed.

(** C26. No fault containment (spec sections 5 and 7 ask for it): if the
    threshold estimation of any one channel fails, the whole batch fails,
    and the results of the other channels are lost. *)
Theorem create_all_state_vectors_no_isolation m rdf fixed sigma signals asig e :
  In asig signals -> create_state_vector (ls_values asig) fixed sigma = Err e ->
  exists e', create_all_state_vectors m rdf fixed sigma signals = Err e'.
Proof.
  intros Hin He. destruct (create_all_state_vectors m rdf fixed sigma signals) as [r|e'] eqn:Eall;
    [|eauto].
  exfalso. apply create_all_state_vectors_channels in Eall. rewrite Forall_forall in Eall.
  destruct (Eall asig Hin) as [x Hx]. apply process_channel_ok in Hx as [(sv & Hsv & _) _].
  congruence.
Qed.
End DriverClaims.

(** C28. [remove_duplicate_properties] on an annotation dictionary
    (unique keys): afterwards ["nix_name"] and ["neo_name"] are absent and
    every other key keeps its value. *)
Theorem remove_duplicate_keys_lookup keys d k :
  NoDup (map fst d) ->
  lookup_key k (remove_duplicate_keys keys d)
  = if existsb (fun k' => String.eqb k' k) keys then None else lookup_key k d.
Proof.
  unfold remove_duplicate_keys. revert d; induction keys as [|k' keys IH]; intros d Hnd;
    [reflexivity|].
  cbn [fold_left existsb]. rewrite IH by (destruct (has_key k' d); auto using NoDup_del_key).
  rewrite del_step_lookup by exact Hnd.
  destruct (String.eqb k' k), (existsb _ keys); reflexivity.
Qed.



(** ** Concrete runs *)

Definition channel_without_t_stop : logmua_signal :=
  mk_logmua_signal [Fin (-4); Fin 0; Fin (-4)] [0; 1; 2] 0 1 [("freq_band", AvOther "[250, 1500]")].

Definition channel_nan : logmua_signal :=
  mk_logmua_signal [NaN; NegInf] [0; 1] 0 1 [("t_stop", AvQ 2)].

Lemma create_all_state_vectors_spec_witness :
  @create_all_state_vectors moment_curve_fit 2 true 0 3 [] = Ok ([], [], [])
  <-> exists rs, Forall2 (fun asig r => @process_channel moment_curve_fit 2 true 0 3 asig = Ok r) [] rs
       /\ [] = map (fun r => fst (fst r)) rs
       /\ @rectangular bool [] = true
       /\ [] = map (fun r => snd (fst r)) rs
       /\ [] = map snd rs.
Proof. exact (@create_all_state_vectors_spec moment_curve_fit 2 true 0 3 [] [] [] []). Defined.

Definition channel_long : logmua_signal :=
  mk_logmua_signal [Fin (-4); Fin 0; Fin (-4)] [0; 1; 2] 0 1 [("t_stop", AvQ 3)].

Definition channel_short : logmua_signal :=
  mk_logmua_signal [Fin (-4); Fin 0] [0; 1] 0 1 [("t_stop", AvQ 2)].

(** Two channels of different lengths are each processed, and then
    [np.array] of their state vectors raises [ValueError]: the batch
    fails after all the work is done. *)
Example create_all_state_vectors_ragged :
  is_ok (@process_channel moment_curve_fit 2 true 0 3 channel_long)
  && is_ok (@process_channel moment_curve_fit 2 true 0 3 channel_short) = true
  /\ @create_all_state_vectors moment_curve_fit 2 true 0 3 [channel_long; channel_short] = Err ValueError.
Proof. split; vm_compute; reflexivity. Qed.

Lemma create_all_state_vectors_missing_t_stop_witness :
  (In channel_without_t_stop [channel_without_t_stop]
   /\ has_key "t_stop" (ls_annotations channel_without_t_stop) = false)
  /\ @create_all_state_vectors moment_curve_fit 2 true 0 3 [channel_without_t_stop] <> Ok ([], [], []).
Proof.
  assert (Hin : In channel_without_t_stop [channel_without_t_stop]) by (left; reflexivity).
  assert (Hk : has_key "t_stop" (ls_annotations channel_without_t_stop) = false) by reflexivity.
  split; [exact (conj Hin Hk)|].
  exact (@create_all_state_vectors_missing_t_stop moment_curve_fit 2 true 0 3
           [channel_without_t_stop] channel_without_t_stop ([], [], []) Hin Hk).
Defined.

Lemma create_all_state_vectors_no_isolation_witness :
  (In channel_nan [channel_nan]
   /\ @create_state_vector moment_curve_fit (ls_values channel_nan) 0 3 = Err ValueError)
  /\ exists e', @create_all_state_vectors moment_curve_fit 2 true 0 3 [channel_nan] = Err e'.
Proof.
  assert (Hin : In channel_nan [channel_nan]) by (left; reflexivity).
  assert (He : @create_state_vector moment_curve_fit (ls_values channel_nan) 0 3 = Err ValueError)
    by reflexivity.
  split; [exact (conj Hin He)|].
  exact (@create_all_state_vectors_no_isolation moment_curve_fit 2 true 0 3 [channel_nan]
           channel_nan ValueError Hin He).
Defined.

Lemma remove_duplicate_keys_lookup_witness :
  NoDup (map fst [("nix_name", AvOther "x"); ("freq_band", AvOther "y")])
  /\ lookup_key "nix_name"
       (remove_duplicate_keys default_del_keys [("nix_name", AvOther "x"); ("freq_band", AvOther "y")])
     = if existsb (fun k' => String.eqb k' "nix_name") default_del_keys then None
       else lookup_key "nix_name" [("nix_name", AvOther "x"); ("freq_band", AvOther "y")].
Proof.
  assert (Hnd : NoDup (map fst [("nix_name", AvOther "x"); ("freq_band", AvOther "y")])).
  { simpl. constructor; [simpl; intros [H|[]]; discriminate H|constructor; [tauto|constructor]]. }
  split; [exact Hnd|]. exact (remove_duplicate_keys_lookup default_del_keys _ "nix_name" Hnd).
Defined.
