(* ===== verification/Detrend.v ===== *)
(** * Detrend: [detrending] of fp_logMUA_estimation.py, with numpy shapes

    Model of [detrending] in
    src/snakemake_workflow/fieldpotential_analysis/scripts/fp_logMUA_estimation.py
    (lines 7-20).  [asig.as_array()] of a one-channel neo signal is a 2-d
    array of shape (W, 1); the model keeps numpy's 2-d arrays as lists of
    rows and writes out the broadcasting rule of [X - v] for a 1-d [v]
    ([bsub]).  An array made of [nan] (the mean of an empty array, which
    then spreads to every element) is [None]; numpy's exceptions are [Err]. *)

From Stdlib Require Import List Lia Bool Arith ZArith QArith Lqa.
From S2P Require Import Prelude Values.
Import ListNotations.

(** A 2-d numpy array, as its rows. *)
Definition array2 : Type := list (list Q).

Definition ncols (X : array2) : nat := length (hd [] X).

(** Every row has [c] columns. *)
Definition has_cols (c : nat) (X : array2) : bool := forallb (fun r => Nat.eqb (length r) c) X.

(** [asig.as_array()] of a one-channel signal: shape (W, 1). *)
Definition as_column (xs : list Q) : array2 := map (fun x => [x]) xs.

Definition column (j : nat) (X : array2) : list Q := map (fun r => nth j r 0) X.

(** [np.mean(X, axis=0)]; [nan] for an array with no row. *)
Definition col_means (X : array2) : option (list Q) :=
  match X with
  | [] => None
  | _ => Some (map (fun j => Qsum (column j X) / inject_Z (Z.of_nat (length X))) (seq 0 (ncols X)))
  end.

(** [X - v] for a 2-d [X] of shape (R, C) and a 1-d [v] of length L:
    numpy aligns the trailing axes, so [C = L] subtracts [v] from every
    row, [C = 1] broadcasts to shape (R, L), [L = 1] subtracts the one
    value everywhere, and anything else raises [ValueError]. *)
Definition bsub (X : array2) (v : list Q) : result array2 :=
  if has_cols (length v) X then Ok (map (fun r => map (fun p => fst p - snd p) (combine r v)) X)
  else if has_cols 1 X then Ok (map (fun r => map (fun vk => hd 0 r - vk) v) X)
  else match v with
       | [c] => Ok (map (fun r => map (fun x => x - c) r) X)
       | _ => Err ValueError
       end.

(** [np.diff(X, n=i, axis=0)]. *)
Fixpoint diff_rows (n : nat) (X : array2) : array2 :=
  match n with
  | O => X
  | S n' => diff_rows n' (map (fun p => map (fun q => snd q - fst q) (combine (fst p) (snd p)))
                             (combine X (tl X)))
  end.

(** [np.mean] of a whole array; [nan] when it is empty. *)
Definition mean_all (X : array2) : option Q := Qmean (concat X).

(** [np.linspace(a, b, n)]. *)
Definition linspace (a b : Q) (n : nat) : list Q :=
  match n with
  | O => []
  | S O => [a]
  | S n' => map (fun k => a + inject_Z (Z.of_nat k) * (b - a) / inject_Z (Z.of_nat n')) (seq 0 n)
  end.

Fixpoint Qpow_nat (q : Q) (i : nat) : Q :=
  match i with O => 1 | S i' => q * Qpow_nat q i' end.

(** [factor = [1, 1/2., 1/6.]] and [factor[i-1]]. *)
Definition factor : list Q := [1; 1 # 2; 1 # 6].

Definition factor_at (i : nat) : result Q :=
  match nth_error factor (i - 1) with Some f => Ok f | None => Err IndexError end.

(** One iteration of the [for i in np.arange(order-1)+1] loop
    (lines 17-19); [None] is an array of [nan]. *)

(** Lines 17-18: [np.linspace(-W/2., W/2., W)**i * md * factor[i-1]]. *)
Definition trend_vector (W i : nat) (md f : Q) : list Q :=
  map (fun l => Qpow_nat l i * md * f)
      (linspace (- inject_Z (Z.of_nat W) / 2) (inject_Z (Z.of_nat W) / 2) W).

Definition detrend_step (W : nat) (X : option array2) (i : nat) : result (option array2) :=
  match X with
  | None => f <- factor_at i ;; Ok None
  | Some X =>
      f <- factor_at i ;;
      match mean_all (diff_rows i X) with
      | None => Ok None
      | Some md =>
          let detrend := trend_vector W i md f in
          X' <- bsub X detrend ;;
          Ok (Some X')
      end
  end.

(** Lines 7-20. *)
Definition detrending (xs : list Q) (order : nat) : result (option array2) :=
  let X := as_column xs in
  let window_size := length xs in
  X <- (if 0 <? order then
          match col_means X with
          | None => Ok None
          | Some m => X' <- bsub X m ;; Ok (Some X')
          end
        else Ok (Some X)) ;;
  if 1 <? order then fold_left (fun acc i => X <- acc ;; detrend_step window_size X i)
                               (seq 1 (order - 1)) (Ok X)
  else Ok X.

(** The window [1, 2, 4] detrended at order 2 is a 3 x 3 matrix. *)
Example detrending_order2_ex :
  match detrending [1; 2; 4] 2 with
  | Ok (Some X) => Nat.eqb (length X) 3 && has_cols 3 X
  | _ => false
  end = true.
Proof. vm_compute. reflexivity. Qed.

(** ** Shapes *)

(** The arrays the loop of lines 16-19 can hold for a window of [W]
    samples: [nan], or [W] rows of one or of [W] columns. *)
Definition shape_ok (W : nat) (X : option array2) : Prop :=
  match X with
  | None => True
  | Some X => length X = W /\ (has_cols 1 X = true \/ has_cols W X = true)
  end.

Lemma has_cols_map_length {A} (c : nat) (f : A -> list Q) (X : list A) :
  (forall r, length (f r) = c) -> has_cols c (map f X) = true.
Proof.
  intros Hf. unfold has_cols. apply forallb_forall. intros r Hr.
  apply in_map_iff in Hr as (r0 & <- & _). apply Nat.eqb_eq, Hf.
Qed.

Lemma has_cols_spec c X : has_cols c X = true -> forall r, In r X -> length r = c.
Proof. unfold has_cols. rewrite forallb_forall. intros H r Hr. now apply Nat.eqb_eq, H. Qed.

Lemma length_combine_cols (r v : list Q) :
  length r = length v -> length (map (fun p => fst p - snd p) (combine r v)) = length v.
Proof. intros H. rewrite length_map, length_combine. lia. Qed.

(** Subtracting a vector of length [W] from an admissible array gives a
    [W x W] array (or keeps [W x 1] when [W = 1]). *)
Lemma bsub_shape W X v :
  length X = W -> length v = W -> (has_cols 1 X = true \/ has_cols W X = true) ->
  exists X', bsub X v = Ok X' /\ length X' = W /\ has_cols W X' = true.
Proof.
  intros HX Hv Hc. unfold bsub. rewrite Hv.
  destruct (has_cols W X) eqn:EW.
  - eexists; split; [reflexivity|]. rewrite length_map. split; [exact HX|].
    unfold has_cols. apply forallb_forall. intros r' Hr'.
    apply in_map_iff in Hr' as (r & <- & Hr). apply Nat.eqb_eq.
    rewrite length_map, length_combine, (has_cols_spec _ _ EW r Hr). lia.
  - destruct Hc as [H1|H1]; [|congruence]. rewrite H1.
    eexists; split; [reflexivity|]. rewrite length_map. split; [exact HX|].
    apply has_cols_map_length. intros r. now rewrite length_map.
Qed.

Lemma linspace_length a b n : length (linspace a b n) = n.
Proof. destruct n as [|[|n]]; simpl; [reflexivity|reflexivity|]. now rewrite length_map, length_seq. Qed.

Lemma factor_at_ok i : (1 <= i <= 3)%nat -> exists f, factor_at i = Ok f.
Proof. intros Hi. destruct i as [|[|[|[|i]]]]; try lia; eexists; reflexivity. Qed.

Lemma factor_at_4 : factor_at 4 = Err IndexError.
Proof. reflexivity. Qed.

Lemma detrend_step_4 W X : detrend_step W X 4 = Err IndexError.
Proof. destruct X; reflexivity. Qed.

(** One step of the loop keeps the array admissible and raises nothing,
    for the three entries of [factor]. *)
Lemma detrend_step_ok W X i :
  shape_ok W X -> (1 <= i <= 3)%nat ->
  exists X', detrend_step W X i = Ok X' /\ shape_ok W X'.
Proof.
  intros Hs Hi. destruct (factor_at_ok i Hi) as [f Hf].
  destruct X as [X|]; simpl; rewrite Hf; cbn [bind]; [|now exists None].
  destruct (mean_all (diff_rows i X)) as [md|]; [|now exists None].
  destruct Hs as [HX Hc].
  destruct (bsub_shape W X (trend_vector W i md f)) as (X' & HX' & HlX' & HcX'); [exact HX| |exact Hc|].
  - unfold trend_vector. rewrite length_map. apply linspace_length.
  - rewrite HX'. cbn [bind]. exists (Some X'). split; [reflexivity|]. simpl. tauto.
Qed.


(** ** The mean-removal step (line 13) *)

Lemma column0_as_column xs : column 0 (as_column xs) = xs.
Proof. unfold column, as_column. rewrite map_map. apply map_id. Qed.

Definition window_mean (xs : list Q) : Q := Qsum xs / inject_Z (Z.of_nat (length xs)).

Lemma col_means_column xs :
  xs <> [] -> col_means (as_column xs) = Some [window_mean xs].
Proof.
  intros Hne. destruct xs as [|x0 xs']; [congruence|].
  unfold col_means, as_column; cbn [map]. cbv iota.
  replace (ncols ([x0] :: map (fun x => [x]) xs')) with 1%nat by reflexivity. cbn [seq map].
  change ([x0] :: map (fun x => [x]) xs') with (as_column (x0 :: xs')).
  rewrite column0_as_column. unfold window_mean, as_column. now rewrite length_map.
Qed.

Lemma bsub_column_scalar xs m :
  bsub (as_column xs) [m] = Ok (as_column (map (fun x => x - m) xs)).
Proof.
  unfold bsub. cbn [length].
  replace (has_cols 1 (as_column xs)) with true
    by (symmetry; unfold as_column; apply has_cols_map_length; reflexivity).
  unfold as_column. rewrite !map_map. apply (f_equal Ok). apply map_ext. reflexivity.
Qed.

Lemma demean_step xs :
  xs <> [] ->
  match col_means (as_column xs) with
  | None => Ok None
  | Some m => X' <- bsub (as_column xs) m ;; Ok (Some X')
  end = Ok (Some (as_column (map (fun x => x - window_mean xs) xs))).
Proof. intros Hne. now rewrite col_means_column, bsub_column_scalar. Qed.

Lemma Qsum_demean xs : xs <> [] -> Qsum (map (fun x => x - window_mean xs) xs) == 0.
Proof.
  intros Hne. unfold window_mean.
  assert (Hn : ~ inject_Z (Z.of_nat (length xs)) == 0).
  { destruct xs; [congruence|]. unfold Qeq, inject_Z; cbn [Qnum Qden length]. lia. }
  set (m := Qsum xs / inject_Z (Z.of_nat (length xs))).
  assert (Hsum : forall l, Qsum (map (fun x => x - m) l) == Qsum l - inject_Z (Z.of_nat (length l)) * m).
  { induction l as [|a l IH]; cbn [map Qsum fold_right length].
    - change (inject_Z (Z.of_nat 0)) with 0. lra.
    - unfold Qsum in IH. rewrite IH, Nat2Z.inj_succ, <- Z.add_1_r, inject_Z_plus.
      change (inject_Z 1) with 1. lra. }
  rewrite Hsum. subst m. field. exact Hn.
Qed.

Lemma detrend_fold_err W l e :
  fold_left (fun acc i => X <- acc ;; detrend_step W X i) l (Err e) = Err e.
Proof. induction l; simpl; auto. Qed.

Lemma diff_rows1_column_nonempty xs :
  (2 <= length xs)%nat -> exists md, mean_all (diff_rows 1 (as_column xs)) = Some md.
Proof.
  intros Hl. destruct xs as [|x0 [|x1 xs']]; simpl in Hl; try lia.
  unfold mean_all, Qmean. cbn [diff_rows as_column map combine tl fst snd concat app].
  eexists. reflexivity.
Qed.

Lemma detrend_fold_shape W l X :
  shape_ok W X -> Forall (fun i => 1 <= i <= 3)%nat l ->
  exists X', fold_left (fun acc i => X <- acc ;; detrend_step W X i) l (Ok X) = Ok X'
             /\ shape_ok W X'.
Proof.
  intros Hs Hl. revert X Hs; induction Hl as [|i l Hi _ IH]; intros X Hs; [now exists X|].
  simpl. destruct (detrend_step_ok W X i Hs Hi) as (X1 & -> & Hs1). now apply IH.
Qed.

Lemma column_shape_ok xs : shape_ok (length xs) (Some (as_column xs)).
Proof.
  split; [unfold as_column; now rewrite length_map|].
  left. unfold as_column. now apply has_cols_map_length.
Qed.

Lemma demean_shape_ok xs order :
  exists X0, (if 0 <? order then
                match col_means (as_column xs) with
                | None => Ok None
                | Some m => X' <- bsub (as_column xs) m ;; Ok (Some X')
                end
              else Ok (Some (as_column xs))) = Ok X0 /\ shape_ok (length xs) X0.
Proof.
  destruct (0 <? order).
  - destruct xs as [|x xs']; [exists None; split; [reflexivity|exact I]|].
    rewrite demean_step by discriminate. eexists; split; [reflexivity|].
    pose proof (column_shape_ok (map (fun x0 => x0 - window_mean (x :: xs')) (x :: xs'))) as H.
    now rewrite length_map in H.
  - eexists; split; [reflexivity|]. apply column_shape_ok.
Qed.

(** ** What [detrending] computes *)

(** C29. With [detrending_order = 1] the window stays one column of [W]
    samples, and it has mean zero. *)
Theorem detrending_order1 xs :
  xs <> [] ->
  exists ys, detrending xs 1 = Ok (Some (as_column ys))
             /\ length ys = length xs /\ Qsum ys == 0.
Proof.
  intros Hne. exists (map (fun x => x - window_mean xs) xs). unfold detrending.
  cbn [Nat.ltb Nat.leb]. rewrite demean_step by exact Hne. cbn [bind].
  split; [reflexivity|]. split; [apply length_map|]. now apply Qsum_demean.
Qed.

Lemma detrending_order1_witness :
  [1; 2; 4] <> []
  /\ exists ys, detrending [1; 2; 4] 1 = Ok (Some (as_column ys))
                /\ length ys = length [1; 2; 4] /\ Qsum ys == 0.
Proof.
  assert (H : [1; 2; 4] <> []) by discriminate. split; [exact H|].
  exact (detrending_order1 [1; 2; 4] H).
Defined.

(** Order 1 of the specification: the window minus its mean. *)
Definition order1_window (xs : list Q) : list Q := map (fun x => x - window_mean xs) xs.

(** The outer difference [y_j - d_k] of two vectors, as rows. *)
Definition outer_sub (ys v : list Q) : array2 := map (fun y => map (fun d => y - d) v) ys.

Lemma has_cols_column_false ys c : ys <> [] -> c <> 1%nat -> has_cols c (as_column ys) = false.
Proof.
  intros Hne Hc. destruct ys as [|y ys]; [congruence|]. simpl.
  destruct c as [|[|c]]; [reflexivity|congruence|reflexivity].
Qed.

Lemma bsub_column_broadcast ys v :
  ys <> [] -> length v <> 1%nat -> bsub (as_column ys) v = Ok (outer_sub ys v).
Proof.
  intros Hne Hv. unfold bsub. rewrite has_cols_column_false by assumption.
  replace (has_cols 1 (as_column ys)) with true
    by (symmetry; now apply has_cols_map_length).
  unfold as_column, outer_sub. now rewrite map_map.
Qed.

Lemma outer_sub_shape ys v :
  length (outer_sub ys v) = length ys /\ has_cols (length v) (outer_sub ys v) = true.
Proof.
  unfold outer_sub. split; [apply length_map|].
  apply has_cols_map_length. intros y. apply length_map.
Qed.

(** Order 2 as the code computes it: the column of the demeaned samples
    minus the trend vector, broadcast. *)
Lemma detrending_order2_broadcast xs :
  (2 <= length xs)%nat ->
  exists md, mean_all (diff_rows 1 (as_column (order1_window xs))) = Some md
             /\ detrending xs 2
                = Ok (Some (outer_sub (order1_window xs) (trend_vector (length xs) 1 md 1))).
Proof.
  intros Hl. unfold detrending. cbn [Nat.ltb Nat.leb].
  assert (Hne : xs <> []) by (destruct xs; simpl in Hl; [lia|discriminate]).
  rewrite demean_step by exact Hne. cbn [bind seq fold_left Nat.sub]. unfold detrend_step.
  change (map (fun x => x - window_mean xs) xs) with (order1_window xs).
  assert (Hys : length (order1_window xs) = length xs) by apply length_map.
  change (factor_at 1) with (Ok (A:=Q) 1). cbn [bind].
  destruct (diff_rows1_column_nonempty (order1_window xs) ltac:(lia)) as [md Hmd].
  exists md. split; [exact Hmd|]. rewrite Hmd.
  rewrite bsub_column_broadcast; [reflexivity| |].
  - intros E. rewrite E in Hys. simpl in Hys. lia.
  - unfold trend_vector. rewrite length_map, linspace_length. lia.
Qed.

Lemma detrending_order2_shape xs X :
  (2 <= length xs)%nat -> detrending xs 2 = Ok (Some X) ->
  length X = length xs /\ has_cols (length xs) X = true.
Proof.
  intros Hl HX. destruct (detrending_order2_broadcast xs Hl) as (md & _ & E).
  rewrite E in HX. injection HX as <-.
  destruct (outer_sub_shape (order1_window xs) (trend_vector (length xs) 1 md 1)) as [H1 H2].
  unfold trend_vector in *. rewrite length_map, linspace_length in H2.
  split; [rewrite H1; apply length_map|exact H2].
Qed.

(** C30. With the default [detrending_order = 2] the window comes back as a
    [W x W] matrix, not as [W] samples: [X] has shape (W, 1) and the
    trend [detrend] has shape (W,), and numpy broadcasts [X - detrend] to
    shape (W, W): row [j] is the demeaned sample [j] minus the whole
    trend vector. *)
Theorem detrending_order2_matrix xs :
  (2 <= length xs)%nat ->
  exists md X, detrending xs 2 = Ok (Some X)
               /\ X = outer_sub (order1_window xs) (trend_vector (length xs) 1 md 1)
               /\ length X = length xs /\ has_cols (length xs) X = true.
Proof.
  intros Hl. destruct (detrending_order2_broadcast xs Hl) as (md & _ & E).
  exists md, (outer_sub (order1_window xs) (trend_vector (length xs) 1 md 1)).
  split; [exact E|split; [reflexivity|]]. exact (detrending_order2_shape xs _ Hl E).
Qed.

Lemma detrending_order2_matrix_witness :
  (2 <= length [1; 2; 4])%nat
  /\ exists md X, detrending [1; 2; 4] 2 = Ok (Some X)
                  /\ X = outer_sub (order1_window [1; 2; 4]) (trend_vector (length [1; 2; 4]) 1 md 1)
                  /\ length X = length [1; 2; 4] /\ has_cols (length [1; 2; 4]) X = true.
Proof.
  assert (H : (2 <= length [1; 2; 4])%nat) by (simpl; lia). split; [exact H|].
  exact (detrending_order2_matrix [1; 2; 4] H).
Defined.

(** C31. The only configuration check on [detrending_order] is the
    length of [factor]: every order up to 4 returns an array (spec
    section 4.1 requires a configuration error for any order above 2),
    and every order from 5 on fails with [IndexError] at [factor[3]]
    (line 18), after the loop has run three iterations. *)
Theorem detrending_order_errors xs order :
  ((order <= 4)%nat -> exists X, detrending xs order = Ok X)
  /\ ((5 <= order)%nat -> detrending xs order = Err IndexError).
Proof.
  unfold detrending. destruct (demean_shape_ok xs order) as (X0 & -> & Hs0). cbn [bind].
  split; intros Ho.
  - destruct (1 <? order) eqn:E; [|now exists X0].
    destruct (detrend_fold_shape (length xs) (seq 1 (order - 1)) X0 Hs0) as (X' & -> & _);
      [|now exists X'].
    apply Forall_forall. intros i Hi%in_seq. lia.
  - replace (1 <? order) with true by (symmetry; apply Nat.ltb_lt; lia).
    replace (seq 1 (order - 1)) with ([1; 2; 3] ++ 4 :: seq 5 (order - 5))%nat
      by (replace (order - 1)%nat with (3 + S (order - 5))%nat by lia; rewrite seq_app; reflexivity).
    rewrite fold_left_app.
    destruct (detrend_fold_shape (length xs) [1; 2; 3]%nat X0 Hs0) as (X' & -> & _);
      [repeat constructor; lia|].
    cbn [fold_left bind]. rewrite detrend_step_4. apply detrend_fold_err.
Qed.

Lemma detrending_order_errors_witness :
  ((3 <= 4)%nat /\ exists X, detrending [1; 2; 4] 3 = Ok X)
  /\ ((5 <= 7)%nat /\ detrending [1; 2; 4] 7 = Err IndexError).
Proof.
  assert (H3 : (3 <= 4)%nat) by lia. assert (H7 : (5 <= 7)%nat) by lia.
  split; split; [exact H3| |exact H7|].
  - exact (proj1 (detrending_order_errors [1; 2; 4] 3) H3).
  - exact (proj2 (detrending_order_errors [1; 2; 4] 7) H7).
Defined.
