(* ===== verification/LogMUA.v ===== *)
(** * LogMUA: the SpectralActivityEstimator, fp_logMUA_estimation.py

    Model of [build_logMUA_segment] (lines 23-39), [logMUA_estimation]
    (lines 42-75) and of the main block's processing (lines 101-106) in
    src/snakemake_workflow/fieldpotential_analysis/scripts/fp_logMUA_estimation.py.
    The window of every analysis step is detrended by [detrending] (file
    [Detrend]) and squeezed ([np.squeeze]); its power spectrum comes from
    elephant's [welch_psd], a library the code only calls, given here as
    the interface [WelchPSD] with the frequency grid and the shapes the
    library documents.  [np.log] is a section variable [ln] on positive
    powers, with numpy's values at zero ([-inf]) and below ([nan]) written
    out.  neo's [AnalogSignal] constructor is modelled by its keyword
    binding ([bind_analogsignal_call]): it has no [t_stop] parameter, so
    the [t_stop=] of line 66 becomes an annotation; a raw annotation named
    like one of its parameters is consumed, and one named like a keyword
    of the call raises [TypeError]. *)

From Stdlib Require Import String.
From Stdlib Require Import List Lia Bool Arith ZArith QArith Qround Qabs Lqa.
From Stdlib Require Import Sorting.Sorted.
From S2P Require Import Prelude Values Detrend Pipeline.
Import ListNotations.
Open Scope string_scope.
Open Scope list_scope.

(** ** numpy and Python numerics *)

(** Python's [round] on a float (and numpy's on a 0-d array): to the
    nearest integer, halves to the even neighbour. *)
Definition py_round (q : Q) : Z :=
  let fl := Qfloor q in
  let r := q - inject_Z fl in
  if Qltb r (1 # 2) then fl
  else if Qltb (1 # 2) r then (fl + 1)%Z
  else if Z.even fl then fl else (fl + 1)%Z.

(** Line 27: [int(round(fs.magnitude / freq_band[0]))].  The division of
    a numpy value by [0.0] gives [inf] (or [nan] for [0/0]) instead of
    raising; [int] of it raises [OverflowError] ([ValueError] for [nan]). *)
Definition fft_window_size (fs low : Q) : result Z :=
  if Qeq_bool low 0 then
    (if Qeq_bool fs 0 then Err ValueError else Err OverflowError)
  else Ok (py_round (fs / low)).

(** Line 28: [int(np.floor(len(asig)/FFTWindowSize))]; Python's [/] on
    two integers raises [ZeroDivisionError] on a zero divisor. *)
Definition sample_count (len : nat) (W : Z) : result Z :=
  if (W =? 0)%Z then Err ZeroDivisionError else Ok (Z.of_nat len / W)%Z.

(** Line 29: a number divided by a duration, as a float: [inf], [-inf] or
    [nan] when the duration is zero. *)
Definition fdiv (a b : Q) : fval :=
  if Qeq_bool b 0 then (if Qltb 0 a then PosInf else if Qltb a 0 then NegInf else NaN)
  else Fin (a / b).

(** An n-dimensional array of at most two axes, as [np.squeeze] leaves it. *)
Inductive ndarray : Type :=
| Arr0 (x : Q)
| Arr1 (v : list Q)
| Arr2 (X : array2).

(** [np.squeeze] of a 2-d array: the axes of length one are dropped. *)
Definition squeeze (X : array2) : ndarray :=
  match X with
  | [[x]] => Arr0 x
  | [r] => Arr1 r
  | _ => if has_cols 1 X then Arr1 (map (hd 0) X) else Arr2 X
  end.

(** [analogsignal[lo:hi]] along time, clamped at the end as Python
    slices are. *)
Definition py_slice {A} (l : list A) (lo hi : nat) : list A := firstn (hi - lo) (skipn lo l).

(** [np.where(b <= f)[0][0]]: the first index of a frequency at or above
    [b]; [IndexError] when there is none. *)
Fixpoint first_at_or_above (b : Q) (f : list Q) : option nat :=
  match f with
  | [] => None
  | x :: f' => if Qle_bool b x then Some 0%nat else option_map S (first_at_or_above b f')
  end.

Definition band_index (b : Q) (f : list Q) : result nat :=
  match first_at_or_above b f with Some k => Ok k | None => Err IndexError end.

(** Line 61: [np.mean(p[low_idx:high_idx])]; the slice is taken on the
    first axis, so for a 2-d [p] it selects rows; the mean of an empty
    slice, or of a [nan] array, is [nan] ([None]); a 0-d [p] cannot be
    sliced. *)
Definition mean_slice (p : option ndarray) (lo hi : nat) : result (option Q) :=
  match p with
  | None => Ok None
  | Some (Arr0 _) => Err IndexError
  | Some (Arr1 v) => Ok (Qmean (py_slice v lo hi))
  | Some (Arr2 P) => Ok (Qmean (List.concat (py_slice P lo hi)))
  end.

(** [np.log] on a mean power: [-inf] at zero, [nan] below zero and on
    [nan]; [ln] gives the logarithm of a positive power. *)
Definition np_log (ln : Q -> Q) (v : option Q) : fval :=
  match v with
  | None => NaN
  | Some q => if Qeq_bool q 0 then NegInf else if Qltb q 0 then NaN else Fin (ln q)
  end.

(** [a[i] = v] on a numpy array, in range. *)
Fixpoint list_set {A} (l : list A) (i : nat) (v : A) : list A :=
  match l, i with
  | [], _ => []
  | _ :: l', O => v :: l'
  | x :: l', S i' => x :: list_set l' i' v
  end.

(** [np.fft.rfftfreq(n, 1/fs)]: the one-sided frequency grid of an
    [n]-point segment. *)
Definition rfft_freqs (fs : Q) (n : nat) : list Q :=
  map (fun k => inject_Z (Z.of_nat k) * fs / inject_Z (Z.of_nat n)) (seq 0 (S (n / 2))).

(** [nperseg = int(fs / freq_res)] in elephant's [welch_psd]. *)
Definition nperseg (fs freq_res : Q) : nat := Z.to_nat (Qfloor (fs / freq_res)).

(** ** elephant's [welch_psd] *)

(** The shapes [welch_psd(x, ..., axis=-1)] returns for an input [x] and
    [nf] frequencies: a spectrum per row of a 2-d [x], one spectrum for a
    1-d [x], [nan] for [nan]. *)
Definition psd_shape (x : option ndarray) (nf : nat) (p : option ndarray) : Prop :=
  match x, p with
  | None, None => True
  | Some (Arr1 _), Some (Arr1 pv) => length pv = nf
  | Some (Arr2 X), Some (Arr2 P) => length P = length X /\ has_cols nf P = true
  | Some (Arr0 _), _ => True
  | _, _ => False
  end.

(** What the code relies on from [welch_psd(x, freq_res=r, overlap=o,
    fs=fs, ...)]: a segment of [nperseg = int(fs / r)] points, the grid
    [rfftfreq(nperseg, 1/fs)], and one power per frequency along the last
    axis. *)
Class WelchPSD := {
  welch_psd : Q -> Q -> Q -> option ndarray -> result (list Q * option ndarray);
  welch_psd_nperseg : forall fs r o x f p,
    welch_psd fs r o x = Ok (f, p) -> (0 < nperseg fs r)%nat;
  welch_psd_freqs : forall fs r o x f p,
    welch_psd fs r o x = Ok (f, p) -> f = rfft_freqs fs (nperseg fs r);
  welch_psd_shape : forall fs r o x f p,
    welch_psd fs r o x = Ok (f, p) -> psd_shape x (length f) p
}.

(** ** neo signals *)

(** A raw analog signal of one channel: samples, time span, sampling rate
    (in Hz, after [rescale('1/s')]) and annotations. *)
Record analog_signal := mk_analog_signal {
  as_samples : list Q;
  as_t_start : Q;
  as_t_stop : Q;
  as_sampling_rate : Q;
  as_annotations : annotations
}.

(** The logMUA signal built at lines 63-74. *)
Record logmua_out := mk_logmua_out {
  lo_values : list fval;
  lo_t_start : Q;
  lo_sampling_rate : fval;
  lo_annotations : annotations
}.

(** The keywords of the call of lines 63-74 (the array is the positional
    parameter [signal]). *)
Definition analogsignal_call_keywords : list String.string :=
  ["signal"; "units"; "t_start"; "t_stop"; "sampling_rate"; "FFTWindowSize"; "freq_band";
   "detrending_order"; "psd_freq_res"; "psd_overlap"; "psd_fs"].

(** The named parameters of [AnalogSignal.__new__] the call leaves unset. *)
Definition neo_named_params : list String.string :=
  ["dtype"; "copy"; "sampling_period"; "name"; "file_origin"; "description"; "array_annotations"].

Definition key_in (keys : list String.string) (p : string * aval) : bool :=
  existsb (String.eqb (fst p)) keys.

(** The keyword arguments of lines 66-72 that [AnalogSignal] has no
    parameter for, in the order of the call: they become annotations. *)
Definition provenance (t_stop : Q) (W : Z) (band : Q * Q) (order : nat) (overlap fs : Q)
    : annotations :=
  [("t_stop", AvQ t_stop); ("FFTWindowSize", AvQ (inject_Z W)); ("freq_band", AvOther "freq_band");
   ("detrending_order", AvQ (inject_Z (Z.of_nat order))); ("psd_freq_res", AvQ (fst band));
   ("psd_overlap", AvQ overlap); ("psd_fs", AvQ fs)].

(** Python's binding of [AnalogSignal(np.log(MUA), units=..., t_start=...,
    t_stop=..., sampling_rate=..., FFTWindowSize=..., ...,
    **analogsignal.annotations)]: a key that repeats a keyword of the call
    raises [TypeError]; a key naming another parameter of the constructor
    binds it and leaves the annotations; every other keyword argument is
    an annotation, in call order. *)
Definition bind_analogsignal_call (explicit ann : annotations) : result annotations :=
  if existsb (key_in analogsignal_call_keywords) ann then Err TypeError
  else Ok (explicit ++ filter (fun p => negb (key_in neo_named_params p)) ann).

(** ** [remove_duplicate_properties] of this script (lines 79-86) *)

(** An argument that is a Python list, or any other single object. *)
Inductive py_arg (A : Type) : Type :=
| PyList (l : list A)
| PyObj (a : A).
Arguments PyList {A} l.
Arguments PyObj {A} a.

(** Lines 79-86: [if type(objects) != list: objects = [objects]], then the
    loop over the objects and [del_keys]; the dictionaries of the objects,
    after the call. *)
Definition remove_duplicate_properties_objects (objects : py_arg annotations) : list annotations :=
  let objects := match objects with PyList l => l | PyObj a => [a] end in
  map (remove_duplicate_keys default_del_keys) objects.

(** ** The estimation loop *)

Section Estimation.
Context `{WelchPSD}.
Variable ln : Q -> Q.

(** Lines 47-61: the mean band power of window [i]. *)
Definition window_mua (xs : list Q) (W i : nat) (fs : Q) (band : Q * Q) (order : nat)
    (overlap : Q) : result (option Q) :=
  let local_asig := py_slice xs (i * W) (S i * W) in
  X <- detrending local_asig order ;;
  '(f, p) <- welch_psd fs (fst band) overlap (option_map squeeze X) ;;
  low_idx <- band_index (fst band) f ;;
  high_idx <- band_index (snd band) f ;;
  mean_slice p low_idx high_idx.

(** Line 44 and the loop of lines 46-61: [MUA = np.zeros(sample_num)]
    (a negative length raises [ValueError]), then [MUA[i] = ...]. *)
Definition mua_loop (xs : list Q) (sample_num W : Z) (fs : Q) (band : Q * Q) (order : nat)
    (overlap : Q) : result (list (option Q)) :=
  MUA <- (if (sample_num <? 0)%Z then Err ValueError
          else Ok (repeat (Some 0) (Z.to_nat sample_num))) ;;
  fold_left (fun acc i =>
               MUA <- acc ;;
               v <- window_mua xs (Z.to_nat W) i fs band order overlap ;;
               Ok (list_set MUA i v))
            (seq 0 (Z.to_nat sample_num)) (Ok MUA).

(** Lines 42-75. *)
Definition logMUA_estimation (asig : analog_signal) (fs : Q) (sample_num W : Z)
    (band : Q * Q) (rate : fval) (order : nat) (overlap : Q) : result logmua_out :=
  MUA <- mua_loop (as_samples asig) sample_num W fs band order overlap ;;
  ann <- bind_analogsignal_call (provenance (as_t_stop asig) W band order overlap fs)
                                (as_annotations asig) ;;
  Ok (mk_logmua_out (map (np_log ln) MUA) (as_t_start asig) rate ann).

(** The loop of lines 33-37. *)
Fixpoint segment_loop (signals : list analog_signal) (fs : Q) (sample_num W : Z)
    (band : Q * Q) (rate : fval) (order : nat) (overlap : Q) : result (list logmua_out) :=
  match signals with
  | [] => Ok []
  | asig :: rest =>
      s <- logMUA_estimation asig fs sample_num W band rate order overlap ;;
      ss <- segment_loop rest fs sample_num W band rate order overlap ;;
      Ok (s :: ss)
  end.

(** Lines 23-39: the window size and the number of windows come from the
    first signal and serve every channel. *)
Definition build_logMUA_segment (signals : list analog_signal) (band : Q * Q) (order : nat)
    (overlap : Q) : result (list logmua_out) :=
  asig <- (match signals with [] => Err IndexError | a :: _ => Ok a end) ;;
  let fs := as_sampling_rate asig in
  W <- fft_window_size fs (fst band) ;;
  sample_num <- sample_count (length (as_samples asig)) W ;;
  let rate := fdiv (inject_Z sample_num) (as_t_stop asig - as_t_start asig) in
  segment_loop signals fs sample_num W band rate order overlap.

(** Lines 82-85 on one signal: [del annotations[k]] for the keys of
    [del_keys] that are present. *)
Definition clean_analog_signal (a : analog_signal) : analog_signal :=
  mk_analog_signal (as_samples a) (as_t_start a) (as_t_stop a) (as_sampling_rate a)
    (remove_duplicate_keys default_del_keys (as_annotations a)).

(** Lines 101-106: [remove_duplicate_properties] edits the annotation
    dictionaries of the segment's own signals (the list comprehension
    holds the same objects), then the segment is processed. *)
Definition logMUA_main (signals : list analog_signal) (band : Q * Q) (order : nat)
    (overlap : Q) : result (list logmua_out) :=
  build_logMUA_segment (map clean_analog_signal signals) band order overlap.
End Estimation.

(** ** The band, by its specification *)

(** Spec section 4.1: the power values whose frequency lies in
    [[low, high)], averaged; the band must lie on the grid. *)
Definition in_band (low high x : Q) : bool := Qle_bool low x && Qltb x high.

Definition band_values (low high : Q) (f p : list Q) : list Q :=
  map snd (filter (fun fp => in_band low high (fst fp)) (combine f p)).

Definition spec_band_power (low high : Q) (f p : list Q) : result (option Q) :=
  if existsb (Qle_bool low) f && existsb (Qle_bool high) f
  then Ok (Qmean (band_values low high f p)) else Err IndexError.

(** ** Lemmas *)

Lemma first_at_or_above_none b f :
  first_at_or_above b f = None <-> existsb (Qle_bool b) f = false.
Proof.
  induction f as [|x f IH]; simpl; [tauto|].
  destruct (Qle_bool b x); simpl; [split; discriminate|].
  rewrite <- IH. destruct (first_at_or_above b f); simpl; split; congruence.
Qed.

Lemma band_index_err b f : existsb (Qle_bool b) f = false -> band_index b f = Err IndexError.
Proof. intros H. unfold band_index. now rewrite (proj2 (first_at_or_above_none b f) H). Qed.

Lemma band_index_ok b f :
  existsb (Qle_bool b) f = true -> exists k, band_index b f = Ok k /\ first_at_or_above b f = Some k.
Proof.
  intros H. unfold band_index. destruct (first_at_or_above b f) as [k|] eqn:E; [eauto|].
  apply first_at_or_above_none in E. congruence.
Qed.

Lemma Qle_bool_true a b : a <= b -> Qle_bool a b = true.
Proof. apply Qle_bool_iff. Qed.

Lemma Qle_bool_false a b : b < a -> Qle_bool a b = false.
Proof.
  intros H. destruct (Qle_bool a b) eqn:E; [|reflexivity].
  apply Qle_bool_iff in E. lra.
Qed.

Lemma Qle_bool_false_lt a b : Qle_bool a b = false -> b < a.
Proof.
  intros E. apply Qnot_le_lt. intros Hle. apply Qle_bool_iff in Hle. congruence.
Qed.

#[export] Hint Resolve Qle_bool_true Qle_bool_false : wsp.

(** Above the head of a sorted grid, no element is below [b]. *)
Lemma filter_band_sorted_none low high x f (p : list Q) :
  StronglySorted Qle (x :: f) -> high <= x ->
  filter (fun fp => in_band low high (fst fp)) (combine f p) = [].
Proof.
  intros Hs Hx. apply StronglySorted_inv in Hs as [Hs Hall].
  revert p; induction f as [|y f IH]; intros [|q p]; simpl; auto.
  apply StronglySorted_inv in Hs as [Hs _]. apply Forall_cons_iff in Hall as [Hy Hall].
  unfold in_band at 1. replace (Qltb y high) with false.
  - rewrite andb_false_r. now apply IH.
  - symmetry. apply not_true_iff_false. rewrite Qltb_spec. lra.
Qed.

Lemma first_at_or_above_head b x f :
  StronglySorted Qle (x :: f) -> b <= x -> forall y f', f = y :: f' -> first_at_or_above b f = Some 0%nat.
Proof.
  intros Hs Hb y f' ->. apply StronglySorted_inv in Hs as [_ Hall].
  apply Forall_cons_iff in Hall as [Hy _]. simpl. now rewrite Qle_bool_true by lra.
Qed.

(** On a sorted grid, [p[low_idx:high_idx]] is exactly the band of the
    specification. *)
Lemma band_slice_spec low high f p lo hi :
  StronglySorted Qle f -> length p = length f ->
  first_at_or_above low f = Some lo -> first_at_or_above high f = Some hi ->
  py_slice p lo hi = band_values low high f p.
Proof.
  revert p lo hi; induction f as [|x f IH]; intros [|q p] lo hi Hs Hl Hlo Hhi;
    try discriminate; simpl in Hl.
  unfold band_values, py_slice. simpl in Hlo, Hhi |- *. unfold in_band at 1.
  pose proof Hs as Hs'. apply StronglySorted_inv in Hs' as [Hsf _].
  destruct (Qle_bool high x) eqn:Ehx.
  - apply Qle_bool_iff in Ehx. injection Hhi as <-.
    replace (Qltb x high) with false
      by (symmetry; apply not_true_iff_false; rewrite Qltb_spec; lra).
    rewrite andb_false_r, (filter_band_sorted_none low high x f p Hs Ehx). reflexivity.
  - apply Qle_bool_false_lt in Ehx.
    destruct (first_at_or_above high f) as [hi'|] eqn:Ehi; [|discriminate].
    injection Hhi as <-. rewrite (proj2 (Qltb_spec x high) Ehx), andb_true_r.
    destruct (Qle_bool low x) eqn:Elx.
    + injection Hlo as <-. cbn [skipn Nat.sub firstn map snd]. f_equal.
      destruct f as [|y f']; [discriminate|].
      pose proof (IH p 0%nat hi' Hsf ltac:(lia)
        (first_at_or_above_head low x _ Hs (proj1 (Qle_bool_iff _ _) Elx) y f' eq_refl) eq_refl) as E.
      unfold py_slice, band_values in E. rewrite Nat.sub_0_r in E. exact E.
    + destruct (first_at_or_above low f) as [lo'|] eqn:Elo; [|discriminate].
      injection Hlo as <-. cbn [skipn Nat.sub].
      exact (IH p lo' hi' Hsf ltac:(lia) eq_refl eq_refl).
Qed.

Lemma rfft_freqs_mono fs n k1 k2 :
  0 <= fs -> (k1 <= k2)%nat ->
  inject_Z (Z.of_nat k1) * fs / inject_Z (Z.of_nat n) <= inject_Z (Z.of_nat k2) * fs / inject_Z (Z.of_nat n).
Proof.
  intros Hfs Hk. unfold Qdiv. apply Qmult_le_compat_r.
  - apply Qmult_le_compat_r; [rewrite <- Zle_Qle; lia|exact Hfs].
  - apply Qinv_le_0_compat. change 0 with (inject_Z 0). rewrite <- Zle_Qle. lia.
Qed.

Lemma sorted_map_seq (g : nat -> Q) :
  (forall k1 k2, (k1 <= k2)%nat -> g k1 <= g k2) -> forall a len, Sorted Qle (map g (seq a len)).
Proof.
  intros Hg a len. revert a. induction len as [|len IH]; intros a; cbn [seq map]; [constructor|].
  constructor; [apply IH|]. destruct len; cbn [seq map]; constructor. apply Hg. lia.
Qed.

Lemma rfft_freqs_sorted fs n : 0 <= fs -> StronglySorted Qle (rfft_freqs fs n).
Proof.
  intros Hfs. apply Sorted_StronglySorted; [intros x y z; apply Qle_trans|].
  apply sorted_map_seq. intros k1 k2. now apply rfft_freqs_mono.
Qed.

Lemma nperseg_pos fs r : 0 < r -> (0 < nperseg fs r)%nat -> 0 < fs.
Proof.
  intros Hr Hn. unfold nperseg in Hn.
  assert (H1 : 1 <= fs / r).
  { apply Qle_trans with (inject_Z (Qfloor (fs / r))); [|apply Qfloor_le].
    change 1 with (inject_Z 1). rewrite <- Zle_Qle. lia. }
  assert (Hfs : fs == fs / r * r) by (field; lra).
  rewrite Hfs. apply Qlt_le_trans with (1 * r); [lra|].
  apply Qmult_le_compat_r; lra.
Qed.

(** What the code receives from [welch_psd] is a sorted grid with one
    power per frequency. *)
Lemma welch_psd_grid `{WelchPSD} fs r o x f p :
  0 < r -> welch_psd fs r o x = Ok (f, p) -> StronglySorted Qle f /\ psd_shape x (length f) p.
Proof.
  intros Hr Hw. split; [|exact (welch_psd_shape _ _ _ _ _ _ Hw)].
  rewrite (welch_psd_freqs _ _ _ _ _ _ Hw). apply rfft_freqs_sorted.
  pose proof (nperseg_pos fs r Hr (welch_psd_nperseg _ _ _ _ _ _ Hw)). lra.
Qed.

(** The spectrum of a sorted grid, read through [band_index] and
    [mean_slice], is the band power of the specification. *)
Lemma band_mean_spec low high f pv :
  StronglySorted Qle f -> length pv = length f ->
  (lo <- band_index low f ;; hi <- band_index high f ;; mean_slice (Some (Arr1 pv)) lo hi)
  = spec_band_power low high f pv.
Proof.
  intros Hs Hl. unfold spec_band_power.
  destruct (existsb (Qle_bool low) f) eqn:El; [|now rewrite band_index_err].
  destruct (band_index_ok low f El) as (lo & -> & Elo). cbn [bind andb].
  destruct (existsb (Qle_bool high) f) eqn:Eh; [|now rewrite band_index_err].
  destruct (band_index_ok high f Eh) as (hi & -> & Ehi). cbn [bind mean_slice].
  now rewrite (band_slice_spec low high f pv lo hi Hs Hl Elo Ehi).
Qed.

(** The windows of orders 0 and 1, as the specification describes them:
    the samples, or the samples minus their mean. *)
Definition demeaned (order : nat) (xs : list Q) : list Q :=
  if (order =? 0)%nat then xs else map (fun x => x - window_mean xs) xs.

Lemma detrending_low_order xs order :
  (order <= 1)%nat -> xs <> [] -> detrending xs order = Ok (Some (as_column (demeaned order xs))).
Proof.
  intros Ho Hne. destruct order as [|[|order]]; [reflexivity| |lia].
  unfold detrending, demeaned. cbn [Nat.ltb Nat.leb Nat.eqb]. now rewrite demean_step.
Qed.

Lemma squeeze_column ys : (2 <= length ys)%nat -> squeeze (as_column ys) = Arr1 ys.
Proof.
  intros Hl. destruct ys as [|a [|b ys]]; cbn [length] in Hl; [lia|lia|].
  unfold squeeze, as_column. cbn [map]. cbv iota.
  replace (has_cols 1 ([a] :: [b] :: map (fun x => [x]) ys)) with true
    by (symmetry; apply (has_cols_map_length 1 (fun x => [x]) (a :: b :: ys)); reflexivity).
  cbn [map hd]. f_equal. f_equal. f_equal. rewrite map_map. apply map_id.
Qed.

Lemma length_demeaned order xs : length (demeaned order xs) = length xs.
Proof. unfold demeaned. destruct (order =? 0)%nat; [reflexivity|apply length_map]. Qed.

Lemma py_slice_length {A} (l : list A) lo hi :
  (lo <= hi)%nat -> (hi <= length l)%nat -> length (py_slice l lo hi) = (hi - lo)%nat.
Proof. intros H1 H2. unfold py_slice. rewrite length_firstn, length_skipn. lia. Qed.

Lemma window_length (xs : list Q) W i :
  (S i * W <= length xs)%nat -> length (py_slice xs (i * W) (S i * W)) = W.
Proof. intros H. rewrite py_slice_length; [lia|lia|exact H]. Qed.

Lemma list_set_app {A} (pre : list A) x rest v :
  list_set (pre ++ x :: rest) (length pre) v = pre ++ v :: rest.
Proof. induction pre as [|y pre IH]; simpl; [reflexivity|now rewrite IH]. Qed.

(** Filling a preallocated array entry by entry, stopping at the first
    exception, is mapping the step over the indices. *)
Lemma fill_loop {A} (g : nat -> result A) (z : A) len : forall a pre,
  length pre = a ->
  fold_left (fun acc i => MUA <- acc ;; v <- g i ;; Ok (list_set MUA i v))
            (seq a len) (Ok (pre ++ repeat z len))
  = (vs <- map_result g (seq a len) ;; Ok (pre ++ vs)).
Proof.
  induction len as [|len IH]; intros a pre Hl; subst a; [reflexivity|].
  cbn [seq fold_left repeat map_result]. rewrite bind_ok.
  destruct (g (length pre)) as [v|e]; cbn [bind]; [|apply fold_left_bind_err].
  rewrite list_set_app.
  replace (pre ++ v :: repeat z len) with ((pre ++ [v]) ++ repeat z len) by now rewrite <- app_assoc.
  rewrite (IH (S (length pre)) (pre ++ [v])) by (rewrite length_app; simpl; lia).
  destruct (map_result g (seq (S (length pre)) len)); cbn [bind]; [|reflexivity].
  now rewrite <- app_assoc.
Qed.

(** ** A concrete spectral estimator, for the concrete runs

    [flat_welch] is a stand-in for elephant's [welch_psd] with the grid,
    the shapes and the [nperseg] check of the library ([ValueError] when
    a segment is longer than the data): it gives every frequency the
    mean power of the series, the spectrum of white noise. *)

Definition mean_square (v : list Q) : Q :=
  match Qmean (map (fun x => x * x) v) with Some m => Qred m | None => 0 end.

Definition flat_welch_psd (fs r o : Q) (x : option ndarray) : result (list Q * option ndarray) :=
  let n := nperseg fs r in
  let f := rfft_freqs fs n in
  if (n =? 0)%nat then Err ValueError else
  match x with
  | None => Ok (f, None)
  | Some (Arr0 _) => Err ValueError
  | Some (Arr1 v) =>
      if (length v <? n)%nat then Err ValueError
      else Ok (f, Some (Arr1 (repeat (mean_square v) (length f))))
  | Some (Arr2 X) =>
      if (ncols X <? n)%nat then Err ValueError
      else Ok (f, Some (Arr2 (map (fun row => repeat (mean_square row) (length f)) X)))
  end.

Lemma flat_welch_psd_ok fs r o x f p :
  flat_welch_psd fs r o x = Ok (f, p) ->
  (0 < nperseg fs r)%nat /\ f = rfft_freqs fs (nperseg fs r) /\ psd_shape x (length f) p.
Proof.
  unfold flat_welch_psd. destruct (nperseg fs r =? 0)%nat eqn:En; [discriminate|].
  apply Nat.eqb_neq in En. destruct x as [[x|v|X]|].
  - discriminate.
  - destruct (length v <? nperseg fs r)%nat; [discriminate|].
    set (L := length (rfft_freqs fs (nperseg fs r))). intros [= <- <-].
    split; [lia|split; [reflexivity|]]. cbn. now rewrite repeat_length.
  - destruct (ncols X <? nperseg fs r)%nat; [discriminate|].
    set (L := length (rfft_freqs fs (nperseg fs r))). intros [= <- <-].
    split; [lia|split; [reflexivity|]]. split; [apply length_map|].
    apply has_cols_map_length. intros row. cbn. now rewrite repeat_length.
  - intros [= <- <-]. split; [lia|split; [reflexivity|exact I]].
Qed.

Definition flat_welch : WelchPSD.
Proof.
  refine {| welch_psd := flat_welch_psd |}; intros fs r o x f p Hw;
    apply flat_welch_psd_ok in Hw; tauto.
Defined.

(** Eight samples at 8 Hz, band [[2, 3)): windows of 4 samples, the grid
    [0, 2, 4] and the band made of the bin at 2 Hz. *)
Definition sample_signal : analog_signal :=
  mk_analog_signal [1; 3; 2; 6; 4; 4; 0; 8] 0 1 8 [("nix_name", AvOther "ch0"); ("channel", AvQ 0)].

Example sample_window_mua :
  @window_mua flat_welch [1; 3; 2; 6; 4; 4; 0; 8] 4 1 8 (2, 3) 1 0 = Ok (Some 8).
Proof. vm_compute. reflexivity. Qed.

(** ** Lemmas on the estimation *)

Lemma squeeze_square X :
  (2 <= length X)%nat -> has_cols (length X) X = true -> squeeze X = Arr2 X.
Proof.
  intros Hl Hc. destruct X as [|r1 [|r2 X']]; cbn [length] in Hl; [lia|lia|].
  assert (Hr1 : length r1 = length (r1 :: r2 :: X')) by (apply (has_cols_spec _ _ Hc); left; reflexivity).
  cbn [length] in Hr1. unfold squeeze. cbv iota.
  destruct r1 as [|x [|y r1]]; cbn [length] in Hr1; [lia|lia|reflexivity].
Qed.

Lemma mua_loop_eq `{WelchPSD} xs sample_num W fs band order overlap :
  mua_loop xs sample_num W fs band order overlap
  = if (sample_num <? 0)%Z then Err ValueError
    else map_result (fun i => window_mua xs (Z.to_nat W) i fs band order overlap)
                    (seq 0 (Z.to_nat sample_num)).
Proof.
  unfold mua_loop. destruct (sample_num <? 0)%Z; [reflexivity|]. cbn [bind].
  pose proof (fill_loop (fun i => window_mua xs (Z.to_nat W) i fs band order overlap)
                (Some 0) (Z.to_nat sample_num) 0 [] eq_refl) as F.
  cbn [app] in F. rewrite F. destruct (map_result _ _); reflexivity.
Qed.

Lemma logMUA_estimation_length `{WelchPSD} ln asig fs sample_num W band rate order overlap o :
  logMUA_estimation ln asig fs sample_num W band rate order overlap = Ok o ->
  length (lo_values o) = Z.to_nat sample_num /\ lo_t_start o = as_t_start asig.
Proof.
  unfold logMUA_estimation. rewrite mua_loop_eq.
  destruct (sample_num <? 0)%Z; [discriminate|].
  destruct (map_result _ _) as [MUA|e] eqn:E; cbn [bind]; [|discriminate].
  destruct (bind_analogsignal_call _ _); cbn [bind]; [|discriminate]. intros [= <-]. cbn.
  split; [|reflexivity]. rewrite length_map, (map_result_length _ _ _ E). apply length_seq.
Qed.

Lemma logMUA_estimation_rate `{WelchPSD} ln asig fs sample_num W band rate order overlap o :
  logMUA_estimation ln asig fs sample_num W band rate order overlap = Ok o ->
  lo_sampling_rate o = rate /\ (0 <= sample_num)%Z.
Proof.
  unfold logMUA_estimation, mua_loop. intros Ho.
  destruct (sample_num <? 0)%Z eqn:En; [cbn [bind] in Ho; discriminate|].
  apply bind_inv in Ho as (MUA & _ & Ho). apply bind_inv in Ho as (ann & _ & Ho).
  injection Ho as <-. split; [reflexivity|]. now apply Z.ltb_ge.
Qed.

Lemma segment_loop_map `{WelchPSD} ln signals fs sample_num W band rate order overlap :
  segment_loop ln signals fs sample_num W band rate order overlap
  = map_result (fun a => logMUA_estimation ln a fs sample_num W band rate order overlap) signals.
Proof. induction signals as [|a signals IH]; simpl; [reflexivity|now rewrite IH]. Qed.

Lemma rfft_freqs_below fs n b :
  0 <= fs -> inject_Z (Z.of_nat (n / 2)) * fs / inject_Z (Z.of_nat n) < b ->
  existsb (Qle_bool b) (rfft_freqs fs n) = false.
Proof.
  intros Hfs Hb. apply not_true_iff_false. intros E.
  apply existsb_exists in E as (x & Hin & Hx). apply Qle_bool_iff in Hx.
  unfold rfft_freqs in Hin. apply in_map_iff in Hin as (k & <- & Hk). apply in_seq in Hk.
  pose proof (rfft_freqs_mono fs n k (n / 2) Hfs ltac:(lia)). lra.
Qed.

Lemma py_round_bounds q : Qabs (inject_Z (py_round q) - q) <= 1 # 2.
Proof.
  pose proof (Qfloor_le q) as H1. pose proof (Qlt_floor q) as H2.
  rewrite inject_Z_plus in H2. change (inject_Z 1) with 1 in H2.
  apply Qabs_Qle_condition. unfold py_round. cbv zeta.
  destruct (Qltb (q - inject_Z (Qfloor q)) (1 # 2)) eqn:E1;
    [apply Qltb_spec in E1; lra|].
  assert (E1' : 1 # 2 <= q - inject_Z (Qfloor q))
    by (apply Qnot_lt_le; intros Hc; apply Qltb_spec in Hc; congruence).
  destruct (Qltb (1 # 2) (q - inject_Z (Qfloor q))) eqn:E2;
    [rewrite inject_Z_plus; change (inject_Z 1) with 1; lra|].
  assert (E2' : q - inject_Z (Qfloor q) <= 1 # 2)
    by (apply Qnot_lt_le; intros Hc; apply Qltb_spec in Hc; congruence).
  destruct (Z.even (Qfloor q)); [|rewrite inject_Z_plus; change (inject_Z 1) with 1]; lra.
Qed.

(** A value in [(0, 1/2]] rounds to 0, the tie by the even rule. *)
Lemma py_round_small q : 0 < q <= 1 # 2 -> py_round q = 0%Z.
Proof.
  intros Hq. pose proof (Qfloor_le q) as H1. pose proof (Qlt_floor q) as H2.
  rewrite inject_Z_plus in H2. change (inject_Z 1) with 1 in H2.
  assert (Hf : Qfloor q = 0%Z).
  { assert (Hlo : inject_Z (-1) < inject_Z (Qfloor q)) by (change (inject_Z (-1)) with (-1); lra).
    assert (Hhi : inject_Z (Qfloor q) < inject_Z 1) by (change (inject_Z 1) with 1; lra).
    rewrite <- Zlt_Qlt in Hlo, Hhi. lia. }
  unfold py_round. cbv zeta. rewrite Hf. change (inject_Z 0) with 0.
  destruct (Qltb (q - 0) (1 # 2)); [reflexivity|].
  replace (Qltb (1 # 2) (q - 0)) with false
    by (symmetry; apply not_true_iff_false; rewrite Qltb_spec; lra).
  reflexivity.
Qed.

Lemma existsb_filter {A} (p q : A -> bool) l :
  existsb p l = false -> existsb p (filter q l) = false.
Proof.
  induction l as [|x l IH]; simpl; [reflexivity|].
  rewrite orb_false_iff. intros [Hx Hl]. destruct (q x); simpl; [rewrite Hx|]; auto.
Qed.

(** The annotations [logMUA_estimation] writes: the provenance keys, then
    the signal's own annotations. *)
Lemma logMUA_estimation_annotations `{WelchPSD} ln asig fs sample_num W band rate order overlap o :
  logMUA_estimation ln asig fs sample_num W band rate order overlap = Ok o ->
  lo_annotations o = provenance (as_t_stop asig) W band order overlap fs
                     ++ filter (fun p => negb (key_in neo_named_params p)) (as_annotations asig).
Proof.
  unfold logMUA_estimation. destruct (mua_loop _ _ _ _ _ _ _); cbn [bind]; [|discriminate].
  unfold bind_analogsignal_call. destruct (existsb _ _); [discriminate|].
  cbn [bind]. now intros [= <-].
Qed.

(** The binding of lines 63-74 succeeded: no annotation repeats a keyword
    of the call. *)
Lemma logMUA_estimation_keys `{WelchPSD} ln asig fs sample_num W band rate order overlap o :
  logMUA_estimation ln asig fs sample_num W band rate order overlap = Ok o ->
  existsb (key_in analogsignal_call_keywords) (as_annotations asig) = false.
Proof.
  unfold logMUA_estimation. destruct (mua_loop _ _ _ _ _ _ _); cbn [bind]; [|discriminate].
  unfold bind_analogsignal_call. destruct (existsb _ _); [discriminate|reflexivity].
Qed.

(** [d[k]] in a dictionary built by [{**d1, **d2}] with disjoint keys. *)
Lemma lookup_key_app k l1 l2 :
  lookup_key k (l1 ++ l2) = match lookup_key k l1 with Some v => Some v | None => lookup_key k l2 end.
Proof.
  induction l1 as [|[k' v] l1 IH]; cbn [app lookup_key]; [reflexivity|].
  destruct (String.eqb k' k); [reflexivity|exact IH].
Qed.

(** Filtering the pairs by their key keeps [d[k]] for a kept key and
    removes it for a dropped one. *)
Lemma lookup_key_filter_key (q : string -> bool) k d :
  lookup_key k (filter (fun p => q (fst p)) d) = if q k then lookup_key k d else None.
Proof.
  induction d as [|[k' v] d IH]; cbn [filter lookup_key fst]; [now destruct (q k)|].
  destruct (String.eqb_spec k' k) as [->|Hne].
  - destruct (q k); cbn [lookup_key]; [now rewrite String.eqb_refl|exact IH].
  - destruct (q k'); cbn [lookup_key]; [|exact IH].
    now replace (String.eqb k' k) with false by (symmetry; now apply String.eqb_neq).
Qed.

Lemma key_in_In keys k v : key_in keys (k, v) = true <-> In k keys.
Proof.
  unfold key_in. rewrite existsb_exists. cbn [fst]. split.
  - intros (k' & Hk' & E). apply String.eqb_eq in E. now subst.
  - intros Hk. exists k. split; [exact Hk|apply String.eqb_refl].
Qed.

(** The provenance keys are keywords of the call of lines 63-74. *)
Lemma lookup_provenance_other k t_stop W band order overlap fs :
  ~ In k analogsignal_call_keywords -> lookup_key k (provenance t_stop W band order overlap fs) = None.
Proof.
  intros Hk. cbn [provenance lookup_key].
  repeat match goal with
  | |- context [String.eqb ?a k] =>
      destruct (String.eqb_spec a k) as [<-|_]; [exfalso; apply Hk; cbn; tauto|]
  end.
  reflexivity.
Qed.

(** Each channel of a built segment is one call of [logMUA_estimation]
    with the parameters of the first channel. *)
Lemma build_logMUA_segment_channels `{WelchPSD} ln signals band order overlap outs :
  build_logMUA_segment ln signals band order overlap = Ok outs ->
  exists fs sample_num W rate,
    Forall2 (fun a o => logMUA_estimation ln a fs sample_num W band rate order overlap = Ok o)
            signals outs.
Proof.
  unfold build_logMUA_segment. destruct signals as [|a0 rest]; [discriminate|]. cbn [bind].
  destruct (fft_window_size _ _) as [W|e]; cbn [bind]; [|discriminate].
  destruct (sample_count _ _) as [n|e]; cbn [bind]; [|discriminate].
  rewrite segment_loop_map. intros Hm. do 4 eexists. exact (map_result_Forall2 _ _ _ Hm).
Qed.

(** The rate of line 29 comes from the first signal's time span. *)
Lemma build_logMUA_segment_rate `{WelchPSD} ln signals band order overlap outs :
  build_logMUA_segment ln signals band order overlap = Ok outs ->
  exists a0 rest fs sample_num W, signals = a0 :: rest
    /\ Forall2 (fun a o => logMUA_estimation ln a fs sample_num W band
                             (fdiv (inject_Z sample_num) (as_t_stop a0 - as_t_start a0))
                             order overlap = Ok o)
               signals outs.
Proof.
  unfold build_logMUA_segment. destruct signals as [|a0 rest]; [discriminate|]. cbn [bind].
  destruct (fft_window_size _ _) as [W|e]; cbn [bind]; [|discriminate].
  destruct (sample_count _ _) as [n|e]; cbn [bind]; [|discriminate].
  rewrite segment_loop_map. intros Hm. exists a0, rest. do 3 eexists. split; [reflexivity|].
  exact (map_result_Forall2 _ _ _ Hm).
Qed.

(** The annotations of one logMUA channel bind the [t_stop] of its raw
    signal in the state-detection call. *)
Lemma logMUA_estimation_handoff `{WelchPSD} ln asig fs sample_num W band rate order overlap o :
  logMUA_estimation ln asig fs sample_num W band rate order overlap = Ok o ->
  existsb (key_in ("state_vector" :: sv2st_explicit_keywords)) (as_annotations asig) = false ->
  exists rest, bind_sv2st_call (lo_annotations o) = Ok (as_t_stop asig, rest).
Proof.
  intros Ho Hkeys. rewrite (logMUA_estimation_annotations _ _ _ _ _ _ _ _ _ _ Ho).
  unfold bind_sv2st_call. fold (key_in ("state_vector" :: sv2st_explicit_keywords)).
  rewrite existsb_app, existsb_filter by exact Hkeys. eexists. reflexivity.
Qed.

Section Claims.
Context `{WelchPSD}.
Variable ln : Q -> Q.

(** C33. Spec section 4.1, orders 0 and 1: the MUA value of window [i] is
    the mean of the power values whose frequency lies in [[low, high)],
    the window being the samples [i*W .. (i+1)*W - 1], demeaned at order
    1; the band must meet the frequency grid ([IndexError] otherwise). *)
Theorem window_mua_refines xs W i fs low high order overlap f pv :
  (order <= 1)%nat -> (2 <= W)%nat -> (S i * W <= length xs)%nat -> 0 < low ->
  welch_psd fs low overlap (Some (Arr1 (demeaned order (py_slice xs (i * W) (S i * W)))))
  = Ok (f, Some (Arr1 pv)) ->
  window_mua xs W i fs (low, high) order overlap = spec_band_power low high f pv.
Proof.
  intros Ho HW Hl Hlow Hw. unfold window_mua.
  pose proof (window_length xs W i Hl) as Hws.
  rewrite detrending_low_order by (auto; intros E; rewrite E in Hws; simpl in Hws; lia).
  cbn [bind option_map fst snd]. rewrite squeeze_column by (rewrite length_demeaned; lia).
  rewrite Hw. cbn [bind].
  destruct (welch_psd_grid _ _ _ _ _ _ Hlow Hw) as [Hs Hshape]. cbn in Hshape.
  now apply band_mean_spec.
Qed.

(** C35. Order 2 (the default of the command line): the window reaches
    [welch_psd] as a [W x W] matrix, whose spectra are taken row by row;
    [p[low_idx:high_idx]] then selects rows, that is samples of the
    window, and the MUA value averages every frequency of those rows,
    in the band or not. *)
Theorem window_mua_order2_rows xs W i fs low high overlap X f P :
  (2 <= W)%nat -> (S i * W <= length xs)%nat ->
  detrending (py_slice xs (i * W) (S i * W)) 2 = Ok (Some X) ->
  welch_psd fs low overlap (Some (Arr2 X)) = Ok (f, Some (Arr2 P)) ->
  length P = W /\ has_cols (length f) P = true
  /\ window_mua xs W i fs (low, high) 2 overlap
     = (lo <- band_index low f ;; hi <- band_index high f ;;
        Ok (Qmean (List.concat (py_slice P lo hi)))).
Proof.
  intros HW Hl HX Hw. pose proof (window_length xs W i Hl) as Hws.
  destruct (detrending_order2_shape (py_slice xs (i * W) (S i * W)) X ltac:(lia) HX) as [HlX HcX].
  rewrite Hws in HlX, HcX.
  pose proof (welch_psd_shape _ _ _ _ _ _ Hw) as [HP HcP].
  split; [lia|split; [exact HcP|]].
  unfold window_mua. rewrite HX. cbn [bind option_map].
  rewrite squeeze_square by (rewrite HlX; first [lia | exact HcX]).
  cbn [fst snd]. rewrite Hw. reflexivity.
Qed.
(** C34. Spec section 2, LogMUASignal: every channel the segment
    produces has [floor(len(raw) / W)] samples, [W] the window size the
    first channel's sampling rate and the band's low edge give, and keeps
    the start time of its raw signal; the channels come out in input
    order. *)
Theorem build_logMUA_segment_shape signals band order overlap outs :
  build_logMUA_segment ln signals band order overlap = Ok outs ->
  exists a0 rest W, signals = a0 :: rest
    /\ fft_window_size (as_sampling_rate a0) (fst band) = Ok W /\ W <> 0%Z
    /\ Forall2 (fun a o => lo_t_start o = as_t_start a
                 /\ length (lo_values o) = Z.to_nat (Z.of_nat (length (as_samples a0)) / W))
               signals outs.
Proof.
  unfold build_logMUA_segment. destruct signals as [|a0 rest]; [discriminate|]. cbn [bind].
  destruct (fft_window_size _ _) as [W|e] eqn:EW; cbn [bind]; [|discriminate].
  unfold sample_count. destruct (W =? 0)%Z eqn:EZ; cbn [bind]; [discriminate|].
  rewrite segment_loop_map. intros Hm. exists a0, rest, W.
  split; [reflexivity|split; [exact EW|split; [now apply Z.eqb_neq|]]].
  eapply Forall2_impl; [|exact (map_result_Forall2 _ _ _ Hm)].
  intros a o Ho. destruct (logMUA_estimation_length _ _ _ _ _ _ _ _ _ _ Ho). auto.
Qed.

(** C36. Spec section 4.1, band-range error: when the band's upper edge
    lies above the top of the frequency grid [welch_psd] computes (bin
    [nperseg/2], the Nyquist frequency for an even [nperseg]), every
    window raises [IndexError], whatever the detrending. *)
Theorem window_mua_band_above_grid xs W i fs low high order overlap X f p :
  0 < low ->
  detrending (py_slice xs (i * W) (S i * W)) order = Ok X ->
  welch_psd fs low overlap (option_map squeeze X) = Ok (f, p) ->
  inject_Z (Z.of_nat (nperseg fs low / 2)) * fs / inject_Z (Z.of_nat (nperseg fs low)) < high ->
  window_mua xs W i fs (low, high) order overlap = Err IndexError.
Proof.
  intros Hlow HX Hw Hhigh. unfold window_mua. rewrite HX. cbn [bind fst snd]. rewrite Hw. cbn [bind].
  pose proof (nperseg_pos fs low Hlow (welch_psd_nperseg _ _ _ _ _ _ Hw)) as Hfs.
  rewrite (welch_psd_freqs _ _ _ _ _ _ Hw).
  unfold band_index at 1. destruct (first_at_or_above low _); cbn [bind]; [|reflexivity].
  rewrite band_index_err; [reflexivity|]. apply rfft_freqs_below; [lra|exact Hhigh].
Qed.

(** C37. Spec section 4.1, window size: for a band whose low edge is
    positive and at most half the sampling rate, [FFTWindowSize] is
    [fs / low] rounded (within one half) and at least 2, so the window
    count is well defined. *)
Theorem fft_window_size_bounds fs low :
  0 < low -> 2 * low <= fs ->
  exists W, fft_window_size fs low = Ok W /\ (2 <= W)%Z /\ Qabs (inject_Z W - fs / low) <= 1 # 2.
Proof.
  intros Hlow Hfs. exists (py_round (fs / low)). unfold fft_window_size.
  replace (Qeq_bool low 0) with false
    by (symmetry; apply not_true_iff_false; rewrite Qeq_bool_iff; lra).
  split; [reflexivity|]. pose proof (py_round_bounds (fs / low)) as Hb. split; [|exact Hb].
  apply Qabs_Qle_condition in Hb.
  assert (Hq : 2 <= fs / low) by (apply Qle_shift_div_l; lra).
  assert (H1 : inject_Z 1 < inject_Z (py_round (fs / low))) by (change (inject_Z 1) with 1; lra).
  rewrite <- Zlt_Qlt in H1. lia.
Qed.

(** C38. Window sizes outside that range (spec section 4.1 is silent): a
    zero low edge raises [OverflowError] at [int(round(inf))], and a low
    edge above twice the sampling rate rounds the window to zero samples
    and raises [ZeroDivisionError] at line 28. *)
Theorem build_logMUA_segment_window_errors a0 rest band order overlap e :
  (fst band == 0 /\ ~ as_sampling_rate a0 == 0 /\ e = OverflowError)
  \/ (0 < fst band /\ 0 < as_sampling_rate a0 /\ as_sampling_rate a0 / fst band <= 1 # 2
      /\ e = ZeroDivisionError) ->
  build_logMUA_segment ln (a0 :: rest) band order overlap = Err e.
Proof.
  unfold build_logMUA_segment, fft_window_size. cbn [bind].
  intros [(H0 & Hfs & ->)|(Hlow & Hfs & Hq & ->)].
  - rewrite (proj2 (Qeq_bool_iff _ _) H0).
    replace (Qeq_bool (as_sampling_rate a0) 0) with false
      by (symmetry; apply not_true_iff_false; rewrite Qeq_bool_iff; exact Hfs). reflexivity.
  - replace (Qeq_bool (fst band) 0) with false
      by (symmetry; apply not_true_iff_false; rewrite Qeq_bool_iff; lra). cbn [bind].
    assert (Hq0 : 0 < as_sampling_rate a0 / fst band) by (apply Qlt_shift_div_l; lra).
    rewrite (py_round_small _ (conj Hq0 Hq)). reflexivity.
Qed.

(** C5. The hand-over to state detection: the annotations every logMUA
    channel carries hold [t_stop], the raw signal's stop time, so the
    call of [statevector_to_spiketrains] in fp_up_down_detection.py
    (lines 106-113) binds it, provided the raw annotations use none of
    that call's keywords; the provenance keys use none either. *)
Theorem logMUA_t_stop_handoff signals band order overlap outs :
  build_logMUA_segment ln signals band order overlap = Ok outs ->
  Forall2 (fun a o =>
             existsb (key_in ("state_vector" :: sv2st_explicit_keywords)) (as_annotations a) = false ->
             exists rest, bind_sv2st_call (lo_annotations o) = Ok (as_t_stop a, rest))
          signals outs.
Proof.
  intros Hb. destruct (build_logMUA_segment_channels _ _ _ _ _ _ Hb) as (fs & n & W & rate & Hm).
  eapply Forall2_impl; [|exact Hm]. intros a o Ho. exact (logMUA_estimation_handoff _ _ _ _ _ _ _ _ _ _ Ho).
Qed.

(** C12. The keyword binding of [neo.AnalogSignal(...)] at lines 63-74
    decides what annotations a logMUA channel has (a Python dict, read
    through [d[k]]):
    - the provenance arguments of lines 66-73 are annotations holding
      the raw signal's stop time, the window size, the detrending order,
      the PSD resolution [freq_band[0]], the overlap and [fs];
    - a raw annotation named like a parameter of [AnalogSignal] that the
      call leaves unset ([name], [description], ...) binds that parameter
      and is gone from the annotations;
    - every other raw annotation is kept with its value;
    - once the windows are computed, a raw annotation named like a
      keyword of the call ([units], [t_start], [FFTWindowSize], ...) makes
      Python raise [TypeError] (a keyword given twice). *)
Theorem logMUA_annotations_binding asig fs sample_num W band rate order overlap :
  (forall o, logMUA_estimation ln asig fs sample_num W band rate order overlap = Ok o ->
     lookup_key "t_stop" (lo_annotations o) = Some (AvQ (as_t_stop asig))
     /\ lookup_key "FFTWindowSize" (lo_annotations o) = Some (AvQ (inject_Z W))
     /\ lookup_key "detrending_order" (lo_annotations o) = Some (AvQ (inject_Z (Z.of_nat order)))
     /\ lookup_key "psd_freq_res" (lo_annotations o) = Some (AvQ (fst band))
     /\ lookup_key "psd_overlap" (lo_annotations o) = Some (AvQ overlap)
     /\ lookup_key "psd_fs" (lo_annotations o) = Some (AvQ fs)
     /\ (forall k, In k neo_named_params -> lookup_key k (lo_annotations o) = None)
     /\ (forall k, ~ In k neo_named_params -> ~ In k analogsignal_call_keywords ->
           lookup_key k (lo_annotations o) = lookup_key k (as_annotations asig)))
  /\ (forall MUA, mua_loop (as_samples asig) sample_num W fs band order overlap = Ok MUA ->
        existsb (key_in analogsignal_call_keywords) (as_annotations asig) = true ->
        logMUA_estimation ln asig fs sample_num W band rate order overlap = Err TypeError).
Proof.
  split.
  - intros o Ho. rewrite (logMUA_estimation_annotations _ _ _ _ _ _ _ _ _ _ Ho).
    assert (Hf : filter (fun p => negb (key_in neo_named_params p)) (as_annotations asig)
                 = filter (fun p => negb (existsb (String.eqb (fst p)) neo_named_params))
                          (as_annotations asig)) by reflexivity.
    rewrite Hf. do 6 (split; [reflexivity|]). split; intros k Hk.
    + rewrite lookup_key_app, lookup_provenance_other
        by (intros Hc; cbn in Hk, Hc; intuition congruence).
      rewrite (lookup_key_filter_key (fun k => negb (existsb (String.eqb k) neo_named_params))).
      apply (key_in_In neo_named_params k (AvOther "")) in Hk. unfold key_in in Hk. cbn [fst] in Hk.
      now rewrite Hk.
    + intros Hc. rewrite lookup_key_app, lookup_provenance_other by exact Hc.
      rewrite (lookup_key_filter_key (fun k => negb (existsb (String.eqb k) neo_named_params))).
      destruct (existsb (String.eqb k) neo_named_params) eqn:E; [|reflexivity].
      exfalso. apply Hk. apply (key_in_In _ k (AvOther "")). exact E.
  - intros MUA HM Hc. unfold logMUA_estimation. rewrite HM. cbn [bind].
    unfold bind_analogsignal_call. now rewrite Hc.
Qed.
End Claims.

(** ** Concrete runs, with [flat_welch] and [ln] the identity *)

Definition sample_xs : list Q := [1; 3; 2; 6; 4; 4; 0; 8].

(** The second window detrended at orders 1 and 2, and the spectra
    [flat_welch] gives them. *)
Definition sample_detrended (order : nat) : option array2 :=
  match detrending (py_slice sample_xs 4 8) order with Ok X => X | Err _ => None end.

Definition sample_X2 : array2 := match sample_detrended 2 with Some X => X | None => [] end.

Definition sample_P2 : array2 :=
  match @welch_psd flat_welch 8 2 0 (Some (Arr2 sample_X2)) with
  | Ok (_, Some (Arr2 P)) => P
  | _ => []
  end.

Definition sample_outs : list logmua_out :=
  [mk_logmua_out [Fin (7 # 2); Fin 8] 0 (Fin 2)
     (provenance 1 4 (2, 3) 1 0 8 ++ [("nix_name", AvOther "ch0"); ("channel", AvQ 0)])].

Lemma sample_build :
  @build_logMUA_segment flat_welch (fun q => q) [sample_signal] (2, 3) 1 0 = Ok sample_outs.
Proof. vm_compute. reflexivity. Qed.

Lemma window_mua_refines_witness :
  ((1 <= 1)%nat /\ (2 <= 4)%nat /\ (S 1 * 4 <= length sample_xs)%nat /\ 0 < 2
   /\ @welch_psd flat_welch 8 2 0 (Some (Arr1 (demeaned 1 (py_slice sample_xs (1 * 4) (S 1 * 4)))))
      = Ok (rfft_freqs 8 4, Some (Arr1 [8; 8; 8])))
  /\ @window_mua flat_welch sample_xs 4 1 8 (2, 3) 1 0 = spec_band_power 2 3 (rfft_freqs 8 4) [8; 8; 8].
Proof.
  assert (Hw : @welch_psd flat_welch 8 2 0 (Some (Arr1 (demeaned 1 (py_slice sample_xs (1 * 4) (S 1 * 4)))))
               = Ok (rfft_freqs 8 4, Some (Arr1 [8; 8; 8]))) by (vm_compute; reflexivity).
  assert (H2 : 0 < 2) by lra.
  assert (Hl : (S 1 * 4 <= length sample_xs)%nat) by (cbn; lia).
  split; [repeat split; auto|].
  exact (@window_mua_refines flat_welch sample_xs 4 1 8 2 3 1 0 _ _ (le_n 1) ltac:(lia) Hl H2 Hw).
Defined.

Lemma build_logMUA_segment_shape_witness :
  @build_logMUA_segment flat_welch (fun q => q) [sample_signal] (2, 3) 1 0 = Ok sample_outs
  /\ exists a0 rest W, [sample_signal] = a0 :: rest
       /\ fft_window_size (as_sampling_rate a0) (fst (2, 3)) = Ok W /\ W <> 0%Z
       /\ Forall2 (fun a o => lo_t_start o = as_t_start a
                    /\ length (lo_values o) = Z.to_nat (Z.of_nat (length (as_samples a0)) / W))
                  [sample_signal] sample_outs.
Proof.
  split; [exact sample_build|].
  exact (@build_logMUA_segment_shape flat_welch (fun q => q) [sample_signal] (2, 3) 1 0 _ sample_build).
Defined.

Lemma window_mua_order2_rows_witness :
  ((2 <= 4)%nat /\ (S 1 * 4 <= length sample_xs)%nat
   /\ detrending (py_slice sample_xs (1 * 4) (S 1 * 4)) 2 = Ok (Some sample_X2)
   /\ @welch_psd flat_welch 8 2 0 (Some (Arr2 sample_X2)) = Ok (rfft_freqs 8 4, Some (Arr2 sample_P2)))
  /\ length sample_P2 = 4%nat /\ has_cols (length (rfft_freqs 8 4)) sample_P2 = true
  /\ @window_mua flat_welch sample_xs 4 1 8 (2, 3) 2 0
     = (lo <- band_index 2 (rfft_freqs 8 4) ;; hi <- band_index 3 (rfft_freqs 8 4) ;;
        Ok (Qmean (List.concat (py_slice sample_P2 lo hi)))).
Proof.
  assert (HX : detrending (py_slice sample_xs (1 * 4) (S 1 * 4)) 2 = Ok (Some sample_X2))
    by (vm_compute; reflexivity).
  assert (Hw : @welch_psd flat_welch 8 2 0 (Some (Arr2 sample_X2))
               = Ok (rfft_freqs 8 4, Some (Arr2 sample_P2))) by (vm_compute; reflexivity).
  assert (Hl : (S 1 * 4 <= length sample_xs)%nat) by (cbn; lia).
  split; [repeat split; auto|].
  exact (@window_mua_order2_rows flat_welch sample_xs 4 1 8 2 3 0 _ _ _ ltac:(lia) Hl HX Hw).
Defined.

Lemma window_mua_band_above_grid_witness :
  (0 < 2 /\ detrending (py_slice sample_xs (1 * 4) (S 1 * 4)) 1 = Ok (sample_detrended 1)
   /\ @welch_psd flat_welch 8 2 0 (option_map squeeze (sample_detrended 1))
      = Ok (rfft_freqs 8 4, Some (Arr1 [8; 8; 8]))
   /\ inject_Z (Z.of_nat (nperseg 8 2 / 2)) * 8 / inject_Z (Z.of_nat (nperseg 8 2)) < 5)
  /\ @window_mua flat_welch sample_xs 4 1 8 (2, 5) 1 0 = Err IndexError.
Proof.
  assert (H2 : 0 < 2) by lra.
  assert (HX : detrending (py_slice sample_xs (1 * 4) (S 1 * 4)) 1 = Ok (sample_detrended 1))
    by (vm_compute; reflexivity).
  assert (Hw : @welch_psd flat_welch 8 2 0 (option_map squeeze (sample_detrended 1))
               = Ok (rfft_freqs 8 4, Some (Arr1 [8; 8; 8]))) by (vm_compute; reflexivity).
  assert (Ht : inject_Z (Z.of_nat (nperseg 8 2 / 2)) * 8 / inject_Z (Z.of_nat (nperseg 8 2)) < 5)
    by (vm_compute; reflexivity).
  split; [repeat split; auto|].
  exact (@window_mua_band_above_grid flat_welch sample_xs 4 1 8 2 5 1 0 _ _ _ H2 HX Hw Ht).
Defined.

Lemma fft_window_size_bounds_witness :
  (0 < 2 /\ 2 * 2 <= 8)
  /\ exists W, fft_window_size 8 2 = Ok W /\ (2 <= W)%Z /\ Qabs (inject_Z W - 8 / 2) <= 1 # 2.
Proof.
  assert (H1 : 0 < 2) by lra. assert (H2 : 2 * 2 <= 8) by lra.
  split; [split; assumption|]. exact (fft_window_size_bounds 8 2 H1 H2).
Defined.

Lemma build_logMUA_segment_window_errors_witness :
  ((fst (20, 30) == 0 /\ ~ as_sampling_rate sample_signal == 0 /\ ZeroDivisionError = OverflowError)
   \/ (0 < fst (20, 30) /\ 0 < as_sampling_rate sample_signal
       /\ as_sampling_rate sample_signal / fst (20, 30) <= 1 # 2 /\ ZeroDivisionError = ZeroDivisionError))
  /\ @build_logMUA_segment flat_welch (fun q => q) [sample_signal] (20, 30) 1 0 = Err ZeroDivisionError.
Proof.
  assert (H : (fst (20, 30) == 0 /\ ~ as_sampling_rate sample_signal == 0
               /\ ZeroDivisionError = OverflowError)
              \/ (0 < fst (20, 30) /\ 0 < as_sampling_rate sample_signal
                  /\ as_sampling_rate sample_signal / fst (20, 30) <= 1 # 2
                  /\ ZeroDivisionError = ZeroDivisionError)).
  { right. cbn [fst as_sampling_rate sample_signal]. repeat split; try lra.
    vm_compute. discriminate. }
  split; [exact H|].
  exact (@build_logMUA_segment_window_errors flat_welch (fun q => q) sample_signal [] (20, 30) 1 0 _ H).
Defined.

Lemma logMUA_t_stop_handoff_witness :
  @build_logMUA_segment flat_welch (fun q => q) [sample_signal] (2, 3) 1 0 = Ok sample_outs
  /\ Forall2 (fun a o =>
                existsb (key_in ("state_vector" :: sv2st_explicit_keywords)) (as_annotations a) = false ->
                exists rest, bind_sv2st_call (lo_annotations o) = Ok (as_t_stop a, rest))
             [sample_signal] sample_outs.
Proof.
  split; [exact sample_build|].
  exact (@logMUA_t_stop_handoff flat_welch (fun q => q) [sample_signal] (2, 3) 1 0 _ sample_build).
Defined.

(** [sample_signal] with a [units] annotation. *)
Definition units_signal : analog_signal :=
  mk_analog_signal (as_samples sample_signal) 0 1 8 [("units", AvOther "mV")].

Lemma logMUA_annotations_binding_witness :
  (exists o, @logMUA_estimation flat_welch (fun q => q) sample_signal 8 2 4 (2, 3) (Fin 2) 1 0 = Ok o
     /\ lookup_key "t_stop" (lo_annotations o) = Some (AvQ 1)
     /\ lookup_key "channel" (lo_annotations o) = Some (AvQ 0))
  /\ @logMUA_estimation flat_welch (fun q => q) units_signal 8 2 4 (2, 3) (Fin 2) 1 0 = Err TypeError.
Proof.
  destruct (@logMUA_estimation flat_welch (fun q => q) sample_signal 8 2 4 (2, 3) (Fin 2) 1 0)
    as [o|e] eqn:Ho; [|vm_compute in Ho; discriminate].
  destruct (@logMUA_annotations_binding flat_welch (fun q => q) sample_signal 8 2 4 (2, 3) (Fin 2) 1 0)
    as [Hok _].
  destruct (Hok o Ho) as (Ht & _ & _ & _ & _ & _ & _ & Hother).
  split.
  - exists o. split; [reflexivity|]. split; [exact Ht|].
    rewrite Hother by (cbn; intuition congruence). reflexivity.
  - destruct (@mua_loop flat_welch (as_samples units_signal) 2 4 8 (2, 3) 1 0) as [MUA|e] eqn:HM;
      [|vm_compute in HM; discriminate].
    exact (proj2 (@logMUA_annotations_binding flat_welch (fun q => q) units_signal 8 2 4 (2, 3) (Fin 2) 1 0)
             MUA HM eq_refl).
Defined.
