(* ===== verification/Plot.v ===== *)
(** * Plot: the transition windows of plot_avg_transitions.py

    The computation of [plot_avg_transisitons] (lines 8-28 of
    src/wavesnakephant/scripts/plot_avg_transitions.py) before it draws,
    as [transition_averages].  For every index [i] where the state
    changes, more than [slope_window] samples from both ends, the logMUA
    window [logMUA[i-w:i+w]] is collected as an UP or a DOWN transition
    when it has a non-zero sample.
    - [state_vector[i-1]] at [i = 0] is Python's last element.
    - [slope_window] is a Python integer, so its slices use Python's
      negative indices ([py_slice_z]).
    - The windows are averaged position by position ([np.mean(...,
      axis=0)], [avg_windows]) on floats with [nan] and infinities.
    The drawing (lines 26-44) is in [Figure], the main block in
    [PlotMain]. *)

From Stdlib Require Import List Lia Bool Arith ZArith QArith.
From S2P Require Import Prelude Values LogMUA.
Import ListNotations.

(** ** Python slicing and indexing with integers *)

(** A slice bound [a] of [l[a:b]]: negative bounds count from the end, and
    both are clamped to the list. *)
Definition py_bound (len : nat) (a : Z) : nat :=
  if (a <? 0)%Z then Z.to_nat (Z.max 0 (Z.of_nat len + a)) else Nat.min (Z.to_nat a) len.

Definition py_slice_z {A} (l : list A) (a b : Z) : list A :=
  let s := py_bound (length l) a in
  let e := py_bound (length l) b in
  firstn (e - s) (skipn s l).

(** [l[k]] for an integer [k]: [IndexError] outside [-len, len). *)
Definition py_index {A} (l : list A) (k : Z) : result A :=
  if (0 <=? k)%Z && (k <? Z.of_nat (length l))%Z then
    match nth_error l (Z.to_nat k) with Some x => Ok x | None => Err IndexError end
  else if (- Z.of_nat (length l) <=? k)%Z && (k <? 0)%Z then
    match nth_error l (Z.to_nat (Z.of_nat (length l) + k)) with Some x => Ok x | None => Err IndexError end
  else Err IndexError.

(** ** The selection loop (lines 10-22) *)

(** [x.any()] on a float array: some element is non-zero ([nan] is). *)
Definition fany (l : list fval) : bool :=
  existsb (fun v => match v with Fin q => negb (Qeq_bool q 0) | _ => true end) l.

(** [state_vector[i-1]], with Python's wrap-around at [i = 0]. *)
Definition prev_state (sv : list bool) (i : nat) : bool :=
  match i with
  | O => last sv false
  | S j => nth j sv false
  end.

(** [logMUA[i-slope_window:i+slope_window]]. *)
Definition window_at (logMUA : list fval) (w : Z) (i : nat) : list fval :=
  py_slice_z logMUA (Z.of_nat i - w) (Z.of_nat i + w).

(** [i > slope_window and i < len(state_vector)-slope_window]. *)
Definition inner_index (sv : list bool) (w : Z) (i : nat) : bool :=
  (w <? Z.of_nat i)%Z && (Z.of_nat i <? Z.of_nat (length sv) - w)%Z.

(** One iteration of the loop of lines 15-22. *)
Definition select_step (logMUA : list fval) (sv : list bool) (w : Z)
    (acc : list (list fval) * list (list fval)) (i : nat) : list (list fval) * list (list fval) :=
  let '(up_transitions, down_transitions) := acc in
  let bin_state := nth i sv false in
  if negb (Bool.eqb (prev_state sv i) bin_state) && inner_index sv w i then
    let window := window_at logMUA w i in
    if bin_state && fany window then (up_transitions ++ [window], down_transitions)
    else if fany window then (up_transitions, down_transitions ++ [window])
    else (up_transitions, down_transitions)
  else (up_transitions, down_transitions).

(** Lines 10-22: [for (i, bin_state) in enumerate(state_vector)]. *)
Definition transition_windows (logMUA : list fval) (sv : list bool) (w : Z)
    : list (list fval) * list (list fval) :=
  fold_left (select_step logMUA sv w) (seq 0 (length sv)) ([], []).

(** ** The windows, by index *)

(** Index [i] is a change of state into [b], far enough from both ends. *)
Definition change_into (sv : list bool) (w : Z) (b : bool) (i : nat) : bool :=
  Bool.eqb (nth i sv false) b && negb (Bool.eqb (prev_state sv i) b) && inner_index sv w i.

Definition windows_at (logMUA : list fval) (sv : list bool) (w : Z) (b : bool) : list (list fval) :=
  filter fany (map (window_at logMUA w) (filter (change_into sv w b) (seq 0 (length sv)))).

(** ** Lemmas *)

Lemma select_fold logMUA sv w l U D :
  fold_left (select_step logMUA sv w) l (U, D)
  = (U ++ filter fany (map (window_at logMUA w) (filter (change_into sv w true) l)),
     D ++ filter fany (map (window_at logMUA w) (filter (change_into sv w false) l))).
Proof.
  revert U D; induction l as [|i l IH]; intros U D; cbn [fold_left filter map]; [now rewrite !app_nil_r|].
  assert (Hc : forall b, change_into sv w b i
                 = Bool.eqb (nth i sv false) b && negb (Bool.eqb (prev_state sv i) b)
                   && inner_index sv w i) by reflexivity.
  rewrite !Hc. unfold select_step at 2.
  destruct (nth i sv false), (prev_state sv i), (inner_index sv w i),
    (fany (window_at logMUA w i)) eqn:Ef;
    cbn [Bool.eqb negb andb filter map]; rewrite ?Ef, IH; now rewrite <- ?app_assoc.
Qed.

Lemma py_slice_z_nat {A} (l : list A) a b :
  (0 <= a)%Z -> (0 <= b)%Z -> (Z.to_nat b <= length l)%nat ->
  py_slice_z l a b = py_slice l (Z.to_nat a) (Z.to_nat b).
Proof.
  intros Ha Hb Hl. unfold py_slice_z, py_slice, py_bound.
  replace (a <? 0)%Z with false by (symmetry; apply Z.ltb_ge; lia).
  replace (b <? 0)%Z with false by (symmetry; apply Z.ltb_ge; lia).
  replace (Nat.min (Z.to_nat b) (length l)) with (Z.to_nat b) by lia.
  destruct (Nat.le_gt_cases (Z.to_nat a) (length l)).
  - now replace (Nat.min (Z.to_nat a) (length l)) with (Z.to_nat a) by lia.
  - replace (Nat.min (Z.to_nat a) (length l)) with (length l) by lia.
    rewrite !skipn_all2 by lia. now rewrite !firstn_nil.
Qed.

Lemma change_into_window (logMUA : list fval) sv w b i :
  (0 <= w)%Z -> (length sv <= length logMUA)%nat -> change_into sv w b i = true ->
  length (window_at logMUA w i) = Z.to_nat (2 * w).
Proof.
  intros Hw Hl Hc. unfold change_into, inner_index in Hc. rewrite !andb_true_iff in Hc.
  destruct Hc as [_ [H1 H2]]. apply Z.ltb_lt in H1, H2.
  unfold window_at. rewrite py_slice_z_nat by lia. rewrite py_slice_length; lia.
Qed.

Lemma windows_at_length logMUA sv w b :
  (0 <= w)%Z -> (length sv <= length logMUA)%nat ->
  Forall (fun win => length win = Z.to_nat (2 * w)) (windows_at logMUA sv w b).
Proof.
  intros Hw Hl. unfold windows_at. apply Forall_forall. intros win Hin.
  apply filter_In in Hin as [Hin _]. apply in_map_iff in Hin as (i & <- & Hi).
  apply filter_In in Hi as [_ Hi]. now apply (change_into_window logMUA sv w b i Hw Hl).
Qed.

(** The windows collected are those of [windows_at], each [2w] long. *)
Lemma transition_windows_spec logMUA sv w :
  (0 <= w)%Z -> (length sv <= length logMUA)%nat ->
  transition_windows logMUA sv w = (windows_at logMUA sv w true, windows_at logMUA sv w false)
  /\ Forall (fun win => length win = Z.to_nat (2 * w))
            (fst (transition_windows logMUA sv w) ++ snd (transition_windows logMUA sv w)).
Proof.
  intros Hw Hl. assert (E : transition_windows logMUA sv w
                            = (windows_at logMUA sv w true, windows_at logMUA sv w false))
    by (unfold transition_windows; now rewrite select_fold).
  split; [exact E|]. rewrite E. apply Forall_app. split; now apply windows_at_length.
Qed.

Definition sample_plot_logMUA : list fval :=
  [Fin (-4); Fin (-4); Fin (-1); Fin (-1); Fin (-1); Fin (-4); Fin (-4); Fin 0; Fin (-1); Fin (-4)].

Definition sample_plot_sv : list bool :=
  [false; false; true; true; true; false; false; false; true; false].

(** The run above: UP windows at 2 and 8, DOWN windows at 5; the change
    at 9 is too close to the end. *)
Example sample_transition_windows :
  transition_windows sample_plot_logMUA sample_plot_sv 1
  = ([[Fin (-4); Fin (-1)]; [Fin 0; Fin (-1)]], [[Fin (-1); Fin (-4)]]).
Proof. vm_compute. reflexivity. Qed.

(** A negative [slope_window] turns the slices around: at [i = 1] and
    [slope_window = -1] the slice is [logMUA[2:0]], empty, but at [i = 0]
    it is [logMUA[1:-1]], every sample but the two ends, and the change
    between the last and the first sample (Python's [state_vector[-1]]) is
    collected. *)
Example negative_slope_window :
  transition_windows [Fin 1; Fin 2; Fin 3] [false; true; true] (-1)
  = ([], [[Fin 2]]).
Proof. vm_compute. reflexivity. Qed.

(** ** The averages and the time axis (lines 13, 23-24, 28) *)

(** Float addition with infinities and [nan]. *)
Definition fadd (a b : fval) : fval :=
  match a, b with
  | NaN, _ | _, NaN => NaN
  | PosInf, NegInf | NegInf, PosInf => NaN
  | PosInf, _ | _, PosInf => PosInf
  | NegInf, _ | _, NegInf => NegInf
  | Fin x, Fin y => Fin (x + y)
  end.

(** [c * v] for a finite [c]: [0 * inf] is [nan]. *)
Definition fscale (c : Q) (v : fval) : fval :=
  match v with
  | Fin q => Fin (c * q)
  | NaN => NaN
  | PosInf => if Qeq_bool c 0 then NaN else if Qltb 0 c then PosInf else NegInf
  | NegInf => if Qeq_bool c 0 then NaN else if Qltb 0 c then NegInf else PosInf
  end.

(** The mean of [n > 0] floats. *)
Definition fmean (l : list fval) : fval :=
  fscale (1 / inject_Z (Z.of_nat (length l))) (fold_right fadd (Fin 0) l).

(** [np.mean(windows, axis=0)]: the mean of every position over the
    windows. An empty list gives [nan] ([None]), and windows of unequal
    lengths cannot form an array ([ValueError], numpy 1.24 and later). *)
Definition avg_windows (ws : list (list fval)) : result (option (list fval)) :=
  match ws with
  | [] => Ok None
  | w0 :: _ =>
      if rectangular ws
      then Ok (Some (map (fun j => fmean (map (fun w => nth j w NaN) ws)) (seq 0 (length w0))))
      else Err ValueError
  end.

(** What lines 8-28 compute for the drawing: the time axis
    [(np.arange(2*slope_window)-slope_window)*MUA_time_res], the windows
    collected (lines 10-11) and their averages (lines 23-24). *)
Record plot_data := mk_plot_data {
  pd_time : list fval;
  pd_up_transitions : list (list fval);
  pd_down_transitions : list (list fval);
  pd_avg_up : option (list fval);
  pd_avg_down : option (list fval)
}.

(** Lines 10-24 and the time axis of line 28, for a logMUA signal given
    by its samples and time span. *)
Definition transition_averages (logMUA : list fval) (t_start t_stop : Q) (state_vector : list bool)
    (slope_window : Z) : result plot_data :=
  let MUA_time_res := fdiv (t_stop - t_start) (inject_Z (Z.of_nat (length logMUA))) in
  let '(up_transitions, down_transitions) := transition_windows logMUA state_vector slope_window in
  avg_up_slope <- avg_windows up_transitions ;;
  avg_down_slope <- avg_windows down_transitions ;;
  let time := map (fun k => fscale (inject_Z (Z.of_nat k) - inject_Z slope_window) MUA_time_res)
                  (seq 0 (Z.to_nat (2 * slope_window))) in
  Ok (mk_plot_data time up_transitions down_transitions avg_up_slope avg_down_slope).

(** ** What the averages are *)

(** [o] is the position-wise mean of the windows [ws] of [n] samples:
    [None] ([nan]) when there are none. *)
Definition averages (ws : list (list fval)) (n : nat) (o : option (list fval)) : Prop :=
  match o with
  | None => ws = []
  | Some a => ws <> [] /\ length a = n
              /\ forall j, (j < n)%nat -> nth j a NaN = fmean (map (fun win => nth j win NaN) ws)
  end.

Lemma avg_windows_spec ws n :
  Forall (fun win => length win = n) ws -> exists o, avg_windows ws = Ok o /\ averages ws n o.
Proof.
  intros Hf. destruct ws as [|w0 ws]; [now exists None|].
  assert (H0 : length w0 = n) by now inversion Hf.
  pose proof (rectangular_const _ n Hf) as Hb.
  cbn [avg_windows]. rewrite Hb. eexists; split; [reflexivity|].
  cbn [averages]. rewrite H0. split; [discriminate|]. rewrite length_map, length_seq.
  split; [reflexivity|]. intros j Hj.
  now rewrite nth_map_seq.
Qed.

(** C23. plot_avg_transitions.py lines 10-28: for a non-negative
    [slope_window] and a logMUA at least as long as the state vector, the
    computation of [plot_avg_transisitons] raises nothing.  The UP (DOWN)
    windows it collects are, in order, the [2w]-sample slices
    [logMUA[i-w:i+w]] at the changes into UP (DOWN) more than [w] samples
    from both ends that have a non-zero sample ([windows_at]); their
    curve is the position-wise mean, or [nan] when there is none; and
    the time axis has the [2w] points [(k - w) * MUA_time_res] with
    [MUA_time_res = (t_stop - t_start) / len(logMUA)]. *)
Theorem transition_averages_spec logMUA t_start t_stop sv w :
  (0 <= w)%Z -> (length sv <= length logMUA)%nat ->
  exists up down,
    transition_averages logMUA t_start t_stop sv w
    = Ok (mk_plot_data
            (map (fun k => fscale (inject_Z (Z.of_nat k) - inject_Z w)
                                  (fdiv (t_stop - t_start) (inject_Z (Z.of_nat (length logMUA)))))
                 (seq 0 (Z.to_nat (2 * w))))
            (windows_at logMUA sv w true) (windows_at logMUA sv w false) up down)
    /\ averages (windows_at logMUA sv w true) (Z.to_nat (2 * w)) up
    /\ averages (windows_at logMUA sv w false) (Z.to_nat (2 * w)) down.
Proof.
  intros Hw Hl. unfold transition_averages.
  rewrite (proj1 (transition_windows_spec logMUA sv w Hw Hl)).
  destruct (avg_windows_spec _ _ (windows_at_length logMUA sv w true Hw Hl)) as (up & Hu & Au).
  destruct (avg_windows_spec _ _ (windows_at_length logMUA sv w false Hw Hl)) as (dn & Hd & Ad).
  exists up, dn. rewrite Hu, Hd. now split.
Qed.

Lemma transition_averages_spec_witness :
  ((0 <= 1)%Z /\ (length sample_plot_sv <= length sample_plot_logMUA)%nat)
  /\ exists up down,
    transition_averages sample_plot_logMUA 0 5 sample_plot_sv 1
    = Ok (mk_plot_data
            (map (fun k => fscale (inject_Z (Z.of_nat k) - inject_Z 1)
                                  (fdiv (5 - 0) (inject_Z (Z.of_nat (length sample_plot_logMUA)))))
                 (seq 0 (Z.to_nat (2 * 1))))
            (windows_at sample_plot_logMUA sample_plot_sv 1 true)
            (windows_at sample_plot_logMUA sample_plot_sv 1 false) up down)
    /\ averages (windows_at sample_plot_logMUA sample_plot_sv 1 true) (Z.to_nat (2 * 1)) up
    /\ averages (windows_at sample_plot_logMUA sample_plot_sv 1 false) (Z.to_nat (2 * 1)) down.
Proof.
  assert (H0 : (0 <= 1)%Z) by lia.
  assert (H : (length sample_plot_sv <= length sample_plot_logMUA)%nat) by (cbn; lia).
  split; [exact (conj H0 H)|].
  exact (transition_averages_spec sample_plot_logMUA 0 5 sample_plot_sv 1 H0 H).
Defined.

(** With no UP change far enough from the ends there is no UP window, and
    the mean of no window is [nan]. *)
Example plot_no_up_window :
  exists t, transition_averages sample_plot_logMUA 0 5 sample_plot_sv 4
            = Ok (mk_plot_data t [] [[Fin (-4); Fin (-1); Fin (-1); Fin (-1); Fin (-4); Fin (-4); Fin 0; Fin (-1)]] None (Some [Fin (-4); Fin (-1); Fin (-1); Fin (-1); Fin (-4); Fin (-4); Fin 0; Fin (-1)])).
Proof. eexists. vm_compute. reflexivity. Qed.

(** A logMUA shorter than the state vector gives windows cut at its end;
    windows of unequal lengths make [np.mean] raise [ValueError]. *)
Example plot_ragged_windows :
  transition_averages [Fin 1; Fin 2; Fin 3; Fin 4] 0 1 [false; false; true; false; true; false; false] 1
  = Err ValueError.
Proof. vm_compute. reflexivity. Qed.
