(* ===== verification/Figure.v ===== *)
(** * Figure: what plot_avg_transisitons draws (lines 26-44)

    The two panels of src/wavesnakephant/scripts/plot_avg_transitions.py.
    Each panel plots a curve against the time axis (lines 28 and 37) and
    shades the mean plus or minus the standard deviation of the windows
    (lines 29-31 and 38-40).  The data handed to matplotlib is modelled,
    together with the two checks matplotlib makes on it:
    - [ax.plot(x, y)] raises [ValueError] when [x] and [y] differ in their
      first dimension; a mean over no window is the scalar [nan], which
      [ax.plot] turns into an array of one element;
    - [ax.fill_between(x, y1, y2)] raises [ValueError] when the three
      arrays do not broadcast together.
    [np.sqrt] is a section variable [sqrt] on the non-negative rationals,
    like [ln] for [np.log].  The figure object, its size, colours of the
    shading and the dashed line at 0 carry no data and are records of
    strings here. *)

From Stdlib Require Import String.
From Stdlib Require Import List Lia Bool Arith ZArith QArith.
From S2P Require Import Prelude Values LogMUA Plot.
Import ListNotations.
Open Scope list_scope.

(** ** Float arithmetic of [np.std] *)

Definition fsub (a b : fval) : fval := fadd a (fscale (-1) b).

(** [x * x]. *)
Definition fsquare (v : fval) : fval :=
  match v with
  | Fin q => Fin (q * q)
  | NaN => NaN
  | PosInf | NegInf => PosInf
  end.

Section Figure.
Variable sqrt : Q -> Q.

(** [np.sqrt]: [nan] below zero. *)
Definition fsqrt (v : fval) : fval :=
  match v with
  | Fin q => if Qle_bool 0 q then Fin (sqrt q) else NaN
  | PosInf => PosInf
  | NegInf | NaN => NaN
  end.

(** [np.std(windows, axis=0)]: at every position, the square root of the
    mean squared deviation from the mean; [nan] ([None]) for no window.
    It is only evaluated on windows [np.mean] has accepted, all of the
    first one's length. *)
Definition std_windows (ws : list (list fval)) : option (list fval) :=
  match ws with
  | [] => None
  | w0 :: _ =>
      Some (map (fun j => let col := map (fun w => nth j w NaN) ws in
                          fsqrt (fmean (map (fun x => fsquare (fsub x (fmean col))) col)))
                (seq 0 (length w0)))
  end.

(** ** matplotlib's checks *)

(** The first dimension of a curve; the scalar [nan] counts as one. *)
Definition first_dim (y : option (list fval)) : nat :=
  match y with
  | None => 1
  | Some a => length a
  end.

(** [ax.plot(x, y)]. *)
Definition ax_plot (x : list fval) (y : option (list fval)) : result unit :=
  if Nat.eqb (length x) (first_dim y) then Ok tt else Err ValueError.

(** [np.squeeze(avg op std)], position by position; a scalar with a scalar. *)
Definition fband (op : fval -> fval -> fval) (avg std : option (list fval)) : option (list fval) :=
  match avg, std with
  | Some a, Some s => Some (map (fun p => op (fst p) (snd p)) (combine a s))
  | _, _ => None
  end.

(** Arrays of these lengths broadcast together: all the lengths other
    than one are equal. *)
Definition broadcastable (ds : list nat) : bool :=
  match filter (fun d => negb (Nat.eqb d 1)) ds with
  | [] => true
  | d :: r => forallb (Nat.eqb d) r
  end.

(** [ax.fill_between(x, y1, y2)]. *)
Definition fill_between (x : list fval) (y1 y2 : option (list fval)) : result unit :=
  if broadcastable [length x; first_dim y1; first_dim y2] then Ok tt else Err ValueError.

(** ** The panels *)

(** One panel: its curve, its shading, its colour and its labels. *)
Record panel := mk_panel {
  pn_time : list fval;
  pn_curve : option (list fval);
  pn_lower : option (list fval);
  pn_upper : option (list fval);
  pn_color : string;
  pn_xlabel : string;
  pn_ylabel : option string;
  pn_title : string
}.

(** Lines 28-35 (37-43): plot, shade, then label. *)
Definition draw_panel (time : list fval) (avg std : option (list fval)) (color : string)
    (ylabel : option string) (title : string) : result panel :=
  _ <- ax_plot time avg ;;
  let lower := fband fsub avg std in
  let upper := fband fadd avg std in
  _ <- fill_between time lower upper ;;
  Ok (mk_panel time avg lower upper color "time [s]" ylabel title).

Record figure := mk_figure {
  fig_up : panel;
  fig_down : panel
}.

(** Lines 8-44: the computation of [Plot], then the UP panel, then the
    DOWN panel. *)
Definition plot_avg_transisitons (logMUA : list fval) (t_start t_stop : Q) (state_vector : list bool)
    (slope_window : Z) : result figure :=
  d <- transition_averages logMUA t_start t_stop state_vector slope_window ;;
  up <- draw_panel (pd_time d) (pd_avg_up d) (std_windows (pd_up_transitions d)) "b"
                   (Some "log(MUA)") "Up transition" ;;
  down <- draw_panel (pd_time d) (pd_avg_down d) (std_windows (pd_down_transitions d)) "r"
                     None "Down transition" ;;
  Ok (mk_figure up down).
End Figure.

(** ** Lemmas *)

Lemma averages_none ws n : averages ws n None <-> ws = [].
Proof. reflexivity. Qed.

Lemma std_windows_length sqrt ws n :
  ws <> [] -> Forall (fun win => length win = n) ws ->
  exists s, std_windows sqrt ws = Some s /\ length s = n.
Proof.
  destruct ws as [|w0 ws]; [congruence|]. intros _ Hf. inversion Hf; subst.
  eexists; split; [reflexivity|]. now rewrite length_map, length_seq.
Qed.

Lemma broadcastable_same n : broadcastable [n; n; n] = true.
Proof.
  unfold broadcastable. cbn [filter]. destruct (Nat.eqb n 1); cbn; [reflexivity|].
  now rewrite Nat.eqb_refl.
Qed.

Lemma draw_panel_some time a s n c y t :
  length time = n -> length a = n -> length s = n ->
  exists p, draw_panel time (Some a) (Some s) c y t = Ok p.
Proof.
  intros Ht Ha Hs. unfold draw_panel, ax_plot, fill_between, first_dim, fband.
  rewrite !length_map, length_combine, Ht, Ha, Hs, Nat.min_id, Nat.eqb_refl, broadcastable_same.
  eexists; reflexivity.
Qed.

Lemma draw_panel_none time s c y t :
  (length time <> 1)%nat -> draw_panel time None s c y t = Err ValueError.
Proof.
  intros Ht. unfold draw_panel, ax_plot, first_dim.
  now replace (Nat.eqb (length time) 1) with false by (symmetry; apply Nat.eqb_neq; exact Ht).
Qed.

(** A panel on windows of [n <> 1] samples is drawn exactly when there is
    a window. *)
Lemma panel_of_windows sqrt time ws avg n c y t :
  length time = n -> (n <> 1)%nat -> Forall (fun win => length win = n) ws -> averages ws n avg ->
  (ws <> [] -> exists p, draw_panel time avg (std_windows sqrt ws) c y t = Ok p)
  /\ (ws = [] -> draw_panel time avg (std_windows sqrt ws) c y t = Err ValueError).
Proof.
  intros Ht Hn Hf Ha. split; intros Hws.
  - destruct avg as [a|]; [|contradiction].
    destruct Ha as (_ & Hla & _). destruct (std_windows_length sqrt ws n Hws Hf) as (s & -> & Hs).
    now apply (draw_panel_some _ _ _ n).
  - destruct avg as [a|]; [now destruct Ha|]. apply draw_panel_none. lia.
Qed.

Section Claims.
Variable sqrt : Q -> Q.

(** C32. plot_avg_transitions.py lines 28 and 37: for a non-negative
    [slope_window] and a logMUA at least as long as the state vector,
    the figure is drawn exactly when there is at least one UP window and
    one DOWN window ([windows_at]).  With none on one side, [np.mean]
    of the empty list is the scalar [nan], and [ax.plot] of the
    [2w]-point time axis against it raises [ValueError]. *)
Theorem plot_avg_transitions_draws logMUA t_start t_stop sv w :
  (0 <= w)%Z -> (length sv <= length logMUA)%nat ->
  (windows_at logMUA sv w true <> [] -> windows_at logMUA sv w false <> [] ->
   exists fig, plot_avg_transisitons sqrt logMUA t_start t_stop sv w = Ok fig)
  /\ (windows_at logMUA sv w true = [] \/ windows_at logMUA sv w false = [] ->
      plot_avg_transisitons sqrt logMUA t_start t_stop sv w = Err ValueError).
Proof.
  intros Hw Hl. unfold plot_avg_transisitons, transition_averages.
  rewrite (proj1 (transition_windows_spec logMUA sv w Hw Hl)).
  pose proof (windows_at_length logMUA sv w true Hw Hl) as HU.
  pose proof (windows_at_length logMUA sv w false Hw Hl) as HD.
  destruct (avg_windows_spec _ _ HU) as (au & -> & AU).
  destruct (avg_windows_spec _ _ HD) as (ad & -> & AD). cbn [bind pd_time pd_avg_up pd_avg_down
    pd_up_transitions pd_down_transitions].
  assert (Hn : (Z.to_nat (2 * w) <> 1)%nat) by lia.
  assert (Ht : length (map (fun k => fscale (inject_Z (Z.of_nat k) - inject_Z w)
                                      (fdiv (t_stop - t_start) (inject_Z (Z.of_nat (length logMUA)))))
                           (seq 0 (Z.to_nat (2 * w)))) = Z.to_nat (2 * w))
    by now rewrite length_map, length_seq.
  destruct (panel_of_windows sqrt _ _ _ _ "b" (Some "log(MUA)") "Up transition" Ht Hn HU AU) as [U1 U2].
  destruct (panel_of_windows sqrt _ _ _ _ "r" None "Down transition" Ht Hn HD AD) as [D1 D2].
  split.
  - intros NU ND. destruct (U1 NU) as [pu ->]. destruct (D1 ND) as [pd ->]. now eexists.
  - intros [EU|ED]; [now rewrite (U2 EU)|].
    destruct (windows_at logMUA sv w true) as [|u us] eqn:EU; [now rewrite (U2 eq_refl)|].
    destruct (U1 ltac:(discriminate)) as [pu ->]. now rewrite (D2 ED).
Qed.
End Claims.

Lemma plot_avg_transitions_draws_witness :
  ((0 <= 1)%Z /\ (length sample_plot_sv <= length sample_plot_logMUA)%nat
   /\ windows_at sample_plot_logMUA sample_plot_sv 1 true <> []
   /\ windows_at sample_plot_logMUA sample_plot_sv 1 false <> [])
  /\ exists fig, plot_avg_transisitons (fun q => q) sample_plot_logMUA 0 5 sample_plot_sv 1 = Ok fig.
Proof.
  assert (H0 : (0 <= 1)%Z) by lia.
  assert (H : (length sample_plot_sv <= length sample_plot_logMUA)%nat) by (cbn; lia).
  assert (HU : windows_at sample_plot_logMUA sample_plot_sv 1 true <> []) by (vm_compute; discriminate).
  assert (HD : windows_at sample_plot_logMUA sample_plot_sv 1 false <> []) by (vm_compute; discriminate).
  split; [exact (conj H0 (conj H (conj HU HD)))|].
  exact (proj1 (plot_avg_transitions_draws (fun q => q) sample_plot_logMUA 0 5 sample_plot_sv 1 H0 H) HU HD).
Defined.

(** At [slope_window = 4] the sample run has a DOWN window but no UP
    window: the script stops at line 28. *)
Example plot_no_up_window_fails :
  plot_avg_transisitons (fun q => q) sample_plot_logMUA 0 5 sample_plot_sv 4 = Err ValueError.
Proof. vm_compute. reflexivity. Qed.

(** At [slope_window = 0] every window is empty, so neither curve has a
    window and the plot fails at its first call. *)
Example plot_zero_window_fails :
  plot_avg_transisitons (fun q => q) sample_plot_logMUA 0 5 sample_plot_sv 0 = Err ValueError.
Proof. vm_compute. reflexivity. Qed.
