(* ===== verification/PlotMain.v ===== *)
(** * PlotMain: the main block of plot_avg_transitions.py (lines 47-72)

    The options (lines 48-57) are all declared with [nargs=1]. A given
    option is a list of one value, and an absent one is its [default]
    unsubscripted, or [None] when there is none.  The main block then
    does, in order:
    - it loads the logMUA segment and the state vectors (lines 59-60);
    - it picks channel [channel[0]-1] as a Python index (lines 62-63);
    - it draws ([Figure.plot_avg_transisitons], line 62);
    - it shows the figure (lines 66-67);
    - it makes the output directory (lines 69-71) and saves (line 72).
    Reading the files ([load_segment], [np.load]) and the file system's
    [os.path.exists] are section variables: they are what the files and
    directories hold.  [os.path.dirname] is modelled as posixpath defines
    it, and [os.makedirs('')] raises [FileNotFoundError].  Whether
    matplotlib knows the [--format] is not modelled. *)

From Stdlib Require Import String Ascii.
From Stdlib Require Import List Lia Bool Arith ZArith QArith.
From S2P Require Import Prelude Values LogMUA Plot Figure.
Import ListNotations.
Open Scope list_scope.

(** ** Options *)

(** An option declared with [nargs=1]: the list of the one value given,
    the bare [default] when it is absent, or [None] ([Unset]) when it has
    no default. *)
Inductive cli_arg1 (A : Type) : Type :=
| Given (l : list A)
| Default (a : A)
| Unset.
Arguments Given {A} l.
Arguments Default {A} a.
Arguments Unset {A}.

(** [args.x[0]]: subscripting a bare [int] or [None] raises [TypeError]. *)
Definition arg_first {A} (a : cli_arg1 A) : result A :=
  match a with
  | Given l => match l with x :: _ => Ok x | [] => Err IndexError end
  | Default _ | Unset => Err TypeError
  end.

(** The parsed arguments of lines 48-57. *)
Record plot_args := mk_plot_args {
  output : cli_arg1 string;
  logMUA_estimate : cli_arg1 string;
  state_vector : cli_arg1 string;
  slope_window : cli_arg1 Z;
  show_figure : cli_arg1 Z;
  format : cli_arg1 string;
  channel : cli_arg1 Z
}.

(** The defaults of lines 52-55. *)
Definition default_slope_window : cli_arg1 Z := Default 50%Z.
Definition default_show_figure : cli_arg1 Z := Default 0%Z.
Definition default_channel : cli_arg1 Z := Default 1%Z.

(** The arguments of a command line that gives no option. *)
Definition no_options : plot_args :=
  mk_plot_args Unset Unset Unset default_slope_window default_show_figure Unset default_channel.

(** ** [os.path.dirname] *)

Definition is_sep (c : ascii) : bool := Ascii.eqb c "/"%char.

(** [p.rfind('/') + 1], scanning from position [pos]. *)
Fixpoint after_last_sep (l : list ascii) (pos i : nat) : nat :=
  match l with
  | [] => i
  | c :: l' => after_last_sep l' (S pos) (if is_sep c then S pos else i)
  end.

Fixpoint drop_seps (l : list ascii) : list ascii :=
  match l with
  | c :: l' => if is_sep c then drop_seps l' else l
  | [] => []
  end.

(** posixpath.dirname: the part before the last separator, with its
    trailing separators removed unless it is only separators. *)
Definition dirname (p : string) : string :=
  let l := list_ascii_of_string p in
  let head := firstn (after_last_sep l 0 0) l in
  let head := if negb (forallb is_sep head) then rev (drop_seps (rev head)) else head in
  string_of_list_ascii head.

(** ** The main block *)

(** A loaded logMUA signal: its samples and its time span. *)
Definition plot_signal : Type := (list fval * Q * Q)%type.

(** What the script leaves behind: the figure, whether it was shown, the
    directory it made, and the file name and format it saved to. *)
Record plot_effects := mk_plot_effects {
  pe_figure : figure;
  pe_shown : bool;
  pe_made_dir : option string;
  pe_saved : string * string
}.

Section Main.
Variable sqrt : Q -> Q.
Variable load_segment : string -> list plot_signal.
Variable np_load : string -> list (list bool).
Variable path_exists : string -> bool.

(** [os.path.exists(d)] then [os.makedirs(d)] (lines 70-71): [''] never
    exists and cannot be made. *)
Definition make_data_dir (data_dir : string) : result (option string) :=
  if String.eqb data_dir "" then Err FileNotFoundError
  else if path_exists data_dir then Ok None
  else Ok (Some data_dir).

(** Lines 59-67: load, select the channel (the keyword arguments of
    line 62 are evaluated in order), draw, and read [show_figure]. *)
Definition draw_and_show (args : plot_args) : result (figure * bool) :=
  f <- arg_first (logMUA_estimate args) ;;
  let logMUA_segment := load_segment f in
  g <- arg_first (state_vector args) ;;
  let state_vectors := np_load g in
  ch <- arg_first (channel args) ;;
  '(logMUA, t_start, t_stop) <- py_index logMUA_segment (ch - 1) ;;
  ch' <- arg_first (channel args) ;;
  sv <- py_index state_vectors (ch' - 1) ;;
  w <- arg_first (slope_window args) ;;
  fig <- plot_avg_transisitons sqrt logMUA t_start t_stop sv w ;;
  show <- arg_first (show_figure args) ;;
  Ok (fig, negb (Z.eqb show 0)).

(** Lines 69-72. *)
Definition save_figure (args : plot_args) (fig : figure) (shown : bool) : result plot_effects :=
  out <- arg_first (output args) ;;
  made <- make_data_dir (dirname out) ;;
  fname <- arg_first (output args) ;;
  fmt <- arg_first (format args) ;;
  Ok (mk_plot_effects fig shown made (fname, fmt)).

(** Lines 59-72. *)
Definition plot_main (args : plot_args) : result plot_effects :=
  '(fig, shown) <- draw_and_show args ;;
  save_figure args fig shown.
End Main.

(** ** Lemmas *)

(** Only an option given on the command line can be subscripted. *)
Lemma arg_first_ok {A} (a : cli_arg1 A) x : arg_first a = Ok x -> exists l, a = Given l.
Proof. destruct a; cbn; [eauto | discriminate | discriminate]. Qed.

Lemma arg_first_given {A} (x : A) l : arg_first (Given (x :: l)) = Ok x.
Proof. reflexivity. Qed.

Lemma after_last_sep_none l pos i :
  forallb (fun c => negb (is_sep c)) l = true -> after_last_sep l pos i = i.
Proof.
  revert pos; induction l as [|c l IH]; intros pos; cbn [forallb after_last_sep]; [reflexivity|].
  rewrite andb_true_iff. intros [Hc Hl]. destruct (is_sep c); [discriminate|]. now apply IH.
Qed.

(** A file name with no separator is in the directory [''] . *)
Lemma dirname_no_sep p :
  forallb (fun c => negb (is_sep c)) (list_ascii_of_string p) = true -> dirname p = "".
Proof. intros H. unfold dirname. now rewrite after_last_sep_none. Qed.

(** [save_figure] succeeds only when [output] and [format] are given. *)
Lemma save_figure_ok (path_exists : string -> bool) args fig shown e :
  save_figure path_exists args fig shown = Ok e ->
  (exists l, output args = Given l) /\ (exists l, format args = Given l).
Proof.
  unfold save_figure. intros H.
  apply bind_inv in H as (out & Ho & H). apply bind_inv in H as (made & _ & H).
  apply bind_inv in H as (fname & _ & H). apply bind_inv in H as (fmt & Hf & _).
  split; eapply arg_first_ok; eassumption.
Qed.

Section Claims.
Variable sqrt : Q -> Q.
Variable load_segment : string -> list plot_signal.
Variable np_load : string -> list (list bool).
Variable path_exists : string -> bool.

(** C16. plot_avg_transitions.py lines 48-72: the script only gets
    through when every one of its seven options is given on the command
    line.  They are all declared with [nargs=1], so [args.x[0]] of an
    absent one subscripts its bare default ([default=50], [0], [1]) or
    [None], and raises [TypeError]: the defaults can never take effect. *)
Theorem plot_main_needs_every_option args e :
  plot_main sqrt load_segment np_load path_exists args = Ok e ->
  (exists l, output args = Given l) /\ (exists l, logMUA_estimate args = Given l)
  /\ (exists l, state_vector args = Given l) /\ (exists l, slope_window args = Given l)
  /\ (exists l, show_figure args = Given l) /\ (exists l, format args = Given l)
  /\ (exists l, channel args = Given l).
Proof.
  unfold plot_main, draw_and_show. intros H.
  apply bind_inv in H as ([fig shown] & H1 & H). apply save_figure_ok in H as [Ho Hfmt].
  apply bind_inv in H1 as (f & Hf & H1). apply bind_inv in H1 as (g & Hg & H1).
  apply bind_inv in H1 as (ch & Hch & H1). apply bind_inv in H1 as ([[logMUA t0] t1] & _ & H1).
  apply bind_inv in H1 as (ch' & _ & H1). apply bind_inv in H1 as (sv & _ & H1).
  apply bind_inv in H1 as (w & Hw & H1). apply bind_inv in H1 as (fg & _ & H1).
  apply bind_inv in H1 as (show & Hs & _).
  repeat split; first [eassumption | eapply arg_first_ok; eassumption].
Qed.

(** C18. plot_avg_transitions.py lines 69-72: once the figure is drawn,
    the script saves it to [args.output[0]] in [args.format[0]] when
    the output path has a directory part, making the directory when it
    does not exist.  A bare file name such as [avg.png] has the
    directory [''], which [os.path.exists] denies and [os.makedirs]
    cannot make: the script raises [FileNotFoundError] and saves
    nothing. *)
Theorem plot_main_saves args fig shown out l :
  draw_and_show sqrt load_segment np_load args = Ok (fig, shown) ->
  output args = Given (out :: l) ->
  (dirname out = "" -> plot_main sqrt load_segment np_load path_exists args = Err FileNotFoundError)
  /\ (dirname out <> "" -> forall fmt l', format args = Given (fmt :: l') ->
      plot_main sqrt load_segment np_load path_exists args
      = Ok (mk_plot_effects fig shown
              (if path_exists (dirname out) then None else Some (dirname out)) (out, fmt))).
Proof.
  intros Hd Ho. unfold plot_main. rewrite Hd. cbn [bind]. unfold save_figure, make_data_dir.
  rewrite Ho, arg_first_given. cbn [bind]. split.
  - intros ->. reflexivity.
  - intros Hne fmt l' Hf. rewrite Hf, arg_first_given.
    replace (String.eqb (dirname out) "") with false by (symmetry; apply String.eqb_neq; exact Hne).
    now destruct (path_exists (dirname out)).
Qed.
End Claims.

(** ** Concrete runs *)

Definition sample_plot_signals : list plot_signal :=
  [(sample_plot_logMUA, 0, 5); (sample_plot_logMUA, 0, 10)].

Definition sample_load (_ : string) : list plot_signal := sample_plot_signals.
Definition sample_np_load (_ : string) : list (list bool) := [sample_plot_sv; sample_plot_sv].
Definition no_dirs (_ : string) : bool := false.

(** [--channel 2 --slope_window 1 --show_figure 0 --format png --output out]. *)
Definition sample_args (out : string) (ch : Z) : plot_args :=
  mk_plot_args (Given [out]) (Given ["logMUA.nix"]) (Given ["states.npy"]) (Given [1%Z])
    (Given [0%Z]) (Given ["png"]) (Given [ch]).

Lemma plot_main_needs_every_option_witness :
  exists e, plot_main (fun q => q) sample_load sample_np_load no_dirs (sample_args "figs/avg.png" 2) = Ok e
  /\ (exists l, output (sample_args "figs/avg.png" 2) = Given l)
  /\ (exists l, logMUA_estimate (sample_args "figs/avg.png" 2) = Given l)
  /\ (exists l, state_vector (sample_args "figs/avg.png" 2) = Given l)
  /\ (exists l, slope_window (sample_args "figs/avg.png" 2) = Given l)
  /\ (exists l, show_figure (sample_args "figs/avg.png" 2) = Given l)
  /\ (exists l, format (sample_args "figs/avg.png" 2) = Given l)
  /\ (exists l, channel (sample_args "figs/avg.png" 2) = Given l).
Proof.
  destruct (plot_main (fun q => q) sample_load sample_np_load no_dirs (sample_args "figs/avg.png" 2))
    as [e|err] eqn:E; [|vm_compute in E; discriminate].
  exists e. split; [reflexivity|]. exact (plot_main_needs_every_option _ _ _ _ _ e E).
Defined.

Lemma plot_main_saves_witness :
  exists fig shown,
    (draw_and_show (fun q => q) sample_load sample_np_load (sample_args "avg.png" 2) = Ok (fig, shown)
     /\ output (sample_args "avg.png" 2) = Given ["avg.png"])
    /\ ((dirname "avg.png" = ""
         -> plot_main (fun q => q) sample_load sample_np_load no_dirs (sample_args "avg.png" 2)
            = Err FileNotFoundError)
        /\ (dirname "avg.png" <> "" -> forall fmt l', format (sample_args "avg.png" 2) = Given (fmt :: l') ->
            plot_main (fun q => q) sample_load sample_np_load no_dirs (sample_args "avg.png" 2)
            = Ok (mk_plot_effects fig shown
                    (if no_dirs (dirname "avg.png") then None else Some (dirname "avg.png"))
                    ("avg.png", fmt)))).
Proof.
  destruct (draw_and_show (fun q => q) sample_load sample_np_load (sample_args "avg.png" 2))
    as [[fig shown]|err] eqn:E; [|vm_compute in E; discriminate].
  exists fig, shown. split; [split; reflexivity|].
  exact (plot_main_saves (fun q => q) sample_load sample_np_load no_dirs (sample_args "avg.png" 2)
           fig shown "avg.png" [] E eq_refl).
Defined.

(** A bare file name: the figure is drawn, then [os.makedirs('')] fails. *)
Example plot_main_bare_file_name :
  plot_main (fun q => q) sample_load sample_np_load no_dirs (sample_args "avg.png" 2) = Err FileNotFoundError.
Proof. vm_compute. reflexivity. Qed.

(** With a directory part the directory is made and the figure saved. *)
Example plot_main_saved :
  exists fig, plot_main (fun q => q) sample_load sample_np_load no_dirs (sample_args "figs/avg.png" 2)
              = Ok (mk_plot_effects fig false (Some "figs") ("figs/avg.png", "png")).
Proof. eexists. vm_compute. reflexivity. Qed.

(** posixpath.dirname on the paths the option may hold. *)
Example dirname_cases :
  dirname "avg.png" = "" /\ dirname "figs/avg.png" = "figs" /\ dirname "/avg.png" = "/"
  /\ dirname "out//figs//avg.png" = "out//figs" /\ dirname "figs/" = "figs".
Proof. vm_compute. repeat split. Qed.

(** A command line without options stops at [args.logMUA_estimate[0]]. *)
Example plot_main_no_options :
  plot_main (fun q => q) sample_load sample_np_load no_dirs no_options = Err TypeError.
Proof. reflexivity. Qed.

(** [--channel 0] is not rejected: [channel[0]-1 = -1] is Python's last
    channel. *)
Example plot_main_channel_zero :
  plot_main (fun q => q) sample_load sample_np_load no_dirs (sample_args "figs/avg.png" 0)
  = plot_main (fun q => q) sample_load sample_np_load no_dirs (sample_args "figs/avg.png" 2).
Proof. vm_compute. reflexivity. Qed.
