(* ===== verification/Cli.v ===== *)
(** * Cli: the command-line layer of fp_up_down_detection.py

    Model of [str2bool] (lines 153-161) and of the processing part of the
    main block (lines 163-190) of
    src/pipeline/fieldpotential_analysis/scripts/fp_up_down_detection.py:
    the argument defaults, the [None] that a bare [--remove_down_first]
    gives, the annotation cleanup of the loaded signals and the call of
    [create_all_state_vectors].  Reading and writing files is
    not modelled.  Strings are byte strings, and [str.lower] is ASCII
    lowering: the accepted words are ASCII, and no other character lowers
    into one of their letters. *)

From Stdlib Require Import String Ascii.
From Stdlib Require Import List Lia Bool Arith QArith.
From S2P Require Import Prelude Values Transitions Threshold Classifier Pipeline.
Import ListNotations.
Open Scope string_scope.
Open Scope list_scope.

(** A value of [--remove_down_first]: already a [bool] (the default), a
    string given on the command line, or [None], the [const] argparse
    produces for the option given with no string after it. *)
Inductive cli_value : Type :=
| CliBool (b : bool)
| CliStr (s : string)
| CliNone.

(** [c.lower()] on one character. *)
Definition lower_char (c : ascii) : ascii :=
  let n := nat_of_ascii c in
  if (65 <=? n)%nat && (n <=? 90)%nat then ascii_of_nat (n + 32)%nat else c.

Fixpoint lower (s : string) : string :=
  match s with
  | EmptyString => EmptyString
  | String c s' => String (lower_char c) (lower s')
  end.

Definition str_in (s : string) (words : list string) : bool := existsb (String.eqb s) words.

(** Lines 153-161. *)
Definition str2bool (v : cli_value) : result bool :=
  match v with
  | CliBool b => Ok b
  | CliStr s =>
      if str_in (lower s) ["yes"; "true"; "t"; "y"; "1"] then Ok true
      else if str_in (lower s) ["no"; "false"; "f"; "n"; "0"] then Ok false
      else Err ArgumentTypeError
  | CliNone => Err AttributeError
  end.

(** Line 169 as argparse applies it: [type=str2bool] converts a string
    given on the command line, and the [bool] default passes through
    [str2bool] unchanged.  A bare [--remove_down_first] yields [const],
    [None], which argparse does not convert.  The value's only use is
    [not remove_down_first] at line 60, where [None] is falsy: it acts as
    [False]. *)
Definition parse_remove_down_first (v : cli_value) : result bool :=
  match v with
  | CliNone => Ok false
  | _ => str2bool v
  end.

(** The defaults of lines 168-172. *)
Definition default_min_state_duration : nat := 2.
Definition default_remove_down_first : cli_value := CliBool true.
Definition default_fixed_threshold : Q := 0.
Definition default_sigma_threshold : Q := 0.

(** Line 178, [remove_duplicate_properties] on one loaded signal (lines
    144-151): its annotation dictionary loses [nix_name] and [neo_name]. *)
Definition clean_logmua_signal (a : logmua_signal) : logmua_signal :=
  mk_logmua_signal (ls_values a) (ls_times a) (ls_t_start a) (ls_sampling_rate a)
    (remove_duplicate_keys default_del_keys (ls_annotations a)).

Section Main.
Context `{CurveFit}.

(** Lines 178-190: the annotations of the loaded signals are cleaned in
    place ([remove_duplicate_properties] on the segment's own signals),
    then every channel is processed.  [argparse] applies [str2bool] to
    [--remove_down_first] and reports its exception as a usage error
    ([parse_remove_down_first]). *)
Definition up_down_main (signals : list logmua_signal) (min_state_duration : nat)
    (remove_down_first : cli_value) (fixed_threshold sigma_threshold : Q)
    : result (list (list bool) * list (spike_train annotations) * list (spike_train annotations)) :=
  rdf <- parse_remove_down_first remove_down_first ;;
  create_all_state_vectors min_state_duration rdf fixed_threshold sigma_threshold
    (map clean_logmua_signal signals).
End Main.

(** ** Lemmas *)

Lemma lower_idem s : lower (lower s) = lower s.
Proof.
  induction s as [|c s IH]; simpl; [reflexivity|]. rewrite IH. f_equal.
  unfold lower_char. destruct c as [b0 b1 b2 b3 b4 b5 b6 b7].
  destruct b0, b1, b2, b3, b4, b5, b6, b7; reflexivity.
Qed.

(** [str2bool] ignores case. *)
Lemma str2bool_lower s : str2bool (CliStr (lower s)) = str2bool (CliStr s).
Proof. unfold str2bool. now rewrite lower_idem. Qed.

(** The words of lines 156-159 in any case, and nothing else. *)
Lemma str2bool_words s b :
  str2bool (CliStr s) = Ok b
  <-> In (lower s) (if b then ["yes"; "true"; "t"; "y"; "1"] else ["no"; "false"; "f"; "n"; "0"]).
Proof.
  unfold str2bool, str_in.
  assert (Hin : forall ws, existsb (String.eqb (lower s)) ws = true <-> In (lower s) ws).
  { intros ws. rewrite existsb_exists. split.
    - intros (x & Hx & E). apply String.eqb_eq in E. now subst.
    - intros Hx. exists (lower s). split; [exact Hx|apply String.eqb_refl]. }
  destruct (existsb (String.eqb (lower s)) ["yes"; "true"; "t"; "y"; "1"]) eqn:E1.
  - apply Hin in E1. destruct b; split; intros Hb; try easy; try congruence.
    exfalso. simpl in E1, Hb.
    destruct E1 as [E|[E|[E|[E|[E|[]]]]]]; rewrite <- E in Hb; intuition discriminate.
  - destruct (existsb (String.eqb (lower s)) ["no"; "false"; "f"; "n"; "0"]) eqn:E2.
    + apply Hin in E2. destruct b; split; intros Hb; try easy; try congruence.
      exfalso. apply not_true_iff_false in E1. apply E1, Hin, Hb.
    + split; [discriminate|]. intros Hb. destruct b.
      * apply not_true_iff_false in E1. contradiction (E1 (proj2 (Hin _) Hb)).
      * apply not_true_iff_false in E2. contradiction (E2 (proj2 (Hin _) Hb)).
Qed.

Example str2bool_examples :
  str2bool (CliStr "Yes") = Ok true /\ str2bool (CliStr "FALSE") = Ok false
  /\ str2bool (CliStr "maybe") = Err ArgumentTypeError /\ str2bool default_remove_down_first = Ok true.
Proof. repeat split; reflexivity. Qed.

(** A bare [--remove_down_first] removes the short UP states first, as
    [--remove_down_first no] does: the opposite of the option's name and
    of its default. *)
Lemma up_down_main_bare_remove_down_first `{CurveFit} signals m fixed sigma :
  up_down_main signals m CliNone fixed sigma = up_down_main signals m (CliStr "no") fixed sigma
  /\ parse_remove_down_first default_remove_down_first = Ok true.
Proof. split; reflexivity. Qed.
