(* ===== verification/Output.v ===== *)
(** * Output: the neo blocks the two scripts write

    The containers that the main blocks build around their results, and the
    order in which they build them:
    - fp_logMUA_estimation.py: the new segment of line 31 with the logMUA
      signals (lines 33-37), and the new block of lines 108-111;
    - fp_up_down_detection.py: lines 173-206.  These read back the block the
      first script wrote, clean the annotations of the signals, of the block
      and of its first segment (lines 178-179), and save the state vectors
      (line 191).  Only after that do they rename the block and its first
      segment, put the UP->DOWN trains in the first segment and the
      DOWN->UP trains in a new second one (lines 193-203).

    neo's [Segment] and [Block] are records.  The cleaned signals of the
    first segment are the objects the cleanup edited in place, so the block
    that is written holds them (lines 178 and 181). *)

From Stdlib Require Import String.
From Stdlib Require Import List Bool Arith QArith.
From S2P Require Import Prelude Values Debounce Transitions Threshold Classifier Pipeline.
From S2P Require Import Detrend LogMUA Cli.
Import ListNotations.
Open Scope list_scope.
Open Scope string_scope.

(** ** neo's containers *)

(** A [neo.Segment]: its name and description ([None] until set), its
    annotations, its analog signals and its spike trains. *)
Record nix_segment (S T : Type) := mk_segment {
  seg_name : option string;
  seg_description : option string;
  seg_annotations : annotations;
  seg_analogsignals : list S;
  seg_spiketrains : list T
}.
Arguments mk_segment {S T}.
Arguments seg_name {S T}.
Arguments seg_description {S T}.
Arguments seg_annotations {S T}.
Arguments seg_analogsignals {S T}.
Arguments seg_spiketrains {S T}.

(** A [neo.Block]: its name, annotations and segments. *)
Record nix_block (S T : Type) := mk_block {
  blk_name : option string;
  blk_annotations : annotations;
  blk_segments : list (nix_segment S T)
}.
Arguments mk_block {S T}.
Arguments blk_name {S T}.
Arguments blk_annotations {S T}.
Arguments blk_segments {S T}.

(** [os.path.basename(__file__)] in each script. *)
Definition logMUA_script_name : string := "fp_logMUA_estimation.py".
Definition up_down_script_name : string := "fp_up_down_detection.py".

(** ** fp_logMUA_estimation.py *)

Section LogMUAOutput.
Context `{WelchPSD}.
Variable ln : Q -> Q.

(** Lines 101-111: the segment [Segment logMUA] of line 31, with the
    logMUA signals, described at line 110, is the only segment of the new
    block [Results of fp_logMUA_estimation.py]. *)
Definition logMUA_output (signals : list analog_signal) (band : Q * Q) (order : nat) (overlap : Q)
    : result (nix_block logmua_out (spike_train annotations)) :=
  outs <- logMUA_main ln signals band order overlap ;;
  let logMUA_segment := mk_segment (Some "Segment logMUA") (Some "Estimated logMUA activity") [] outs [] in
  Ok (mk_block (Some ("Results of " ++ logMUA_script_name)) [] [logMUA_segment]).
End LogMUAOutput.

(** ** fp_up_down_detection.py *)

(** Lines 195-196. *)
Definition segment1_description : string :=
  "logMUA analogsignal and transitions" ++ " from UP to DOWN state".

(** [logMUA_block.name += 'and ...']: [None += str] raises [TypeError]. *)
Definition append_name (name : option string) (suffix : string) : result string :=
  match name with
  | Some n => Ok (n ++ suffix)
  | None => Err TypeError
  end.

Section UpDownOutput.
Context `{CurveFit}.

(** Lines 173-206 on the block read at line 176.  [--remove_down_first]
    is converted when the arguments are parsed (line 173).  The state
    vectors are saved (line 191) before the block is renamed, so the outer
    result is what reaches [np.save] and the inner one the block that
    reaches [io.write]. *)
Definition up_down_output (logMUA_block : nix_block logmua_signal (spike_train annotations))
    (min_state_duration : nat) (remove_down_first : cli_value) (fixed_threshold sigma_threshold : Q)
    : result (list (list bool) * result (nix_block logmua_signal (spike_train annotations))) :=
  rdf <- parse_remove_down_first remove_down_first ;;
  match blk_segments logMUA_block with
  | [] => Err IndexError
  | segment0 :: rest =>
      '(state_vectors, up_trains, down_trains)
        <- up_down_main (seg_analogsignals segment0) min_state_duration (CliBool rdf)
                        fixed_threshold sigma_threshold ;;
      Ok (state_vectors,
          name <- append_name (blk_name logMUA_block) ("and " ++ up_down_script_name) ;;
          let segment1 := mk_segment (Some "Segment 1") (Some segment1_description)
                            (remove_duplicate_keys default_del_keys (seg_annotations segment0))
                            (map clean_logmua_signal (seg_analogsignals segment0)) up_trains in
          let seg2 := mk_segment (Some "Segment UP -> DOWN") (Some "Transitions from DOWN to UP state")
                        [] [] down_trains in
          Ok (mk_block (Some name) (remove_duplicate_keys default_del_keys (blk_annotations logMUA_block))
                       ((segment1 :: rest) ++ [seg2])%list))
  end.
End UpDownOutput.

(** ** Lemmas *)

(** A block with no segment stops at [segments[0]] (line 178), before any
    output: a bad [--remove_down_first] is reported first, at parsing. *)
Lemma up_down_output_no_segment `{CurveFit} blk m rdf fixed sigma :
  blk_segments blk = [] ->
  up_down_output blk m rdf fixed sigma
  = match parse_remove_down_first rdf with Ok _ => Err IndexError | Err e => Err e end.
Proof. intros E. unfold up_down_output. rewrite E. now destruct (parse_remove_down_first rdf). Qed.
