(* ===== verification/Compose.v ===== *)
(** * Compose: the two scripts in sequence

    fp_logMUA_estimation.py writes one block with one segment of logMUA
    signals (Output.logMUA_output); fp_up_down_detection.py reads it back,
    processes its signals and writes the extended block
    (Output.up_down_output).  The storage in between (NIX writing and
    reading) is not modelled; it is the relation [stored_block]: the
    block's name, its segments' names and descriptions, each signal's
    values, its [t_start], its rate, neo's time grid [signal_times] of
    [t_start + k / rate], and every annotation but NixIO's bookkeeping keys
    [nix_name] and [neo_name], which reading may add or change ([stored]).
    When the raw channels share one span [T0 < T1] (the rate of line 29 is
    the first signal's), this file proves that the state detection then
    runs on every channel whose fit converges:
    - the cleanup of line 178 removes the keys reading added;
    - the [t_stop] it needs is the annotation the first script wrote;
    - no keyword of its call clashes with an annotation;
    - every transition time lies within its channel's span, so neo's
      [SpikeTrain] check passes ([signal_times_in_span]);
    - every UP->DOWN train ends at its raw signal's stop time;
    - the state vectors share one length, so [np.array] stacks them;
    - the block written has the two segments of lines 194-203.
    Channels of different spans can fail that check
    ([up_down_output_mixed_spans]). *)

From Stdlib Require Import String.
From Stdlib Require Import List Lia Bool Arith QArith Lqa.
From S2P Require Import Prelude Values DebounceSpec Debounce Transitions Threshold Classifier Pipeline.
From S2P Require Import Detrend LogMUA Cli Output.
Import ListNotations.
Open Scope string_scope.
Open Scope list_scope.

(** neo's [AnalogSignal.times]: [t_start + np.arange(n) / sampling_rate]. *)
Definition signal_times (t_start sampling_rate : Q) (n : nat) : list Q :=
  map (fun k => t_start + inject_Z (Z.of_nat k) / sampling_rate) (seq 0 n).

(** The storage round trip between the scripts keeps a signal's values,
    its start time and sampling rate (so its time grid), and every
    annotation but the bookkeeping keys of NixIO ([nix_name],
    [neo_name]), which reading may add or change. *)
Definition stored (o : logmua_out) (s : logmua_signal) : Prop :=
  ls_values s = lo_values o
  /\ lo_sampling_rate o = Fin (ls_sampling_rate s) /\ ls_t_start s = lo_t_start o
  /\ ls_times s = signal_times (ls_t_start s) (ls_sampling_rate s) (length (ls_values s))
  /\ (forall k, ~ In k default_del_keys -> lookup_key k (ls_annotations s) = lookup_key k (lo_annotations o))
  /\ incl (map fst (ls_annotations s)) (map fst (lo_annotations o) ++ default_del_keys).

(** A segment read back keeps its name, its description and its signals. *)
Definition stored_segment {T1 T2} (s1 : nix_segment logmua_out T1) (s2 : nix_segment logmua_signal T2)
    : Prop :=
  seg_name s2 = seg_name s1 /\ seg_description s2 = seg_description s1
  /\ Forall2 stored (seg_analogsignals s1) (seg_analogsignals s2).

(** A block read back keeps its name and its segments. *)
Definition stored_block {T1 T2} (b1 : nix_block logmua_out T1) (b2 : nix_block logmua_signal T2)
    : Prop :=
  blk_name b2 = blk_name b1 /\ Forall2 stored_segment (blk_segments b1) (blk_segments b2).

(** The keywords of the state-detection call. *)
Definition sv2st_reserved : list string := "state_vector" :: sv2st_explicit_keywords.

(** ** Annotation cleanup keeps what the hand-over needs *)

Lemma existsb_del_key (p : string * aval -> bool) k d :
  existsb p d = false -> existsb p (del_key k d) = false.
Proof.
  induction d as [|[k1 v1] d IH]; simpl; [auto|]. rewrite orb_false_iff. intros [H1 H2].
  destruct (String.eqb k1 k); [exact H2|]. simpl. rewrite H1. auto.
Qed.

Lemma existsb_remove_duplicate_keys (p : string * aval -> bool) keys d :
  existsb p d = false -> existsb p (remove_duplicate_keys keys d) = false.
Proof.
  unfold remove_duplicate_keys. revert d; induction keys as [|k keys IH]; intros d Hd; [exact Hd|].
  cbn [fold_left]. apply IH. destruct (has_key k d); [now apply existsb_del_key|exact Hd].
Qed.

Lemma lookup_del_key_other k k' d : String.eqb k' k = false -> lookup_key k (del_key k' d) = lookup_key k d.
Proof.
  intros Hk. induction d as [|[k1 v1] d IH]; simpl; [reflexivity|].
  destruct (String.eqb_spec k1 k'); simpl.
  - subst k1. now rewrite Hk.
  - destruct (String.eqb k1 k); [reflexivity|exact IH].
Qed.

Lemma lookup_remove_duplicate_keys_other k keys d :
  existsb (fun k' => String.eqb k' k) keys = false ->
  lookup_key k (remove_duplicate_keys keys d) = lookup_key k d.
Proof.
  unfold remove_duplicate_keys. revert d; induction keys as [|k' keys IH]; intros d Hk; [reflexivity|].
  cbn [existsb] in Hk. apply orb_false_iff in Hk as [Hk' Hk]. cbn [fold_left]. rewrite IH by exact Hk.
  destruct (has_key k' d); [now apply lookup_del_key_other|reflexivity].
Qed.

Lemma in_remove_duplicate_keys x keys d :
  In x (map fst (remove_duplicate_keys keys d)) -> In x (map fst d).
Proof.
  unfold remove_duplicate_keys. revert d; induction keys as [|k keys IH]; intros d H;
    cbn [fold_left] in H; [exact H|].
  apply IH in H. destruct (has_key k d); [exact (in_del_key _ _ _ H)|exact H].
Qed.

(** After line 178 has cleaned the annotations read back, the
    state-detection call binds the [t_stop] it would have bound on the
    annotations written: the keys reading adds are removed, and they are
    no keyword of the call. *)
Lemma bind_sv2st_call_stored d d' t rest :
  bind_sv2st_call d = Ok (t, rest) ->
  (forall k, ~ In k default_del_keys -> lookup_key k d' = lookup_key k d) ->
  incl (map fst d') (map fst d ++ default_del_keys) ->
  exists rest', bind_sv2st_call (remove_duplicate_keys default_del_keys d') = Ok (t, rest').
Proof.
  unfold bind_sv2st_call. destruct (existsb _ d) eqn:Ek; [discriminate|]. intros Hb Hl Hi.
  replace (existsb _ (remove_duplicate_keys default_del_keys d')) with false.
  2: { symmetry. apply not_true_iff_false. intros Hx. apply existsb_exists in Hx as ([k v] & Hin & Hk).
       apply (in_map fst), in_remove_duplicate_keys, Hi, in_app_or in Hin. cbn [fst] in *.
       destruct Hin as [Hin|Hin].
       - apply in_map_iff in Hin as ([k' v'] & Heq & Hin'). cbn in Heq; subst k'.
         apply not_true_iff_false in Ek. apply Ek, existsb_exists. now exists (k, v').
       - revert Hk. destruct Hin as [<-|[<-|[]]]; vm_compute; discriminate. }
  rewrite lookup_remove_duplicate_keys_other by reflexivity.
  rewrite Hl by (cbn; intuition discriminate).
  destruct (lookup_key "t_stop" d) as [[q|s]|]; try discriminate. injection Hb as <- _. eauto.
Qed.

(** ** One channel through both scripts *)

Section Compose.
Context `{WelchPSD} `{CurveFit}.
Variable ln : Q -> Q.
Variable min_state_duration : nat.
Variable remove_down_first : bool.
Variable fixed_threshold sigma_threshold : Q.

Lemma channel_through a fs n W band rate order overlap o s sv :
  logMUA_estimation ln (clean_analog_signal a) fs n W band rate order overlap = Ok o ->
  existsb (key_in sv2st_reserved) (as_annotations a) = false ->
  stored o s ->
  create_state_vector (lo_values o) fixed_threshold sigma_threshold = Ok sv ->
  ls_t_start s <= as_t_stop a -> Forall (fun t => ls_t_start s <= t <= as_t_stop a) (ls_times s) ->
  exists r, process_channel min_state_duration remove_down_first fixed_threshold sigma_threshold
              (clean_logmua_signal s) = Ok r
            /\ fst (fst r) = remove_short_states sv min_state_duration remove_down_first
            /\ st_t_stop (snd (fst r)) = as_t_stop a.
Proof.
  intros Ho Hk (Hv & _ & _ & Htimes & Hl & Hi) Hsv Hle Hrange.
  destruct (logMUA_estimation_handoff _ _ _ _ _ _ _ _ _ _ Ho) as [rest Hb];
    [now apply existsb_remove_duplicate_keys|].
  destruct (bind_sv2st_call_stored _ _ _ _ Hb Hl Hi) as [rest' Hb'].
  assert (Hlen : (length (remove_short_states sv min_state_duration remove_down_first)
                  <= length (ls_times s))%nat).
  { rewrite remove_short_states_spec, !spec_pass_length, (create_state_vector_length _ _ _ _ Hsv),
      Htimes; unfold signal_times; rewrite length_map, length_seq, Hv. lia. }
  destruct (statevector_to_spiketrains_ok (remove_short_states sv min_state_duration remove_down_first)
              (ls_sampling_rate s) (ls_times s) (ls_t_start s) (as_t_stop a)
              (sv2st_kwargs fixed_threshold sigma_threshold min_state_duration rest') Hlen Hle Hrange)
    as (ups & downs & Est & Hu).
  unfold process_channel. cbn [ls_values ls_annotations ls_times ls_t_start ls_sampling_rate
    clean_logmua_signal].
  rewrite Hv, Hsv. cbn [bind]. rewrite Hb'. cbn [bind]. cbn [as_t_stop clean_analog_signal]. rewrite Est. cbn [bind].
  eexists; split; [reflexivity|]. split; [reflexivity|exact Hu].
Qed.

(** neo's time grid at the rate of line 29 stays within the span: the
    [k]-th of [n] samples is at [T0 + k (T1 - T0) / n < T1]. *)
Lemma signal_times_in_span (T0 T1 : Q) (n : Z) :
  T0 < T1 -> (0 <= n)%Z ->
  Forall (fun t => T0 <= t <= T1) (signal_times T0 (inject_Z n / (T1 - T0)) (Z.to_nat n)).
Proof.
  intros HT Hn. apply Forall_forall. intros t Ht. unfold signal_times in Ht.
  apply in_map_iff in Ht as (k & <- & Hk). apply in_seq in Hk.
  assert (HK : inject_Z 0 <= inject_Z (Z.of_nat k)) by (rewrite <- Zle_Qle; lia).
  assert (HKN : inject_Z (Z.of_nat k) <= inject_Z n) by (rewrite <- Zle_Qle; lia).
  assert (HN : inject_Z 0 < inject_Z n) by (rewrite <- Zlt_Qlt; lia).
  change (inject_Z 0) with 0 in HK, HN.
  assert (E : inject_Z (Z.of_nat k) / (inject_Z n / (T1 - T0))
              == inject_Z (Z.of_nat k) / inject_Z n * (T1 - T0))
    by (field; split; intros Hc; lra).
  assert (H1 : 0 <= inject_Z (Z.of_nat k) / inject_Z n)
    by (apply Qle_shift_div_l; [exact HN|lra]).
  assert (H2 : inject_Z (Z.of_nat k) / inject_Z n <= 1)
    by (apply Qle_shift_div_r; [exact HN|lra]).
  assert (H3 : 0 <= inject_Z (Z.of_nat k) / inject_Z n * (T1 - T0))
    by (apply Qmult_le_0_compat; lra).
  assert (H4 : inject_Z (Z.of_nat k) / inject_Z n * (T1 - T0) <= 1 * (T1 - T0))
    by (apply Qmult_le_compat_r; lra).
  rewrite E. lra.
Qed.

(** A channel of the segment's span, read back, has its times within
    that span. *)
Lemma stored_times_in_span a fs n W band T0 T1 order overlap o s :
  logMUA_estimation ln (clean_analog_signal a) fs n W band (fdiv (inject_Z n) (T1 - T0)) order overlap
  = Ok o ->
  stored o s -> as_t_start a = T0 -> as_t_stop a = T1 -> T0 < T1 ->
  ls_t_start s = T0 /\ Forall (fun t => ls_t_start s <= t <= as_t_stop a) (ls_times s).
Proof.
  intros Ho (Hv & Hr & Ht0 & Htimes & _) Ha0 Ha1 HT.
  destruct (logMUA_estimation_rate _ _ _ _ _ _ _ _ _ _ Ho) as [Hrate Hn].
  destruct (logMUA_estimation_length _ _ _ _ _ _ _ _ _ _ Ho) as [Hlen Hstart].
  unfold fdiv in Hrate. replace (Qeq_bool (T1 - T0) 0) with false in Hrate
    by (symmetry; apply not_true_iff_false; intros Hq; apply Qeq_bool_iff in Hq; lra).
  rewrite Hr in Hrate. injection Hrate as Hrate.
  assert (Hs0 : ls_t_start s = T0) by (rewrite Ht0, Hstart; exact Ha0).
  split; [exact Hs0|]. rewrite Htimes, Hrate, Hv, Hlen, Hs0, Ha1.
  now apply signal_times_in_span.
Qed.

Lemma channels_through signals outs ss svs0 fs n W band T0 T1 order overlap :
  T0 < T1 -> Forall (fun a => as_t_start a = T0 /\ as_t_stop a = T1) signals ->
  Forall2 (fun a o => logMUA_estimation ln a fs n W band (fdiv (inject_Z n) (T1 - T0)) order overlap
                      = Ok o)
          (map clean_analog_signal signals) outs ->
  Forall (fun a => existsb (key_in sv2st_reserved) (as_annotations a) = false) signals ->
  Forall2 stored outs ss ->
  Forall2 (fun o sv => create_state_vector (lo_values o) fixed_threshold sigma_threshold = Ok sv)
          outs svs0 ->
  exists rs, Forall2 (fun s r => process_channel min_state_duration remove_down_first fixed_threshold
                                   sigma_threshold s = Ok r) (map clean_logmua_signal ss) rs
    /\ map (fun r => fst (fst r)) rs
       = map (fun sv => remove_short_states sv min_state_duration remove_down_first) svs0
    /\ Forall2 (fun a r => st_t_stop (snd (fst r)) = as_t_stop a) signals rs.
Proof.
  intros HT Hspan. revert outs ss svs0.
  induction signals as [|a signals IH]; intros outs ss svs0 Hest Hk Hst Hsv.
  - inversion Hest; subst. inversion Hst; subst. inversion Hsv; subst.
    exists []. repeat split; constructor.
  - cbn [map] in Hest. inversion Hest as [|? o ? outs' Ho Hest']; subst.
    inversion Hst as [|? s ? ss' Hs Hst']; subst. inversion Hsv as [|? sv ? svs' Hv Hsv']; subst.
    apply Forall_cons_iff in Hk as [Hka Hk]. apply Forall_cons_iff in Hspan as [[Ha0 Ha1] Hspan].
    destruct (stored_times_in_span a _ _ _ _ _ _ _ _ o s Ho Hs Ha0 Ha1 HT) as [Hs0 Hrange].
    assert (Hle : ls_t_start s <= as_t_stop a) by (rewrite Hs0, Ha1; lra).
    destruct (channel_through a _ _ _ _ _ _ _ o s sv Ho Hka Hs Hv Hle Hrange) as (r & Hr & Hr1 & Hr2).
    destruct (IH Hspan outs' ss' svs' Hest' Hk Hst' Hsv') as (rs & Hrs & Hm & Ht).
    exists (r :: rs). cbn [map]. split; [now constructor|]. split; [now rewrite Hr1, Hm|].
    now constructor.
Qed.

(** The state vectors of signals estimated with one window count all have
    that count's length: [np.array] stacks them (line 118). *)
Lemma state_vectors_rectangular signals outs svs0 fs n W band rate order overlap :
  Forall2 (fun a o => logMUA_estimation ln a fs n W band rate order overlap = Ok o) signals outs ->
  Forall2 (fun o sv => create_state_vector (lo_values o) fixed_threshold sigma_threshold = Ok sv)
          outs svs0 ->
  rectangular (map (fun sv => remove_short_states sv min_state_duration remove_down_first) svs0)
  = true.
Proof.
  intros Hest Hsv. apply (rectangular_const _ (Z.to_nat n)), Forall_map.
  revert signals Hest. induction Hsv as [|o sv outs svs Hv _ IH]; intros signals Hest;
    [constructor|].
  inversion Hest as [|a ? signals' ? Ho Hest']; subst. constructor; [|exact (IH _ Hest')].
  rewrite remove_short_states_spec, !spec_pass_length.
  rewrite (create_state_vector_length _ _ _ _ Hv). exact (proj1 (logMUA_estimation_length _ _ _ _ _ _ _ _ _ _ Ho)).
Qed.
End Compose.

Section Claims.
Context `{WelchPSD} `{CurveFit}.
Variable ln : Q -> Q.

(** The state detection on the signals read back. *)
Lemma two_stage_detection signals band order overlap outs ss svs0 m rdf fixed sigma T0 T1 :
  logMUA_main ln signals band order overlap = Ok outs ->
  T0 < T1 -> Forall (fun a => as_t_start a = T0 /\ as_t_stop a = T1) signals ->
  Forall (fun a => existsb (key_in sv2st_reserved) (as_annotations a) = false) signals ->
  Forall2 stored outs ss ->
  Forall2 (fun o sv => create_state_vector (lo_values o) fixed sigma = Ok sv) outs svs0 ->
  exists U D, up_down_main ss m (CliBool rdf) fixed sigma
              = Ok (map (fun sv => remove_short_states sv m rdf) svs0, U, D)
    /\ Forall2 (fun a u => st_t_stop u = as_t_stop a) signals U.
Proof.
  intros Hl HT Hspan Hk Hst Hsv. unfold logMUA_main in Hl.
  destruct (build_logMUA_segment_rate _ _ _ _ _ _ Hl) as (a0 & rest & fs & n & W & Hs & Hest).
  destruct signals as [|a signals']; [discriminate|]. injection Hs as <- _.
  destruct (Forall_inv Hspan) as [Ha0 Ha1].
  cbn [as_t_start as_t_stop clean_analog_signal] in Hest. rewrite Ha0, Ha1 in Hest.
  destruct (channels_through ln m rdf fixed sigma (a :: signals') outs ss svs0 fs n W band
              T0 T1 order overlap HT Hspan Hest Hk Hst Hsv)
    as (rs & Hrs & Hm & Ht).
  exists (map (fun r => snd (fst r)) rs), (map snd rs). split.
  - unfold up_down_main. cbn [parse_remove_down_first str2bool bind]. rewrite <- Hm.
    apply create_all_state_vectors_iff. exists rs. split; [exact Hrs|].
    split; [reflexivity|]. split; [|auto]. rewrite Hm.
    exact (state_vectors_rectangular ln m rdf fixed sigma _ outs svs0 fs n W band _ order overlap
             Hest Hsv).
  - now apply Forall2_map_r.
Qed.

(** C22. The two scripts compose (spec sections 3 and 4). Take raw
    channels that share one span [T0 < T1] and whose annotations use none
    of the state-detection call's keywords.  Suppose fp_logMUA_estimation.py succeeds and the block it
    writes is read back.  Then, once every channel's fit converges,
    fp_up_down_detection.py raises nothing.  It saves the debounced state
    vectors in channel order and writes the block
    [Results of fp_logMUA_estimation.pyand fp_up_down_detection.py] (no
    space before [and]) with two segments:
    - [Segment 1] holds the UP->DOWN trains of [create_all_state_vectors],
      each ending at its raw signal's stop time, reached through the
      [t_stop] annotation of fp_logMUA_estimation.py line 66;
    - [Segment UP -> DOWN] holds its DOWN->UP trains. *)
Theorem two_stage_pipeline signals band order overlap b1 b2 svs0 m rdf fixed sigma T0 T1 :
  logMUA_output ln signals band order overlap = Ok b1 ->
  T0 < T1 -> Forall (fun a => as_t_start a = T0 /\ as_t_stop a = T1) signals ->
  Forall (fun a => existsb (key_in sv2st_reserved) (as_annotations a) = false) signals ->
  stored_block b1 b2 ->
  Forall2 (fun o sv => create_state_vector (lo_values o) fixed sigma = Ok sv)
          (flat_map seg_analogsignals (blk_segments b1)) svs0 ->
  exists U D blk,
    up_down_main (flat_map seg_analogsignals (blk_segments b2)) m (CliBool rdf) fixed sigma
    = Ok (map (fun sv => remove_short_states sv m rdf) svs0, U, D)
    /\ up_down_output b2 m (CliBool rdf) fixed sigma
       = Ok (map (fun sv => remove_short_states sv m rdf) svs0, Ok blk)
    /\ Forall2 (fun a u => st_t_stop u = as_t_stop a) signals U
    /\ blk_name blk = Some "Results of fp_logMUA_estimation.pyand fp_up_down_detection.py"
    /\ map (fun s => (seg_name s, seg_spiketrains s)) (blk_segments blk)
       = [(Some "Segment 1", U); (Some "Segment UP -> DOWN", D)].
Proof.
  intros Hl HT Hspan Hk [Hn Hsegs] Hsv. unfold logMUA_output in Hl.
  apply bind_inv in Hl as (outs & Hm & Hb). injection Hb as <-.
  destruct b2 as [name2 ann2 segs2]. cbn in Hn, Hsegs, Hsv. cbn [blk_segments]. subst name2.
  inversion Hsegs as [|? s2 ? l2 [_ [_ Hss]] Hnil]; subst. inversion Hnil; subst.
  cbn [flat_map] in Hsv |- *. rewrite !app_nil_r in Hsv |- *.
  destruct (two_stage_detection signals band order overlap outs _ svs0 m rdf fixed sigma T0 T1
              Hm HT Hspan Hk Hss Hsv)
    as (U & D & Hud & Ht).
  exists U, D. eexists. split; [exact Hud|].
  split; [unfold up_down_output; cbn [parse_remove_down_first str2bool bind blk_segments]; rewrite Hud; reflexivity|].
  split; [exact Ht|]. split; reflexivity.
Qed.
End Claims.

(** ** A concrete run: [sample_signal] through both scripts *)

Definition compose_b1 : nix_block logmua_out (spike_train annotations) :=
  match @logMUA_output flat_welch (fun q => q) [sample_signal] (2, 3) 1 0 with
  | Ok b => b
  | Err _ => mk_block None [] []
  end.

Definition compose_outs : list logmua_out := flat_map seg_analogsignals (blk_segments compose_b1).

(** The rate NixIO stores for a logMUA signal; a non-finite rate is
    outside what [read_back] describes. *)
Definition stored_rate (o : logmua_out) : Q :=
  match lo_sampling_rate o with Fin r => r | _ => 0 end.

(** A block read back: each signal on neo's time grid from its [t_start]
    at its rate, with the [nix_name] NixIO gives each object. *)
Definition read_back {T1 T2} (b : nix_block logmua_out T1) : nix_block logmua_signal T2 :=
  mk_block (blk_name b) []
    (map (fun s => mk_segment (seg_name s) (seg_description s) []
                     (map (fun o => mk_logmua_signal (lo_values o)
                                      (signal_times (lo_t_start o) (stored_rate o) (length (lo_values o)))
                                      (lo_t_start o) (stored_rate o)
                                      (("nix_name", AvOther "neo.analogsignal") :: lo_annotations o))
                          (seg_analogsignals s)) [])
         (blk_segments b)).

Definition compose_b2 : nix_block logmua_signal (spike_train annotations) :=
  read_back compose_b1.

Definition compose_svs : list (list bool) :=
  map (fun o => match @create_state_vector moment_curve_fit (lo_values o) 0 1 with
                | Ok sv => sv
                | Err _ => []
                end) compose_outs.

Lemma Forall2_results {A B} (f : A -> result B) (d : B) os :
  forallb (fun o => is_ok (f o)) os = true ->
  Forall2 (fun o b => f o = Ok b) os (map (fun o => match f o with Ok b => b | Err _ => d end) os).
Proof.
  induction os as [|o os IH]; simpl; [constructor|]. rewrite andb_true_iff. intros [Ho Hos].
  constructor; [|now apply IH]. destruct (f o); [reflexivity|discriminate].
Qed.

Lemma stored_read_back {T1 T2} (b : nix_block logmua_out T1) :
  forallb (fun o => isfinite (lo_sampling_rate o)) (flat_map seg_analogsignals (blk_segments b)) = true ->
  stored_block b (read_back (T2 := T2) b).
Proof.
  intros Hfin. split; [reflexivity|]. cbn [read_back blk_segments]. revert Hfin.
  induction (blk_segments b) as [|s l IH]; intros Hfin; [constructor|].
  cbn [flat_map] in Hfin. rewrite forallb_app in Hfin. apply andb_prop in Hfin as [Hs Hl].
  constructor; [|exact (IH Hl)].
  split; [reflexivity|]. split; [reflexivity|]. cbn [seg_analogsignals]. revert Hs.
  induction (seg_analogsignals s) as [|o os IHo]; intros Hs; [constructor|].
  cbn [forallb] in Hs. apply andb_prop in Hs as [Ho Hs]. constructor; [|exact (IHo Hs)].
  split; [reflexivity|]. split; [unfold stored_rate; now destruct (lo_sampling_rate o)|].
  split; [reflexivity|]. split; [reflexivity|]. cbn [ls_annotations]. split.
  - intros k Hk. cbn [lookup_key fst snd]. destruct (String.eqb_spec "nix_name" k); [|reflexivity].
    subst k. exfalso. apply Hk. now left.
  - intros k [<-|Hk]; apply in_or_app; [right; now left|now left].
Qed.

Lemma two_stage_pipeline_witness :
  (@logMUA_output flat_welch (fun q => q) [sample_signal] (2, 3) 1 0 = Ok compose_b1
   /\ 0 < 1 /\ Forall (fun a => as_t_start a = 0 /\ as_t_stop a = 1) [sample_signal]
   /\ Forall (fun a => existsb (key_in sv2st_reserved) (as_annotations a) = false) [sample_signal]
   /\ stored_block compose_b1 compose_b2
   /\ Forall2 (fun o sv => @create_state_vector moment_curve_fit (lo_values o) 0 1 = Ok sv)
              (flat_map seg_analogsignals (blk_segments compose_b1)) compose_svs)
  /\ exists U D blk,
    @up_down_main moment_curve_fit (flat_map seg_analogsignals (blk_segments compose_b2)) 2 (CliBool true) 0 1
    = Ok (map (fun sv => remove_short_states sv 2 true) compose_svs, U, D)
    /\ @up_down_output moment_curve_fit compose_b2 2 (CliBool true) 0 1
       = Ok (map (fun sv => remove_short_states sv 2 true) compose_svs, Ok blk)
    /\ Forall2 (fun a u => st_t_stop u = as_t_stop a) [sample_signal] U
    /\ blk_name blk = Some "Results of fp_logMUA_estimation.pyand fp_up_down_detection.py"
    /\ map (fun s => (seg_name s, seg_spiketrains s)) (blk_segments blk)
       = [(Some "Segment 1", U); (Some "Segment UP -> DOWN", D)].
Proof.
  assert (H1 : @logMUA_output flat_welch (fun q => q) [sample_signal] (2, 3) 1 0 = Ok compose_b1)
    by (vm_compute; reflexivity).
  assert (H2 : Forall (fun a => existsb (key_in sv2st_reserved) (as_annotations a) = false)
                 [sample_signal]) by (constructor; [vm_compute; reflexivity|constructor]).
  assert (H3 : stored_block compose_b1 compose_b2)
    by (apply stored_read_back; vm_compute; reflexivity).
  assert (HT : 0 < 1) by reflexivity.
  assert (Hspan : Forall (fun a => as_t_start a = 0 /\ as_t_stop a = 1) [sample_signal])
    by (repeat constructor).
  assert (H4 : Forall2 (fun o sv => @create_state_vector moment_curve_fit (lo_values o) 0 1 = Ok sv)
                 (flat_map seg_analogsignals (blk_segments compose_b1)) compose_svs)
    by (apply (Forall2_results (fun o => @create_state_vector moment_curve_fit (lo_values o) 0 1) []);
        vm_compute; reflexivity).
  split; [exact (conj H1 (conj HT (conj Hspan (conj H2 (conj H3 H4)))))|].
  exact (@two_stage_pipeline flat_welch moment_curve_fit (fun q => q) [sample_signal] (2, 3) 1 0
           compose_b1 compose_b2 compose_svs 2 true 0 1 0 1 H1 HT Hspan H2 H3 H4).
Defined.

(** A block read back without a name: [None += str] raises [TypeError]
    at line 193, after [np.save] has written the state vectors (line 191),
    so no NIX file is written. *)
Example up_down_output_unnamed :
  @up_down_output moment_curve_fit (mk_block None [] (blk_segments compose_b2)) 2 (CliBool true) 0 1
  = Ok (map (fun sv => remove_short_states sv 2 true) compose_svs, Err TypeError).
Proof. vm_compute. reflexivity. Qed.

(** Signals of one segment with different spans: the logMUA rate comes
    from the first signal (fp_logMUA_estimation.py line 29), so the second
    channel's logMUA samples run at times [0] and [1/2] past its own
    [t_stop = 1/4].  Its DOWN->UP transition at [1/2] lies outside the
    spike train, and neo raises [ValueError] before any output. *)
Definition short_signal : analog_signal :=
  mk_analog_signal [1; 3; 2; 6; 4; 4; 0; 8] 0 (1 # 4) 8 [("nix_name", AvOther "ch1"); ("channel", AvQ 1)].

Example up_down_output_mixed_spans :
  match @logMUA_output flat_welch (fun q => q) [sample_signal; short_signal] (2, 3) 1 0 with
  | Ok b1 => @up_down_output moment_curve_fit (read_back b1) 1 (CliBool true) 0 1 = Err ValueError
  | Err _ => False
  end.
Proof. vm_compute. reflexivity. Qed.
